(** * MaintSight: commit aggregation, feature extraction and tree scoring

    A shallow embedding of the three-stage pipeline of the repository
    (GitCommitCollector, FeatureEngineer, XGBoostPredictor) and of the
    JavaScript runtime functions those classes call, of the constructor of
    the collector and of the helpers of the predict command and of the
    report generator that consume their results, followed by the
    properties established about them.

    Conventions.
    - JavaScript strings are modelled by [string] (sequences of 8-bit
      characters); [trim], [parseInt], the class of white space of a
      regular expression and [toLowerCase] know the ASCII white space and
      the ASCII letters only.
    - [undefined] is [None] wherever the source can observe it (array reads
      out of range, optional fields, destructuring of a short array).
    - The counters of the collector and the time values of dates are exact
      integers ([Z]) and its ratios exact rationals ([Q]); an Invalid Date
      and a NaN count of days are [None].  Below 2^53 the integers are the
      values the program computes; the ratios are the values it rounds.
    - The arithmetic of the feature engineer and of the scorer is written
      once, against the interface [JsNumber], and run on two carriers:
      IEEE-754 binary64 ([float], the arithmetic of the program, with
      [Math.pow(x, 2)] taken as the correctly rounded square) and exact reals
      extended with NaN ([xreal], arithmetic without rounding and without
      infinities).  [Math.exp] is the real exponential on [xreal] and an
      arbitrary function on binary64.
    - [Map] and [Set] are association lists and lists in insertion order.
    - The [while (true)] loop of the tree walk is run with a budget of
      turns; [OutOfFuel] stands for a walk that has not returned within it.
    - The effects on the outside world enter as parameters: the output of
      the [git log] command, [fs.existsSync], the clock and the bundled
      model.  What the source writes to its logger is left out. *)

From Stdlib Require Import ZArith QArith List Bool String Ascii Lia.
From Stdlib Require Import Reals Lra.
From Stdlib Require Import Floats.
Import ListNotations.

Set Warnings "-inexact-float".
Set Implicit Arguments.

Local Open Scope string_scope.
Local Open Scope Z_scope.

(* ================================================================== *)
(** * Outcomes of a call *)
(* ================================================================== *)

(** A call returns a value, throws, or (for the [while (true)] loop of the
    tree walk, which is run with a step budget) exhausts its budget. *)
Inductive error : Type :=
| Error (message : string)
| TypeError (message : string).

Inductive result (A : Type) : Type :=
| Ok (a : A)
| Throw (e : error)
| OutOfFuel.

Arguments Ok {A} a.
Arguments Throw {A} e.
Arguments OutOfFuel {A}.

Definition bind {A B : Type} (r : result A) (f : A -> result B) : result B :=
  match r with
  | Ok a => f a
  | Throw e => Throw e
  | OutOfFuel => OutOfFuel
  end.

Notation "x <- c ;; k" := (bind c (fun x => k))
  (at level 61, c at next level, right associativity).

(** [xs.map(f)] for an [f] that may throw or run out of budget. *)
Fixpoint mapM {A B : Type} (f : A -> result B) (xs : list A) : result (list B) :=
  match xs with
  | [] => Ok []
  | x :: xs' => y <- f x ;; ys <- mapM f xs' ;; Ok (y :: ys)
  end.

(* ================================================================== *)
(** * JavaScript strings *)
(* ================================================================== *)

Module Js.

Definition chr (n : nat) : ascii := ascii_of_nat n.

Definition isDigit (c : ascii) : bool :=
  let n := nat_of_ascii c in (48 <=? n)%nat && (n <=? 57)%nat.

(** ASCII part of the white space recognised by [trim], [parseInt] and [\s]:
    TAB, LF, VT, FF, CR and SPACE. *)
Definition isSpace (c : ascii) : bool :=
  let n := nat_of_ascii c in
  ((9 <=? n)%nat && (n <=? 13)%nat) || (n =? 32)%nat.

(** Line terminators, the characters [.] of a regular expression rejects. *)
Definition isLineTerminator (c : ascii) : bool :=
  let n := nat_of_ascii c in (n =? 10)%nat || (n =? 13)%nat.

Definition lowerChar (c : ascii) : ascii :=
  let n := nat_of_ascii c in
  if (65 <=? n)%nat && (n <=? 90)%nat then ascii_of_nat (n + 32) else c.

(** [s.toLowerCase()] *)
Fixpoint toLowerCase (s : string) : string :=
  match s with
  | EmptyString => EmptyString
  | String c s' => String (lowerChar c) (toLowerCase s')
  end.

(** [s.startsWith(p)] *)
Definition startsWith (s p : string) : bool := String.prefix p s.

(** [s.includes(sub)] *)
Fixpoint includes (s sub : string) : bool :=
  if String.prefix sub s then true
  else match s with
       | EmptyString => false
       | String _ s' => includes s' sub
       end.

(** [s.endsWith(p)] *)
Fixpoint endsWith (s p : string) : bool :=
  if String.eqb s p then true
  else match s with
       | EmptyString => false
       | String _ s' => endsWith s' p
       end.

Fixpoint trimStart (s : string) : string :=
  match s with
  | EmptyString => EmptyString
  | String c s' => if isSpace c then trimStart s' else s
  end.

Fixpoint trimEnd (s : string) : string :=
  match s with
  | EmptyString => EmptyString
  | String c s' =>
      match trimEnd s' with
      | EmptyString => if isSpace c then EmptyString else String c EmptyString
      | t => String c t
      end
  end.

(** [s.trim()] *)
Definition trim (s : string) : string := trimEnd (trimStart s).

(** [s.split(sep)] for a non-empty separator string.  [skip] counts the
    characters of a separator just recognised that are still to be dropped,
    [cur] is the piece being collected. *)
Fixpoint split_go (sep : string) (s : string) (skip : nat) (cur : string)
  : list string :=
  match s with
  | EmptyString => [cur]
  | String c s' =>
      match skip with
      | S k => split_go sep s' k cur
      | O =>
          if String.prefix sep s
          then cur :: split_go sep s' (String.length sep - 1) EmptyString
          else split_go sep s' 0 (cur ++ String c EmptyString)
      end
  end.

Definition split (s sep : string) : list string := split_go sep s 0 EmptyString.

(** Longest prefix of [s] whose characters satisfy [p], and the rest. *)
Fixpoint span (p : ascii -> bool) (s : string) : string * string :=
  match s with
  | EmptyString => (EmptyString, EmptyString)
  | String c s' =>
      if p c then let (a, b) := span p s' in (String c a, b)
      else (EmptyString, s)
  end.

(* ------------------------------------------------------------------ *)
(** ** parseInt *)

Definition digitValue (c : ascii) : option Z :=
  let n := nat_of_ascii c in
  if (48 <=? n)%nat && (n <=? 57)%nat then Some (Z.of_nat (n - 48))
  else if (97 <=? n)%nat && (n <=? 122)%nat then Some (Z.of_nat (n - 87))
  else if (65 <=? n)%nat && (n <=? 90)%nat then Some (Z.of_nat (n - 55))
  else None.

Definition isRadixDigit (radix : Z) (c : ascii) : bool :=
  match digitValue c with
  | Some d => d <? radix
  | None => false
  end.

Fixpoint digitsValue (radix : Z) (acc : Z) (s : string) : Z :=
  match s with
  | EmptyString => acc
  | String c s' =>
      match digitValue c with
      | Some d => digitsValue radix (acc * radix + d) s'
      | None => acc
      end
  end.

(** [parseInt(s)] with no radix argument: leading white space is skipped, a
    sign is read, a [0x]/[0X] prefix selects base 16, and the longest run of
    digits is converted.  [None] is NaN. *)
Definition parseInt (s : string) : option Z :=
  let s1 := trimStart s in
  let '(sign, s2) :=
    match s1 with
    | String "-" r => (-1, r)
    | String "+" r => (1, r)
    | _ => (1, s1)
    end in
  let '(radix, s3) :=
    match s2 with
    | String "0" (String "x" r) => (16, r)
    | String "0" (String "X" r) => (16, r)
    | _ => (10, s2)
    end in
  let (ds, _) := span (isRadixDigit radix) s3 in
  match ds with
  | EmptyString => None
  | _ => Some (sign * digitsValue radix 0 ds)
  end.

(** [parseInt(undefined)] reads the text "undefined" and is NaN. *)
Definition parseInt_opt (s : option string) : option Z :=
  match s with
  | Some s => parseInt s
  | None => None
  end.

(* ------------------------------------------------------------------ *)
(** ** Decimal literals, as read by parseFloat *)

(** A decimal numeral [mantissa * 10 ^ exponent10]. *)
Record decimal : Type := { mantissa : Z; exponent10 : Z }.

(** The syntactic part of [parseFloat(s)]: leading white space is skipped,
    then the longest prefix of the form [sign digits . digits e sign digits]
    is read (at least one digit in the mantissa; an exponent marker with no
    digit after it is not part of the number).  [None] is NaN.  The text
    [Infinity] is not recognised. *)
Definition parseDecimal (s : string) : option decimal :=
  let s1 := trimStart s in
  let '(sign, s2) :=
    match s1 with
    | String "-" r => (-1, r)
    | String "+" r => (1, r)
    | _ => (1, s1)
    end in
  let (ip, s3) := span isDigit s2 in
  let '(fp, s4) :=
    match s3 with
    | String "." r => span isDigit r
    | _ => (EmptyString, s3)
    end in
  match (ip ++ fp)%string with
  | EmptyString => None
  | ds =>
      let ex :=
        match s4 with
        | String m r =>
            if Ascii.eqb m "e" || Ascii.eqb m "E" then
              let '(esign, r1) :=
                match r with
                | String "-" r' => (-1, r')
                | String "+" r' => (1, r')
                | _ => (1, r)
                end in
              let (eds, _) := span isDigit r1 in
              match eds with
              | EmptyString => 0
              | _ => esign * digitsValue 10 0 eds
              end
            else 0
        | EmptyString => 0
        end in
      Some {| mantissa := sign * digitsValue 10 0 ds;
              exponent10 := ex - Z.of_nat (String.length fp) |}
  end.

(* ------------------------------------------------------------------ *)
(** ** Regular expressions

    The regular-expression literals of the source are written as terms of
    [regex] and run by a backtracking matcher with the priorities of the
    JavaScript one: alternatives left to right, greedy repetition (longest
    first, then shorter), first start position that matches. *)

Inductive regex : Type :=
| REmpty
| RChar (p : ascii -> bool)
| RSeq (r1 r2 : regex)
| RStar (r : regex)
| RGroup (n : nat) (r : regex)
| RBol
| REol.

Definition RPlus (r : regex) : regex := RSeq r (RStar r).

Fixpoint RLit (s : string) : regex :=
  match s with
  | EmptyString => REmpty
  | String c s' => RSeq (RChar (Ascii.eqb c)) (RLit s')
  end.

Fixpoint RCat (rs : list regex) : regex :=
  match rs with
  | [] => REmpty
  | r :: rs' => RSeq r (RCat rs')
  end.

(** Matcher state: number of characters before the current position, the
    input from the current position on, and the groups captured so far. *)
Record mstate : Type :=
  { consumed : nat; rest : string; caps : list (nat * string) }.

Definition setCap (n : nat) (v : string) (cs : list (nat * string))
  : list (nat * string) :=
  (n, v) :: filter (fun '(m, _) => negb (Nat.eqb m n)) cs.

Fixpoint getCap (n : nat) (cs : list (nat * string)) : option string :=
  match cs with
  | [] => None
  | (m, v) :: cs' => if Nat.eqb m n then Some v else getCap n cs'
  end.

Fixpoint rmatch (r : regex) (st : mstate) (k : mstate -> option mstate)
  {struct r} : option mstate :=
  match r with
  | REmpty => k st
  | RChar p =>
      match rest st with
      | String c s =>
          if p c
          then k {| consumed := S (consumed st); rest := s; caps := caps st |}
          else None
      | EmptyString => None
      end
  | RSeq r1 r2 => rmatch r1 st (fun st' => rmatch r2 st' k)
  | RStar r' =>
      (fix loop (fuel : nat) (st : mstate) {struct fuel} : option mstate :=
         match fuel with
         | O => k st
         | S f =>
             match rmatch r' st
                     (fun st' => if (consumed st <? consumed st')%nat
                                 then loop f st' else None) with
             | Some res => Some res
             | None => k st
             end
         end) (String.length (rest st)) st
  | RGroup n r' =>
      rmatch r' st
        (fun st' =>
           k {| consumed := consumed st';
                rest := rest st';
                caps := setCap n (String.substring 0 (consumed st' - consumed st)
                                                   (rest st))
                               (caps st') |})
  | RBol => if (consumed st =? 0)%nat then k st else None
  | REol =>
      match rest st with
      | EmptyString => k st
      | _ => None
      end
  end.

(** Try every start position from left to right. *)
Fixpoint search (r : regex) (pos : nat) (s : string) : option mstate :=
  match rmatch r {| consumed := pos; rest := s; caps := [] |} Some with
  | Some st => Some st
  | None =>
      match s with
      | EmptyString => None
      | String _ s' => search r (S pos) s'
      end
  end.

(** [s.match(r)] for a regular expression with no flags: the captures of the
    first match, or [None] for [null]. *)
Definition exec (r : regex) (s : string) : option (list (nat * string)) :=
  option_map caps (search r 0 s).

(** [r.test(s)], also the truth value of [s.match(r)]. *)
Definition test (r : regex) (s : string) : bool :=
  match search r 0 s with
  | Some _ => true
  | None => false
  end.

(* ------------------------------------------------------------------ *)
(** ** path.extname (POSIX) *)

(** The piece after the last occurrence of [c], and whether [c] occurs. *)
Fixpoint afterLast (c : ascii) (s : string) : option string :=
  match s with
  | EmptyString => None
  | String d s' =>
      match afterLast c s' with
      | Some t => Some t
      | None => if Ascii.eqb d c then Some s' else None
      end
  end.

Fixpoint stripTrailing (c : ascii) (s : string) : string :=
  match s with
  | EmptyString => EmptyString
  | String d s' =>
      match stripTrailing c s' with
      | EmptyString => if Ascii.eqb d c then EmptyString else String d EmptyString
      | t => String d t
      end
  end.

(** The last path segment, trailing slashes ignored. *)
Definition lastSegment (p : string) : string :=
  let q := stripTrailing "/" p in
  match afterLast "/" q with
  | Some b => b
  | None => q
  end.

(** [path.extname(p)]: from the last dot of the last segment to its end;
    empty when the segment has no dot, when its only dot is its first
    character, and for the segment [..]. *)
Definition extname (p : string) : string :=
  let b := lastSegment p in
  match afterLast "." b with
  | None => EmptyString
  | Some e =>
      if (String.length b =? S (String.length e))%nat then EmptyString
      else if String.eqb b ".." then EmptyString
      else String "." e
  end.

End Js.

(* ================================================================== *)
(** * JavaScript numbers *)
(* ================================================================== *)

(** The operations on numbers the scorer and the feature engineer use.
    [ltb] and [leb] are [<] and [<=]; both are false when an operand is
    NaN.  [truthy] is the conversion to a boolean made by [||] and [if]. *)
Class JsNumber (num : Type) : Type :=
  { NaN : num;
    ofDecimal : Js.decimal -> num;
    add : num -> num -> num;
    sub : num -> num -> num;
    mul : num -> num -> num;
    div : num -> num -> num;
    neg : num -> num;
    Math_sqrt : num -> num;
    Math_max : num -> num -> num;
    Math_min : num -> num -> num;
    ltb : num -> num -> bool;
    leb : num -> num -> bool;
    isNaN : num -> bool;
    truthy : num -> bool }.

(** [Math.exp], whose value the language leaves to the implementation. *)
Class JsMath (num : Type) : Type :=
  { Math_exp : num -> num }.

Section Numbers.
Context {num : Type} {N : JsNumber num}.

(** The numeric literal [m * 10 ^ e]. *)
Definition lit (m e : Z) : num :=
  ofDecimal {| Js.mantissa := m; Js.exponent10 := e |}.

(** [a > b] *)
Definition gtb (a b : num) : bool := ltb b a.

(** [Math.pow(x, 2)] *)
Definition Math_pow2 (x : num) : num := mul x x.

(** [parseFloat(s)] *)
Definition parseFloat (s : string) : num :=
  match Js.parseDecimal s with
  | Some d => ofDecimal d
  | None => NaN
  end.

(** A value used as a number: [undefined] converts to NaN. *)
Definition toNumber (v : option num) : num :=
  match v with
  | Some x => x
  | None => NaN
  end.

(** [a < b] on values that may be [undefined]. *)
Definition js_lt (a b : option num) : bool := ltb (toNumber a) (toNumber b).

(** [v || 0] *)
Definition orZero (v : option num) : option num :=
  match v with
  | Some x => if truthy x then Some x else Some (lit 0 0)
  | None => Some (lit 0 0)
  end.

(** [xs.reduce((a, b) => a + b, 0)] *)
Definition sum (xs : list num) : num := fold_left add xs (lit 0 0).

(** [xs.length] as a number. *)
Definition lengthNum {A : Type} (xs : list A) : num :=
  lit (Z.of_nat (List.length xs)) 0.

End Numbers.

(** [a[i]]: [undefined] when the index is [undefined], negative or past the
    end. *)
Definition arrayGet {A : Type} (a : list A) (i : option Z) : option A :=
  match i with
  | Some z => if z <? 0 then None else nth_error a (Z.to_nat z)
  | None => None
  end.

(* ------------------------------------------------------------------ *)
(** ** IEEE-754 binary64 *)

Module IEEE.

(** The double nearest to an integer of magnitude below 2^63. *)
Definition ofZ (z : Z) : float :=
  if z <? 0 then PrimFloat.opp (PrimFloat.of_uint63 (Uint63.of_Z (- z)))
  else PrimFloat.of_uint63 (Uint63.of_Z z).

(** The double of a decimal numeral [m * 10 ^ e]: the conversion of the
    integer [m * 10 ^ e] when [e] is not negative, and otherwise the
    correctly rounded quotient of the doubles of [m] and [10 ^ (- e)].  This
    is the nearest double, as the language requires, whenever [m] is below
    2^53 and the power of ten is at most 10^18, which covers every literal
    of the source.  A numeral with more digits or a larger exponent is
    outside the binary64 model, and so is the sign of the numeral [-0],
    which is read as [+0]. *)
Definition ofDecimal (d : Js.decimal) : float :=
  if 0 <=? Js.exponent10 d
  then ofZ (Js.mantissa d * 10 ^ Js.exponent10 d)
  else PrimFloat.div (ofZ (Js.mantissa d)) (ofZ (10 ^ (- Js.exponent10 d))).

Definition anyNaN (a b : float) : bool :=
  PrimFloat.is_nan a || PrimFloat.is_nan b.

(** [Math.max(a, b)]: NaN if either is NaN, and [+0] is above [-0]. *)
Definition max (a b : float) : float :=
  if anyNaN a b then PrimFloat.nan
  else if PrimFloat.ltb a b then b
  else if PrimFloat.ltb b a then a
  else if PrimFloat.is_zero a then PrimFloat.add a b
  else a.

(** [Math.min(a, b)]: NaN if either is NaN, and [-0] is below [+0]. *)
Definition min (a b : float) : float :=
  if anyNaN a b then PrimFloat.nan
  else if PrimFloat.ltb a b then a
  else if PrimFloat.ltb b a then b
  else if PrimFloat.is_zero a
       then PrimFloat.opp (PrimFloat.add (PrimFloat.opp a) (PrimFloat.opp b))
  else a.

#[global] Instance number : JsNumber float :=
  { NaN := PrimFloat.nan;
    ofDecimal := ofDecimal;
    add := PrimFloat.add;
    sub := PrimFloat.sub;
    mul := PrimFloat.mul;
    div := PrimFloat.div;
    neg := PrimFloat.opp;
    Math_sqrt := PrimFloat.sqrt;
    Math_max := max;
    Math_min := min;
    ltb := PrimFloat.ltb;
    leb := PrimFloat.leb;
    isNaN := PrimFloat.is_nan;
    truthy := fun x => negb (PrimFloat.is_nan x || PrimFloat.is_zero x) }.

(** The binary64 scorer is run with whatever function stands for
    [Math.exp]. *)
Definition mathWith (exp : float -> float) : JsMath float :=
  {| Math_exp := exp |}.

End IEEE.

(* ------------------------------------------------------------------ *)
(** ** Exact reals with NaN *)

(** Arithmetic without rounding.  Infinities are not represented: a division
    by zero is NaN. *)
Inductive xreal : Type :=
| XNaN
| XR (r : R).

Module Exact.

Definition ofDecimal (d : Js.decimal) : xreal :=
  if 0 <=? Js.exponent10 d
  then XR (IZR (Js.mantissa d * 10 ^ Js.exponent10 d))
  else XR (IZR (Js.mantissa d) / IZR (10 ^ (- Js.exponent10 d))).

Definition lift2 (f : R -> R -> R) (a b : xreal) : xreal :=
  match a, b with
  | XR x, XR y => XR (f x y)
  | _, _ => XNaN
  end.

Definition div (a b : xreal) : xreal :=
  match a, b with
  | XR x, XR y => if Req_dec_T y 0 then XNaN else XR (x / y)
  | _, _ => XNaN
  end.

Definition neg (a : xreal) : xreal :=
  match a with
  | XR x => XR (- x)
  | XNaN => XNaN
  end.

Definition sqrt (a : xreal) : xreal :=
  match a with
  | XR x => if Rlt_dec x 0 then XNaN else XR (R_sqrt.sqrt x)
  | XNaN => XNaN
  end.

Definition ltb (a b : xreal) : bool :=
  match a, b with
  | XR x, XR y => if Rlt_dec x y then true else false
  | _, _ => false
  end.

Definition leb (a b : xreal) : bool :=
  match a, b with
  | XR x, XR y => if Rle_dec x y then true else false
  | _, _ => false
  end.

Definition isNaN (a : xreal) : bool :=
  match a with
  | XR _ => false
  | XNaN => true
  end.

Definition truthy (a : xreal) : bool :=
  match a with
  | XR x => if Req_dec_T x 0 then false else true
  | XNaN => false
  end.

Definition exp (a : xreal) : xreal :=
  match a with
  | XR x => XR (Rtrigo_def.exp x)
  | XNaN => XNaN
  end.

#[global] Instance number : JsNumber xreal :=
  { NaN := XNaN;
    ofDecimal := ofDecimal;
    add := lift2 Rplus;
    sub := lift2 Rminus;
    mul := lift2 Rmult;
    div := div;
    neg := neg;
    Math_sqrt := sqrt;
    Math_max := lift2 Rmax;
    Math_min := lift2 Rmin;
    ltb := ltb;
    leb := leb;
    isNaN := isNaN;
    truthy := truthy }.

#[global] Instance math : JsMath xreal :=
  { Math_exp := exp }.

End Exact.

(* ================================================================== *)
(** * FeatureEngineer *)
(* ================================================================== *)

Module FeatureEngineer.

(** Modelled from the spec: the declaration of the interface [CommitData] is
    not among the sources.  Its fields are the ones the collector writes and
    [transform] and [extractFeatureVector] read: thirteen base counters and
    thirteen derived features, each of which may be [undefined] at run time
    ([transform] tests every input against [undefined]). *)
Record CommitData (num : Type) : Type :=
  { module : string;
    filename : string;
    repo_name : string;
    commits : option num;
    authors : option num;
    lines_added : option num;
    lines_deleted : option num;
    churn : option num;
    bug_commits : option num;
    refactor_commits : option num;
    feature_commits : option num;
    lines_per_author : option num;
    churn_per_commit : option num;
    bug_ratio : option num;
    days_active : option num;
    commits_per_day : option num;
    degradation_days : option num;
    net_lines : option num;
    code_stability : option num;
    is_high_churn_commit : option num;
    bug_commit_rate : option num;
    commits_squared : option num;
    author_concentration : option num;
    lines_per_commit : option num;
    churn_rate : option num;
    modification_ratio : option num;
    churn_per_author : option num;
    deletion_rate : option num;
    commit_density : option num }.

Section WithNumbers.
Context {num : Type} {N : JsNumber num}.

(** [if (a !== undefined && b !== undefined) enhanced.f = g(a, b)]: the
    field keeps the value spread from the record when the test fails. *)
Definition derive2 (a b : option num) (g : num -> num -> num)
  (old : option num) : option num :=
  match a, b with
  | Some x, Some y => Some (g x y)
  | _, _ => old
  end.

Definition derive1 (a : option num) (g : num -> num) (old : option num)
  : option num :=
  match a with
  | Some x => Some (g x)
  | None => old
  end.

Definition transformRecord (record : CommitData num) : CommitData num :=
  {| module := module record;
     filename := filename record;
     repo_name := repo_name record;
     commits := commits record;
     authors := authors record;
     lines_added := lines_added record;
     lines_deleted := lines_deleted record;
     churn := churn record;
     bug_commits := bug_commits record;
     refactor_commits := refactor_commits record;
     feature_commits := feature_commits record;
     lines_per_author := lines_per_author record;
     churn_per_commit := churn_per_commit record;
     bug_ratio := bug_ratio record;
     days_active := days_active record;
     commits_per_day := commits_per_day record;
     (* 13. degradation_days *)
     degradation_days :=
       derive1 (days_active record) (fun d => d) (degradation_days record);
     (* 1. net_lines *)
     net_lines :=
       derive2 (lines_added record) (lines_deleted record)
         (fun a d => sub a d) (net_lines record);
     (* 2. code_stability *)
     code_stability :=
       derive2 (lines_added record) (churn record)
         (fun a c => div c (add a (lit 1 0))) (code_stability record);
     (* 3. is_high_churn_commit *)
     is_high_churn_commit :=
       derive1 (churn_per_commit record)
         (fun c => if gtb c (lit 100 0) then lit 1 0 else lit 0 0)
         (is_high_churn_commit record);
     (* 4. bug_commit_rate *)
     bug_commit_rate :=
       derive2 (bug_commits record) (commits record)
         (fun b c => div b (add c (lit 1 0))) (bug_commit_rate record);
     (* 5. commits_squared *)
     commits_squared :=
       derive1 (commits record) (fun c => mul c c) (commits_squared record);
     (* 6. author_concentration *)
     author_concentration :=
       derive1 (authors record) (fun a => div (lit 1 0) (add a (lit 1 0)))
         (author_concentration record);
     (* 7. lines_per_commit *)
     lines_per_commit :=
       derive2 (lines_added record) (commits record)
         (fun a c => div a (add c (lit 1 0))) (lines_per_commit record);
     (* 8. churn_rate *)
     churn_rate :=
       derive2 (churn record) (days_active record)
         (fun c d => div c (add d (lit 1 0))) (churn_rate record);
     (* 9. modification_ratio *)
     modification_ratio :=
       derive2 (lines_added record) (lines_deleted record)
         (fun a d => div d (add a (lit 1 0))) (modification_ratio record);
     (* 10. churn_per_author *)
     churn_per_author :=
       derive2 (churn record) (authors record)
         (fun c a => div c (add a (lit 1 0))) (churn_per_author record);
     (* 11. deletion_rate *)
     deletion_rate :=
       derive2 (lines_deleted record) (lines_added record)
         (fun d a => div d (add (add a d) (lit 1 0))) (deletion_rate record);
     (* 12. commit_density *)
     commit_density :=
       derive2 (commits record) (days_active record)
         (fun c d => div c (add d (lit 1 0))) (commit_density record) |}.

Definition transform (data : list (CommitData num)) : list (CommitData num) :=
  map transformRecord data.

(** The vector handed to the model.  The first thirteen entries are read as
    they are (and so may be [undefined]); the derived ones go through
    [|| 0]. *)
Definition extractFeatureVector (features : CommitData num)
  : list (option num) :=
  [ commits features;
    authors features;
    lines_added features;
    lines_deleted features;
    churn features;
    bug_commits features;
    refactor_commits features;
    feature_commits features;
    lines_per_author features;
    churn_per_commit features;
    bug_ratio features;
    days_active features;
    commits_per_day features;
    orZero (degradation_days features);
    orZero (net_lines features);
    orZero (code_stability features);
    orZero (is_high_churn_commit features);
    orZero (bug_commit_rate features);
    orZero (commits_squared features);
    orZero (author_concentration features);
    orZero (lines_per_commit features);
    orZero (churn_rate features);
    orZero (modification_ratio features);
    orZero (churn_per_author features);
    orZero (deletion_rate features);
    orZero (commit_density features) ].

End WithNumbers.

Definition getFeatureNames : list string :=
  [ "commits"; "authors"; "lines_added"; "lines_deleted"; "churn";
    "bug_commits"; "refactor_commits"; "feature_commits";
    "lines_per_author"; "churn_per_commit"; "bug_ratio"; "days_active";
    "commits_per_day"; "degradation_days"; "net_lines"; "code_stability";
    "is_high_churn_commit"; "bug_commit_rate"; "commits_squared";
    "author_concentration"; "lines_per_commit"; "churn_rate";
    "modification_ratio"; "churn_per_author"; "deletion_rate";
    "commit_density" ].

End FeatureEngineer.

(* ================================================================== *)
(** * XGBoostPredictor *)
(* ================================================================== *)

Module XGBoostPredictor.

Import FeatureEngineer.

(** Modelled from the spec: the enumeration [RiskCategory] is declared in a
    file that is not among the sources; the spec gives its four labels. *)
Inductive RiskCategory : Type :=
| IMPROVED
| STABLE
| DEGRADED
| SEVERELY_DEGRADED.

Definition RiskCategory_label (c : RiskCategory) : string :=
  match c with
  | IMPROVED => "improved"
  | STABLE => "stable"
  | DEGRADED => "degraded"
  | SEVERELY_DEGRADED => "severely_degraded"
  end.

(** The arrays of [XGBoostTree] that the tree walk reads. *)
Record XGBoostTree (num : Type) : Type :=
  { base_weights : list num;
    left_children : list Z;
    right_children : list Z;
    split_conditions : list num;
    split_indices : list Z }.

(** [XGBoostModel], with the optional members of [model_data.learner]
    flattened: [base_score] is
    [model_data.learner.learner_model_param.base_score] and [trees] is
    [model_data.learner.gradient_booster.model.trees] ([None] when any link
    of the chain is missing). *)
Record XGBoostModel (num : Type) : Type :=
  { model_type : string;
    learner_feature_names : option (list string);
    base_score : option string;
    trees : option (list (XGBoostTree num));
    feature_names : option (list string);
    feature_count : Z }.

Record RiskPrediction (num : Type) : Type :=
  { feature : CommitData num;
    degradation_score : num;
    raw_prediction : num;
    risk_category : RiskCategory }.

(** The mutable part of a predictor object. *)
Record XGBoostPredictor (num : Type) : Type :=
  { model : option (XGBoostModel num) }.

(** The pattern of the base score: an opening bracket, group 1 (one or more
    of the characters minus, digit, dot, e, E), a closing bracket. *)
Definition baseScoreChar (c : ascii) : bool :=
  Ascii.eqb c "-" || Js.isDigit c || Ascii.eqb c "." || Ascii.eqb c "e"
  || Ascii.eqb c "E".

Definition baseScorePattern : Js.regex :=
  Js.RCat [ Js.RLit "[";
            Js.RGroup 1 (Js.RPlus (Js.RChar baseScoreChar));
            Js.RLit "]" ].

Section WithNumbers.
Context {num : Type} {N : JsNumber num}.

(** A new predictor: [model] is [null]. *)
Definition new : XGBoostPredictor num := {| model := None |}.

(** [loadModel()]: stores the bundled model, with [feature_names] taken from
    the learner when the top-level list is missing.  The source writes that
    list into the bundled object itself; loading again finds it there and
    stores the same model.  The [try] around the body only rethrows. *)
Definition loadModel (XGBOOST_MODEL : XGBoostModel num)
  (this : XGBoostPredictor num) : XGBoostPredictor num :=
  let m := XGBOOST_MODEL in
  let m' :=
    match feature_names m, learner_feature_names m with
    | None, Some names =>
        {| model_type := model_type m;
           learner_feature_names := learner_feature_names m;
           base_score := base_score m;
           trees := trees m;
           feature_names := Some names;
           feature_count := feature_count m |}
    | _, _ => m
    end in
  {| model := Some m' |}.

(** One turn of the [while (true)] loop of [predictTree]: either the walk
    returns (the weight read may be [undefined]) or it moves to [nodeId]. *)
Inductive treeStep : Type :=
| Return (weight : option num)
| Goto (nodeId : option Z).

Definition predictTree_step (tree : XGBoostTree num)
  (features : list (option num)) (nodeId : option Z) : treeStep :=
  match arrayGet (left_children tree) nodeId with
  | Some (-1) => Return (arrayGet (base_weights tree) nodeId)
  | leftChild =>
      let featureIndex := arrayGet (split_indices tree) nodeId in
      let featureValue :=
        match arrayGet features featureIndex with
        | Some v => v
        | None => None
        end in
      let splitCondition := arrayGet (split_conditions tree) nodeId in
      if js_lt featureValue splitCondition
      then Goto leftChild
      else Goto (arrayGet (right_children tree) nodeId)
  end.

Fixpoint predictTree_from (fuel : nat) (tree : XGBoostTree num)
  (features : list (option num)) (nodeId : option Z)
  : result (option num) :=
  match fuel with
  | O => OutOfFuel
  | S fuel' =>
      match predictTree_step tree features nodeId with
      | Return w => Ok w
      | Goto next => predictTree_from fuel' tree features next
      end
  end.

(** [predictTree(tree, features)], with at most [fuel] turns of its loop. *)
Definition predictTree (fuel : nat) (tree : XGBoostTree num)
  (features : list (option num)) : result (option num) :=
  predictTree_from fuel tree features (Some 0).

(** The base score: 0.5, replaced by the number read from [base_score] when
    that string is non-empty and the pattern matches it. *)
Definition baseScore (m : XGBoostModel num) : num :=
  match base_score m with
  | Some baseScoreStr =>
      if (String.length baseScoreStr =? 0)%nat then lit 5 (-1)
      else
        match Js.exec baseScorePattern baseScoreStr with
        | Some groups =>
            match Js.getCap 1 groups with
            | Some text => parseFloat text
            | None => NaN
            end
        | None => lit 5 (-1)
        end
  | None => lit 5 (-1)
  end.

(** [for (const tree of trees) score += this.predictTree(tree, features)] *)
Fixpoint addTrees (fuel : nat) (trees : list (XGBoostTree num))
  (features : list (option num)) (score : num) : result num :=
  match trees with
  | [] => Ok score
  | tree :: trees' =>
      w <- predictTree fuel tree features ;;
      addTrees fuel trees' features (add score (toNumber w))
  end.

Definition sigmoid {M : JsMath num} (score : num) : num :=
  div (lit 1 0) (add (lit 1 0) (Math_exp (neg score))).

Definition predictSingle {M : JsMath num} (fuel : nat)
  (this : XGBoostPredictor num) (features : list (option num))
  : result num :=
  match model this with
  | None => Throw (Error "Model not loaded")
  | Some m =>
      let score := baseScore m in
      let trees :=
        match trees m with
        | Some ts => ts
        | None => []
        end in
      if (List.length trees =? 0)%nat then Ok score
      else
        score' <- addTrees fuel trees features score ;;
        Ok (sigmoid score')
  end.

Definition TRAIN_MEAN : num := lit (-11) (-3).
Definition TRAIN_STD : num := lit 82 (-3).
Definition TRAIN_MIN : num := lit (-531) (-3).
Definition TRAIN_MAX : num := lit 566 (-3).

Definition calibratePredictions (predictions : list num) : list num :=
  let rawMean := div (sum predictions) (lengthNum predictions) in
  let rawStd :=
    Math_sqrt
      (div (fold_left (fun sum pred => add sum (Math_pow2 (sub pred rawMean)))
                      predictions (lit 0 0))
           (lengthNum predictions)) in
  if gtb rawStd (lit 0 0) then
    map (fun pred =>
           let zScore := div (sub pred rawMean) rawStd in
           let scaled := add (mul zScore TRAIN_STD) TRAIN_MEAN in
           Math_max (sub TRAIN_MIN (lit 1 (-1)))
                    (Math_min (add TRAIN_MAX (lit 1 (-1))) scaled))
        predictions
  else map (fun _ => TRAIN_MEAN) predictions.

Definition getRiskCategory (score : num) : RiskCategory :=
  if ltb score (lit 0 0) then IMPROVED
  else if leb score (lit 1 (-1)) then STABLE
  else if leb score (lit 2 (-1)) then DEGRADED
  else SEVERELY_DEGRADED.

(** [features.map((feature, index) => ...)] of [predict]; [xs[index]] past
    the end of an array reads [undefined], which every comparison of
    [getRiskCategory] treats as NaN. *)
Fixpoint makePredictions (features : list (CommitData num))
  (calibratedScores rawPredictions : list num) (index : nat)
  : list (RiskPrediction num) :=
  match features with
  | [] => []
  | f :: features' =>
      let degradationScore := nth index calibratedScores NaN in
      let rawScore := nth index rawPredictions NaN in
      {| feature := f;
         degradation_score := degradationScore;
         raw_prediction := rawScore;
         risk_category := getRiskCategory degradationScore |}
      :: makePredictions features' calibratedScores rawPredictions (S index)
  end.

(** [predict(commitData)].  The statistics the source logs after building
    the predictions are not part of the result and are left out (they spread
    the scores into the arguments of [Math.min] and [Math.max], which a very
    large batch can make fail; that is outside the model). *)
Definition predict {M : JsMath num} (fuel : nat)
  (this : XGBoostPredictor num) (commitData : list (CommitData num))
  : result (list (RiskPrediction num)) :=
  match model this with
  | None => Throw (Error "Model not loaded. Call loadModel() first.")
  | Some _ =>
      let features := transform commitData in
      rawPredictions <-
        mapM (fun feature =>
                predictSingle fuel this (extractFeatureVector feature))
             features ;;
      let calibratedScores := calibratePredictions rawPredictions in
      Ok (makePredictions features calibratedScores rawPredictions 0)
  end.

End WithNumbers.

(** The calls a client can make on a predictor, and what it observes.
    [predict] leaves the predictor as it is. *)
Inductive call (num : Type) : Type :=
| CallLoadModel
| CallPredict (commitData : list (CommitData num)).

Arguments CallLoadModel {num}.

Definition response (num : Type) : Type :=
  option (result (list (RiskPrediction num))).

Section Calls.
Context {num : Type} {N : JsNumber num} {M : JsMath num}.
Variable XGBOOST_MODEL : XGBoostModel num.
Variable fuel : nat.

Definition runCall (this : XGBoostPredictor num) (c : call num)
  : XGBoostPredictor num * response num :=
  match c with
  | CallLoadModel => (loadModel XGBOOST_MODEL this, None)
  | CallPredict commitData => (this, Some (predict fuel this commitData))
  end.

Fixpoint runCalls (this : XGBoostPredictor num) (cs : list (call num))
  : XGBoostPredictor num * list (response num) :=
  match cs with
  | [] => (this, [])
  | c :: cs' =>
      let (this', r) := runCall this c in
      let (this'', rs) := runCalls this' cs' in
      (this'', r :: rs)
  end.

End Calls.

End XGBoostPredictor.

(* ================================================================== *)
(** * GitCommitCollector *)
(* ================================================================== *)

Module GitCommitCollector.

(** A [Date] is its time value in milliseconds; [None] is the Invalid Date,
    whose time value is NaN. *)
Definition Date : Type := option Z.

(** [new Date(v)]: values beyond 8.64e15 ms are clipped to NaN. *)
Definition newDate (v : option Z) : Date :=
  match v with
  | Some t => if Z.abs t <=? 8640000000000000 then Some t else None
  | None => None
  end.

(** [a < b] and [a > b] on dates; false when either is invalid. *)
Definition date_lt (a b : Date) : bool :=
  match a, b with
  | Some x, Some y => x <? y
  | _, _ => false
  end.

Definition date_gt (a b : Date) : bool := date_lt b a.

Record FileStats : Type :=
  { lines_added : Z;
    lines_deleted : Z;
    commits : Z;
    authors : list string;
    bug_commits : Z;
    first_commit : Date;
    last_commit : Date;
    feature_commits : Z;
    refactor_commits : Z }.

(** [set.add(x)] on a [Set<string>], kept in insertion order. *)
Definition setAdd (x : string) (s : list string) : list string :=
  if existsb (String.eqb x) s then s else s ++ [x].

(** [Map<string, V>] in insertion order. *)
Fixpoint mapGet {V : Type} (k : string) (m : list (string * V)) : option V :=
  match m with
  | [] => None
  | (k', v) :: m' => if String.eqb k k' then Some v else mapGet k m'
  end.

Fixpoint mapSet {V : Type} (k : string) (v : V) (m : list (string * V))
  : list (string * V) :=
  match m with
  | [] => [(k, v)]
  | (k', v') :: m' =>
      if String.eqb k k' then (k', v) :: m' else (k', v') :: mapSet k v m'
  end.

Definition bump (flag : bool) (n : Z) : Z := if flag then n + 1 else n.

Definition updateOrCreateFileStats (filepath : string)
  (fileStats : list (string * FileStats)) (added removed : Z)
  (currentAuthor : string) (currentDate : Date)
  (isBugFix isFeature isRefactor : bool) : list (string * FileStats) :=
  match mapGet filepath fileStats with
  | Some existingStats =>
      mapSet filepath
        {| lines_added := lines_added existingStats + added;
           lines_deleted := lines_deleted existingStats + removed;
           commits := commits existingStats + 1;
           authors := setAdd currentAuthor (authors existingStats);
           bug_commits := bump isBugFix (bug_commits existingStats);
           feature_commits := bump isFeature (feature_commits existingStats);
           refactor_commits := bump isRefactor (refactor_commits existingStats);
           first_commit :=
             if date_lt currentDate (first_commit existingStats)
             then currentDate else first_commit existingStats;
           last_commit :=
             if date_gt currentDate (last_commit existingStats)
             then currentDate else last_commit existingStats |}
        fileStats
  | None =>
      mapSet filepath
        {| lines_added := added;
           lines_deleted := removed;
           commits := 1;
           authors := [currentAuthor];
           bug_commits := if isBugFix then 1 else 0;
           feature_commits := if isFeature then 1 else 0;
           refactor_commits := if isRefactor then 1 else 0;
           first_commit := currentDate;
           last_commit := currentDate |}
        fileStats
  end.

Definition sourceExtensions : list string :=
  [ ".js"; ".ts"; ".jsx"; ".tsx"; ".mjs"; ".cjs"; ".vue"; ".svelte";
    ".py"; ".pyx"; ".pyi"; ".pyw";
    ".java"; ".kt"; ".kts"; ".scala"; ".groovy"; ".gradle";
    ".c"; ".cpp"; ".cxx"; ".cc"; ".c++"; ".h"; ".hpp"; ".hxx"; ".hh"; ".h++";
    ".cs"; ".vb"; ".fs"; ".fsx"; ".fsi";
    ".swift"; ".m"; ".mm"; ".dart";
    ".php"; ".rb"; ".perl"; ".pl"; ".pm";
    ".go"; ".rs"; ".zig"; ".nim"; ".d";
    ".hs"; ".lhs"; ".elm"; ".ml"; ".mli"; ".clj"; ".cljs"; ".cljc";
    ".r"; ".R"; ".jl"; ".ipynb";
    ".sql"; ".mysql"; ".pgsql"; ".plsql"; ".tsql"; ".ddl"; ".dml";
    ".migration"; ".up.sql"; ".down.sql";
    ".cypher"; ".gql"; ".graphql";
    ".sh"; ".bash"; ".zsh"; ".fish"; ".ps1"; ".bat"; ".cmd";
    ".tf"; ".hcl"; ".yaml"; ".yml"; ".toml";
    ".sol"; ".cairo"; ".move"; ".vy";
    ".lua"; ".crystal"; ".ex"; ".exs"; ".erl"; ".hrl"; ".pas"; ".pp";
    ".inc"; ".dpr"; ".dpk"; ".asm"; ".s"; ".S"; ".rkt"; ".scm"; ".lisp";
    ".cl";
    ".erb"; ".ejs"; ".handlebars"; ".hbs"; ".mustache"; ".twig";
    ".scss"; ".sass"; ".less"; ".styl";
    ".asp"; ".aspx"; ".jsp"; ".cfm"; ".cfml";
    ".proto"; ".thrift"; ".avsc"; ".avdl";
    ".sbt"; ".mill"; ".bazel"; ".bzl"; ".buck";
    ".podspec"; ".gemspec"; ".nuspec" ].

Definition isSourceFile (filepath : string) : bool :=
  let ext := Js.toLowerCase (Js.extname filepath) in
  existsb (String.eqb ext) sourceExtensions.

Definition notBrace (c : ascii) : bool := negb (Ascii.eqb c "}").
Definition anyChar (c : ascii) : bool := negb (Js.isLineTerminator c).

(** The pattern of the directory rename: an opening brace, group 1 (one or
    more characters other than a closing brace), white space, "=>", white
    space, group 2 (the same class), a closing brace, then group 3, any
    characters up to the end of the input. *)
Definition dirRenamePattern : Js.regex :=
  Js.RCat [ Js.RLit "{";
            Js.RGroup 1 (Js.RPlus (Js.RChar notBrace));
            Js.RStar (Js.RChar Js.isSpace);
            Js.RLit "=>";
            Js.RStar (Js.RChar Js.isSpace);
            Js.RGroup 2 (Js.RPlus (Js.RChar notBrace));
            Js.RLit "}";
            Js.RGroup 3 (Js.RStar (Js.RChar anyChar));
            Js.REol ].

(** The pattern of the whole-path rename, anchored at both ends: an opening
    brace, group 1 (one or more characters), white space, "=>", white space,
    group 2 (one or more characters), a closing brace. *)
Definition fileRenamePattern : Js.regex :=
  Js.RCat [ Js.RBol;
            Js.RLit "{";
            Js.RGroup 1 (Js.RPlus (Js.RChar anyChar));
            Js.RStar (Js.RChar Js.isSpace);
            Js.RLit "=>";
            Js.RStar (Js.RChar Js.isSpace);
            Js.RGroup 2 (Js.RPlus (Js.RChar anyChar));
            Js.RLit "}";
            Js.REol ].

Definition group (n : nat) (groups : list (nat * string)) : string :=
  match Js.getCap n groups with
  | Some s => s
  | None => EmptyString
  end.

Record RenameInfo : Type :=
  { currentPath : string; oldPath : option string }.

Definition NUL : string := String (Js.chr 0) EmptyString.

(** The last test of [parseRenameInfo]. *)
Definition finishRename (cleanPath : string) (oldPath : option string)
  : option RenameInfo :=
  if Js.includes cleanPath "=>" || Js.includes cleanPath "{"
     || Js.includes cleanPath "}"
  then None
  else Some {| currentPath := cleanPath; oldPath := oldPath |}.

Definition parseRenameInfo (filepath : string) : option RenameInfo :=
  if (String.length filepath =? 0)%nat || String.eqb filepath "/dev/null"
     || Js.includes filepath NUL
  then None
  else
    let cleanPath := Js.trim filepath in
    if Js.includes cleanPath "{" && Js.includes cleanPath "}"
       && Js.includes cleanPath " => " && negb (Js.startsWith cleanPath "{")
    then
      (* Pattern 1: "{old_dir => new_dir}/file.ext" *)
      match Js.exec dirRenamePattern cleanPath with
      | Some m =>
          let oldDir := group 1 m in
          let newDir := group 2 m in
          let restPath := group 3 m in
          finishRename (Js.trim newDir ++ restPath)
                       (Some (Js.trim oldDir ++ restPath))
      | None => finishRename cleanPath None
      end
    else if Js.startsWith cleanPath "{" && Js.endsWith cleanPath "}"
            && Js.includes cleanPath " => "
    then
      (* Pattern 2: "{old_file => new_file}" *)
      match Js.exec fileRenamePattern cleanPath with
      | Some m =>
          let cleanPath' := Js.trim (group 2 m) in
          if String.eqb cleanPath' "/dev/null" then None
          else finishRename cleanPath' (Some (Js.trim (group 1 m)))
      | None => finishRename cleanPath None
      end
    else if Js.includes cleanPath " => "
    then
      (* Pattern 3: "old_path => new_path" *)
      match Js.split cleanPath " => " with
      | [p0; p1] =>
          let cleanPath' := Js.trim p1 in
          if String.eqb cleanPath' "/dev/null" then None
          else finishRename cleanPath' (Some (Js.trim p0))
      | _ => finishRename cleanPath None
      end
    else finishRename cleanPath None.

(** The pattern of a file stat line, anchored at the start: digits, white
    space, digits, white space (each one or more). *)
Definition numstatPattern : Js.regex :=
  Js.RCat [ Js.RBol;
            Js.RPlus (Js.RChar Js.isDigit);
            Js.RPlus (Js.RChar Js.isSpace);
            Js.RPlus (Js.RChar Js.isDigit);
            Js.RPlus (Js.RChar Js.isSpace) ].

(** [keywords.some((kw) => messageLower.includes(kw))] *)
Definition mentions (keywords : list string) (messageLower : string) : bool :=
  existsb (fun kw => Js.includes messageLower kw) keywords.

(** [parseInt(s) || 0] *)
Definition parseIntOr0 (s : string) : Z :=
  match Js.parseInt s with
  | Some z => z
  | None => 0
  end.

(** The canonical path of [currentPath]: the target of the first mapping
    whose source is [currentPath], or [currentPath] itself. *)
Fixpoint canonicalOf (pathMappings : list (string * string))
  (currentPath : string) : string :=
  match pathMappings with
  | [] => currentPath
  | (oldP, newP) :: rest' =>
      if String.eqb currentPath oldP then newP
      else canonicalOf rest' currentPath
  end.

(** The variables of [fetchCommitData] that live across its loop. *)
Record LoopState : Type :=
  { pathMappings : list (string * string);
    fileStats : list (string * FileStats);
    allRepoAuthors : list string;
    currentAuthor : string;
    currentDate : Date;
    isBugFix : bool;
    isFeature : bool;
    isRefactor : bool }.

(** The record pushed for one file.  [days_active] and [commits_per_day] are
    NaN ([None]) when a commit date is invalid. *)
Record CommitData : Type :=
  { module : string;
    filename : string;
    repo_name : string;
    cd_commits : Z;
    cd_authors : Z;
    author_names : list string;
    cd_lines_added : Z;
    cd_lines_deleted : Z;
    churn : Z;
    cd_bug_commits : Z;
    cd_refactor_commits : Z;
    cd_feature_commits : Z;
    lines_per_author : Q;
    churn_per_commit : Q;
    bug_ratio : Q;
    days_active : option Z;
    commits_per_day : option Q;
    created_at : Date;
    last_modified : Date }.

(** [Math.ceil(x / d)] for integers [x] and [d > 0]. *)
Definition ceilDiv (x d : Z) : Z := - ((- x) / d).

Definition MS_PER_DAY : Z := 24 * 60 * 60 * 1000.

(** [Math.max(Math.ceil((last - first) / MS_PER_DAY), 1)] *)
Definition daysActiveOf (stats : FileStats) : option Z :=
  match last_commit stats, first_commit stats with
  | Some l, Some f => Some (Z.max (ceilDiv (l - f) MS_PER_DAY) 1)
  | _, _ => None
  end.

(** The quotient [a / b] of two integers of the record, as a rational: the
    number the code holds is the double nearest to it. *)
Definition ratio (a b : Z) : Q := (inject_Z a / inject_Z b)%Q.

Section Fetch.

(** [path.basename(this.repoPath)] *)
Variable repoName : string.
Variable onlyExistingFiles : bool.
(** [fs.existsSync(path.join(this.repoPath, p))] as a function of [p]. *)
Variable existsSync : string -> bool.
(** The time value of the [new Date()] that initialises [currentDate]. *)
Variable now : Z.

Definition initialState : LoopState :=
  {| pathMappings := [];
     fileStats := [];
     allRepoAuthors := [];
     currentAuthor := EmptyString;
     currentDate := Some now;
     isBugFix := false;
     isFeature := false;
     isRefactor := false |}.

(** The commit header branch of the loop.  Destructuring a header with
    fewer than four fields leaves [message] undefined, and
    [message.toLowerCase()] throws. *)
Definition processHeader (st : LoopState) (line : string) : result LoopState :=
  match Js.split line "|" with
  | _ :: author :: timestamp :: message :: _ =>
      let messageLower := Js.toLowerCase message in
      Ok {| pathMappings := pathMappings st;
            fileStats := fileStats st;
            allRepoAuthors := setAdd author (allRepoAuthors st);
            currentAuthor := author;
            currentDate :=
              newDate (option_map (fun t => t * 1000) (Js.parseInt timestamp));
            isBugFix :=
              mentions ["fix"; "bug"; "patch"; "hotfix"; "bugfix"] messageLower;
            isFeature :=
              mentions ["feat"; "feature"; "add"; "implement"] messageLower;
            isRefactor :=
              mentions ["refactor"; "clean"; "improve"] messageLower |}
  | _ =>
      Throw (TypeError "Cannot read properties of undefined (reading 'toLowerCase')")
  end.

Definition withMaps (st : LoopState) (pm : list (string * string))
  (fs : list (string * FileStats)) : LoopState :=
  {| pathMappings := pm;
     fileStats := fs;
     allRepoAuthors := allRepoAuthors st;
     currentAuthor := currentAuthor st;
     currentDate := currentDate st;
     isBugFix := isBugFix st;
     isFeature := isFeature st;
     isRefactor := isRefactor st |}.

(** The file stat branch of the loop. *)
Definition processFileStat (st : LoopState) (line : string) : LoopState :=
  match Js.split line (String (Js.chr 9) EmptyString) with
  | p0 :: p1 :: rawFilepath :: _ =>
      let added := parseIntOr0 p0 in
      let removed := parseIntOr0 p1 in
      match parseRenameInfo rawFilepath with
      | None => st
      | Some renameInfo =>
          let currentPath := currentPath renameInfo in
          let pm :=
            match oldPath renameInfo with
            | Some oldPath =>
                if negb (String.length oldPath =? 0)%nat
                   && negb (String.eqb oldPath currentPath)
                then mapSet oldPath currentPath (pathMappings st)
                else pathMappings st
            | None => pathMappings st
            end in
          let canonicalPath := canonicalOf pm currentPath in
          if negb (isSourceFile canonicalPath) then withMaps st pm (fileStats st)
          else if onlyExistingFiles && negb (existsSync canonicalPath)
          then withMaps st pm (fileStats st)
          else
            withMaps st pm
              (updateOrCreateFileStats canonicalPath (fileStats st)
                 added removed (currentAuthor st) (currentDate st)
                 (isBugFix st) (isFeature st) (isRefactor st))
      end
  | _ => st
  end.

(** The body of [for (const line of lines)]. *)
Definition processLine (st : LoopState) (line : string) : result LoopState :=
  if Js.includes line "|" then processHeader st line
  else if Js.test numstatPattern line then Ok (processFileStat st line)
  else Ok st.

Fixpoint processLines (st : LoopState) (lines : list string)
  : result LoopState :=
  match lines with
  | [] => Ok st
  | line :: lines' =>
      st' <- processLine st line ;; processLines st' lines'
  end.

(** The record built from one entry of [fileStats]. *)
Definition toCommitData (filepath : string) (stats : FileStats) : CommitData :=
  let daysActive := daysActiveOf stats in
  let numAuthors := Z.of_nat (List.length (authors stats)) in
  let numCommits := commits stats in
  let churn := lines_added stats + lines_deleted stats in
  {| module := filepath;
     filename := filepath;
     repo_name := repoName;
     cd_commits := numCommits;
     cd_authors := numAuthors;
     author_names := authors stats;
     cd_lines_added := lines_added stats;
     cd_lines_deleted := lines_deleted stats;
     churn := churn;
     cd_bug_commits := bug_commits stats;
     cd_refactor_commits := refactor_commits stats;
     cd_feature_commits := feature_commits stats;
     lines_per_author :=
       if 0 <? numAuthors then ratio (lines_added stats) numAuthors else 0%Q;
     churn_per_commit :=
       if 0 <? numCommits then ratio churn numCommits else 0%Q;
     bug_ratio :=
       if 0 <? numCommits then ratio (bug_commits stats) numCommits else 0%Q;
     days_active := daysActive;
     commits_per_day :=
       option_map (fun d => ratio numCommits d) daysActive;
     created_at := first_commit stats;
     last_modified := last_commit stats |}.

(** The lines of the log: split at LF, trimmed, empty ones dropped. *)
Definition logLines (logOutput : string) : list string :=
  filter (fun line => negb (String.length line =? 0)%nat)
         (map Js.trim (Js.split logOutput (String (Js.chr 10) EmptyString))).

(** [fetchCommitData], from the output of the [git log] command on. *)
Definition fetchCommitData (logOutput : string) : result (list CommitData) :=
  st <- processLines initialState (logLines logOutput) ;;
  Ok (map (fun '(filepath, stats) => toCommitData filepath stats)
          (fileStats st)).

End Fetch.

End GitCommitCollector.

(* ================================================================== *)
(** * Concrete inputs used below *)
(* ================================================================== *)

Module Samples.

Import XGBoostPredictor.

Definition TAB : string := String (Js.chr 9) EmptyString.
Definition LF : string := String (Js.chr 10) EmptyString.

Section WithNumbers.
Context {num : Type} {N : JsNumber num}.

(** The record of the unit test of [extractFeatureVector]: the 26 features
    set to 1, 2, ..., 26 in the order of the feature names. *)
Definition oneTo26 : FeatureEngineer.CommitData num :=
  {| FeatureEngineer.module := "test.ts";
     FeatureEngineer.filename := "test.ts";
     FeatureEngineer.repo_name := "test-repo";
     FeatureEngineer.commits := Some (lit 1 0);
     FeatureEngineer.authors := Some (lit 2 0);
     FeatureEngineer.lines_added := Some (lit 3 0);
     FeatureEngineer.lines_deleted := Some (lit 4 0);
     FeatureEngineer.churn := Some (lit 5 0);
     FeatureEngineer.bug_commits := Some (lit 6 0);
     FeatureEngineer.refactor_commits := Some (lit 7 0);
     FeatureEngineer.feature_commits := Some (lit 8 0);
     FeatureEngineer.lines_per_author := Some (lit 9 0);
     FeatureEngineer.churn_per_commit := Some (lit 10 0);
     FeatureEngineer.bug_ratio := Some (lit 11 0);
     FeatureEngineer.days_active := Some (lit 12 0);
     FeatureEngineer.commits_per_day := Some (lit 13 0);
     FeatureEngineer.degradation_days := Some (lit 14 0);
     FeatureEngineer.net_lines := Some (lit 15 0);
     FeatureEngineer.code_stability := Some (lit 16 0);
     FeatureEngineer.is_high_churn_commit := Some (lit 17 0);
     FeatureEngineer.bug_commit_rate := Some (lit 18 0);
     FeatureEngineer.commits_squared := Some (lit 19 0);
     FeatureEngineer.author_concentration := Some (lit 20 0);
     FeatureEngineer.lines_per_commit := Some (lit 21 0);
     FeatureEngineer.churn_rate := Some (lit 22 0);
     FeatureEngineer.modification_ratio := Some (lit 23 0);
     FeatureEngineer.churn_per_author := Some (lit 24 0);
     FeatureEngineer.deletion_rate := Some (lit 25 0);
     FeatureEngineer.commit_density := Some (lit 26 0) |}.

(** The numbers 1, 2, ..., 26. *)
Definition oneTo26Vector : list (option num) :=
  map (fun k => Some (lit (Z.of_nat k) 0)) (seq 1 26).

(** The input of the first unit test of [transform]. *)
Definition transformTestInput : FeatureEngineer.CommitData num :=
  {| FeatureEngineer.module := "src/test.ts";
     FeatureEngineer.filename := "test.ts";
     FeatureEngineer.repo_name := "test-repo";
     FeatureEngineer.commits := Some (lit 10 0);
     FeatureEngineer.authors := Some (lit 3 0);
     FeatureEngineer.lines_added := Some (lit 100 0);
     FeatureEngineer.lines_deleted := Some (lit 50 0);
     FeatureEngineer.churn := Some (lit 150 0);
     FeatureEngineer.bug_commits := Some (lit 2 0);
     FeatureEngineer.refactor_commits := Some (lit 0 0);
     FeatureEngineer.feature_commits := Some (lit 8 0);
     FeatureEngineer.lines_per_author := Some (lit 50 0);
     FeatureEngineer.churn_per_commit := Some (lit 15 0);
     FeatureEngineer.bug_ratio := Some (lit 2 (-1));
     FeatureEngineer.days_active := Some (lit 31 0);
     FeatureEngineer.commits_per_day := Some (div (lit 10 0) (lit 31 0));
     FeatureEngineer.degradation_days := None;
     FeatureEngineer.net_lines := None;
     FeatureEngineer.code_stability := None;
     FeatureEngineer.is_high_churn_commit := None;
     FeatureEngineer.bug_commit_rate := None;
     FeatureEngineer.commits_squared := None;
     FeatureEngineer.author_concentration := None;
     FeatureEngineer.lines_per_commit := None;
     FeatureEngineer.churn_rate := None;
     FeatureEngineer.modification_ratio := None;
     FeatureEngineer.churn_per_author := None;
     FeatureEngineer.deletion_rate := None;
     FeatureEngineer.commit_density := None |}.

(** The thirteen derived fields of a record, in the order of the vector. *)
Definition derivedFields (r : FeatureEngineer.CommitData num)
  : list (option num) :=
  [ FeatureEngineer.degradation_days r; FeatureEngineer.net_lines r;
    FeatureEngineer.code_stability r; FeatureEngineer.is_high_churn_commit r;
    FeatureEngineer.bug_commit_rate r; FeatureEngineer.commits_squared r;
    FeatureEngineer.author_concentration r; FeatureEngineer.lines_per_commit r;
    FeatureEngineer.churn_rate r; FeatureEngineer.modification_ratio r;
    FeatureEngineer.churn_per_author r; FeatureEngineer.deletion_rate r;
    FeatureEngineer.commit_density r ].

(** The model of the unit tests of the predictor: no base score, an empty
    list of trees. *)
Definition noTrees (baseScoreStr : option string) : XGBoostModel num :=
  {| model_type := "xgboost";
     learner_feature_names := Some ["f1"; "f2"; "f3"];
     base_score := baseScoreStr;
     trees := Some [];
     feature_names := None;
     feature_count := 26 |}.

(** A stump on feature 0 with threshold 50: leaf weights 0.1 (left, node 1)
    and -0.1 (right, node 2). *)
Definition stump : XGBoostTree num :=
  {| base_weights := [lit 0 0; lit 1 (-1); lit (-1) (-1)];
     left_children := [1; -1; -1];
     right_children := [2; -1; -1];
     split_conditions := [lit 50 0; lit 0 0; lit 0 0];
     split_indices := [0; 0; 0] |}.

(** A tree whose root is its own left child. *)
Definition cyclic : XGBoostTree num :=
  {| base_weights := [lit 0 0];
     left_children := [0];
     right_children := [0];
     split_conditions := [lit 50 0];
     split_indices := [0] |}.

Definition stumpModel : XGBoostModel num :=
  {| model_type := "xgboost";
     learner_feature_names := None;
     base_score := Some "[-1.201454E-2]";
     trees := Some [stump];
     feature_names := None;
     feature_count := 1 |}.

End WithNumbers.

Definition header (hash author timestamp subject : string) : string :=
  hash ++ "|" ++ author ++ "|" ++ timestamp ++ "|" ++ subject.

Definition numstat (added removed path : string) : string :=
  added ++ TAB ++ removed ++ TAB ++ path.

Definition unlines (ls : list string) : string := String.concat LF ls.

(** The logs of the unit tests of the collector. *)
Definition testLogTwoFiles : string :=
  unlines
    [ header "abc123" "user@example.com" "1234567890" "Fix bug in parser";
      numstat "10" "5" "src/parser.ts";
      header "def456" "user2@example.com" "1234567891" "Add new feature";
      numstat "20" "0" "src/feature.ts" ].

Definition testLogReadme : string :=
  unlines
    [ header "abc123" "user@example.com" "1234567890" "Update readme";
      numstat "5" "2" "README.md";
      header "def456" "user@example.com" "1234567891" "Fix bug";
      numstat "10" "5" "src/index.ts" ].

Definition testLogSameFile : string :=
  unlines
    [ header "abc123" "user@example.com" "1234567890" "Fix bug 1";
      numstat "10" "5" "src/parser.ts";
      header "def456" "user2@example.com" "1234567891" "Fix bug 2";
      numstat "5" "3" "src/parser.ts";
      header "ghi789" "user@example.com" "1234567892" "Refactor";
      numstat "15" "10" "src/parser.ts" ].

Definition testLogDocsOnly : string :=
  unlines
    [ header "abc123" "user@example.com" "1234567890" "Update docs";
      numstat "5" "2" "README.md" ].

(** A history, newest commit first as [git log] prints it, in which a.ts was
    renamed to b.ts and b.ts to c.ts, with one edit under each name. *)
Definition renameChainLog : string :=
  unlines
    [ header "h4" "dev@x.io" "1700000400" "edit c";
      numstat "5" "3" "c.ts";
      header "h3" "dev@x.io" "1700000300" "rename b to c";
      numstat "0" "0" "b.ts => c.ts";
      header "h2" "dev@x.io" "1700000200" "edit b";
      numstat "2" "1" "b.ts";
      header "h1" "dev@x.io" "1700000100" "rename a to b";
      numstat "0" "0" "a.ts => b.ts";
      header "h0" "dev@x.io" "1700000000" "create a";
      numstat "7" "0" "a.ts" ].

(** A commit that touches a source file and a binary file. *)
Definition binaryLog : string :=
  unlines
    [ header "h1" "dev@x.io" "1700000000" "logo";
      numstat "-" "-" "vendor/blob.js";
      numstat "4" "1" "src/app.ts" ].

Definition binaryLogWithout : string :=
  unlines
    [ header "h1" "dev@x.io" "1700000000" "logo";
      numstat "4" "1" "src/app.ts" ].

(** Two commits of one file, 36 hours apart, newest first. *)
Definition twoDayLog : string :=
  unlines
    [ header "h2" "dev@x.io" "1700129600" "second";
      numstat "1" "1" "src/app.ts";
      header "h1" "dev@x.io" "1700000000" "first";
      numstat "4" "1" "src/app.ts" ].

(** A commit that adds a file whose name contains the bar character, which
    [git log --numstat] prints as it is, and edits a source file.  The files
    of a commit are listed in the order of their paths. *)
Definition barNameLog : string :=
  unlines
    [ header "h1" "dev@x.io" "1700000000" "add files";
      numstat "3" "1" "lib/a|b|c|d.ts";
      numstat "4" "1" "src/app.ts" ].

(** A commit that adds a binary file whose name contains three bars and
    edits a source file. *)
Definition binaryBarLog : string :=
  unlines
    [ header "h1" "dev@x.io" "1700000000" "logo";
      numstat "-" "-" "img/a|evil@x.io|0|fix.png";
      numstat "4" "1" "src/app.ts" ].

(** The same with one bar in the name of the binary file. *)
Definition binaryOneBarLog : string :=
  unlines
    [ header "h1" "dev@x.io" "1700000000" "logo";
      numstat "-" "-" "img/a|b.png";
      numstat "4" "1" "src/app.ts" ].

End Samples.

Unset Implicit Arguments.

(* ================================================================== *)
(** * Vocabulary of the properties *)
(* ================================================================== *)

(** The error [predict] throws on a predictor with no model. *)
Definition usageError : error := Error "Model not loaded. Call loadModel() first.".

(** A call that neither throws nor fails in any other way than by running
    out of budget. *)
Definition noThrow {A : Type} (r : result A) : Prop :=
  forall e, r <> Throw e.

(** What the two carriers have in common about [<] and [<=]. *)
Record JsNumberLaws (num : Type) (N : JsNumber num) : Prop :=
  { ltb_irrefl : forall x : num, ltb x x = false;
    ltb_trans : forall x y z : num,
        ltb x y = true -> ltb y z = true -> ltb x z = true;
    ltb_not_NaN : forall x y : num,
        ltb x y = true -> isNaN x = false /\ isNaN y = false;
    leb_ltb : forall x y : num,
        isNaN x = false -> isNaN y = false -> leb x y = negb (ltb y x) }.

Module TreeSpec.

Import XGBoostPredictor.

Section Walk.
Context {num : Type} {N : JsNumber num}.
Variable tree : XGBoostTree num.
Variable features : list (option num).

(** [features[i]] *)
Definition featureAt (i : Z) : option num :=
  match arrayGet features (Some i) with
  | Some v => v
  | None => None
  end.

(** The walk, as the specification words it: from node [n], a node whose
    left-child entry is the sentinel -1 yields its weight; any other node
    sends the walk to its left child when the feature value at its split
    index is strictly below its threshold, and to its right child
    otherwise. *)
Inductive descends : Z -> num -> Prop :=
| descends_leaf (n : Z) (w : num) :
    arrayGet (left_children tree) (Some n) = Some (-1) ->
    arrayGet (base_weights tree) (Some n) = Some w ->
    descends n w
| descends_left (n l i : Z) (c w : num) :
    arrayGet (left_children tree) (Some n) = Some l -> l <> -1 ->
    arrayGet (split_indices tree) (Some n) = Some i ->
    arrayGet (split_conditions tree) (Some n) = Some c ->
    js_lt (featureAt i) (Some c) = true ->
    descends l w ->
    descends n w
| descends_right (n l r i : Z) (c w : num) :
    arrayGet (left_children tree) (Some n) = Some l -> l <> -1 ->
    arrayGet (split_indices tree) (Some n) = Some i ->
    arrayGet (split_conditions tree) (Some n) = Some c ->
    js_lt (featureAt i) (Some c) = false ->
    arrayGet (right_children tree) (Some n) = Some r ->
    descends r w ->
    descends n w.

End Walk.

(** A well-formed tree: below node [n] every node is a leaf with a weight or
    a split with an index, a threshold and two children that are themselves
    well formed (so the nodes below [n] form a finite tree). *)
Inductive wellFormedFrom {num : Type} (tree : XGBoostTree num) : Z -> Prop :=
| wf_leaf (n : Z) (w : num) :
    arrayGet (left_children tree) (Some n) = Some (-1) ->
    arrayGet (base_weights tree) (Some n) = Some w ->
    wellFormedFrom tree n
| wf_split (n l r i : Z) (c : num) :
    arrayGet (left_children tree) (Some n) = Some l -> l <> -1 ->
    arrayGet (right_children tree) (Some n) = Some r ->
    arrayGet (split_indices tree) (Some n) = Some i ->
    arrayGet (split_conditions tree) (Some n) = Some c ->
    wellFormedFrom tree l ->
    wellFormedFrom tree r ->
    wellFormedFrom tree n.

Definition wellFormed {num : Type} (tree : XGBoostTree num) : Prop :=
  wellFormedFrom tree 0.

Definition isSome {A : Type} (o : option A) : bool :=
  match o with Some _ => true | None => false end.

(** Node [i] of a tree with [n] nodes is a leaf with a weight, or a split
    whose children have larger indices than [i], below [n]. *)
Definition forwardNode {num : Type} (tree : XGBoostTree num) (n : Z) (i : Z)
  : bool :=
  match arrayGet (left_children tree) (Some i) with
  | Some l =>
      if l =? -1 then isSome (arrayGet (base_weights tree) (Some i))
      else
        (i <? l) && (l <? n)
        && match arrayGet (right_children tree) (Some i) with
           | Some r => (i <? r) && (r <? n)
           | None => false
           end
        && isSome (arrayGet (split_indices tree) (Some i))
        && isSome (arrayGet (split_conditions tree) (Some i))
  | None => false
  end.

(** A check of well-formedness that can be run: the tree is not empty and
    every node is a leaf or a split with its children further on. *)
Definition wellFormedb {num : Type} (tree : XGBoostTree num) : bool :=
  let n := List.length (left_children tree) in
  (0 <? n)%nat
  && forallb (fun i => forwardNode tree (Z.of_nat n) (Z.of_nat i)) (seq 0 n).
End TreeSpec.

Module FloatOrder.

(** A key whose lexicographic order is the order of the non-NaN values of
    the format: class (infinities, sign), exponent, mantissa. *)
Definition key (f : SpecFloat.spec_float) : Z * Z * Z :=
  match f with
  | SpecFloat.S754_zero _ => (0, 0, 0)
  | SpecFloat.S754_infinity true => (-2, 0, 0)
  | SpecFloat.S754_infinity false => (2, 0, 0)
  | SpecFloat.S754_nan => (0, 0, 0)
  | SpecFloat.S754_finite true m e => (-1, - e, - Z.pos m)
  | SpecFloat.S754_finite false m e => (1, e, Z.pos m)
  end.

Definition lexlt (a b : Z * Z * Z) : Prop :=
  let '(a1, a2, a3) := a in
  let '(b1, b2, b3) := b in
  a1 < b1 \/ (a1 = b1 /\ (a2 < b2 \/ (a2 = b2 /\ a3 < b3))).

Definition isNan (f : SpecFloat.spec_float) : bool :=
  match f with
  | SpecFloat.S754_nan => true
  | _ => false
  end.

End FloatOrder.

Module RegexSpec.

Import Js.

(** The matcher state after reading the character [c] in front of [s]. *)
Definition advance (st : mstate) (c : ascii) (s : string) : mstate :=
  {| consumed := S (consumed st); rest := s; caps := caps st |}.

(** The matcher state after the longest run of [p]-characters. *)
Definition skip (p : ascii -> bool) (st : mstate) : mstate :=
  {| consumed := consumed st + String.length (fst (span p (rest st)));
     rest := snd (span p (rest st));
     caps := caps st |}.

Definition startsWithClass (p : ascii -> bool) (s : string) : bool :=
  match s with
  | String c _ => p c
  | EmptyString => false
  end.

End RegexSpec.

Module CollectorSpec.

Import GitCommitCollector.

(** [first_commit <= last_commit], both being valid dates. *)
Definition ordered (s : FileStats) : Prop :=
  match first_commit s, last_commit s with
  | Some f, Some l => f <= l
  | _, _ => False
  end.

Definition allOrdered (fileStats : list (string * FileStats)) : Prop :=
  Forall (fun entry => ordered (snd entry)) fileStats.

Definition validDate (d : Date) : Prop := exists t, d = Some t.

(** The third field of a line with a bar, which the loop reads as the
    timestamp of a commit header, is a number within the range of dates.
    The [%at] field of the headers printed by [git log] is one; the third
    field of a line that has bars for another reason need not be. *)
Definition timestampOk (line : string) : bool :=
  if Js.includes line "|" then
    match Js.split line "|" with
    | _ :: _ :: timestamp :: _ :: _ =>
        match newDate (option_map (fun t => t * 1000) (Js.parseInt timestamp)) with
        | Some _ => true
        | None => false
        end
    | _ => true
    end
  else true.

(** The state of the loop keeps valid, ordered dates. *)
Definition datesOk (st : LoopState) : Prop :=
  validDate (currentDate st) /\ allOrdered (fileStats st).

(** What the record [r] emitted for the entry [s] of the map holds about the
    days of activity: the dates and the commit count of the entry, and, when
    both dates are valid, [days_active] is the least integer [d >= 1] with
    [last - first <= d * 86400000] and [commits_per_day] is the quotient of
    the commit count by it; when a date is invalid both are NaN. *)
Definition daysActiveSpec (s : FileStats) (r : CommitData) : Prop :=
  created_at r = first_commit s
  /\ last_modified r = last_commit s
  /\ cd_commits r = commits s
  /\ match first_commit s, last_commit s with
     | Some f, Some l =>
         exists d,
           days_active r = Some d
           /\ 1 <= d
           /\ l - f <= d * 86400000
           /\ (forall k, 1 <= k -> l - f <= k * 86400000 -> d <= k)
           /\ (f = l -> d = 1)
           /\ commits_per_day r = Some (ratio (commits s) d)
     | _, _ => days_active r = None /\ commits_per_day r = None
     end.

(** The dates of an emitted record and the fields computed from them. *)
Definition activity (r : CommitData)
  : string * Z * Date * Date * option Z * option Q :=
  (module r, cd_commits r, created_at r, last_modified r, days_active r,
   commits_per_day r).

(** The fields of an emitted record that come from the commit header. *)
Definition attribution (r : CommitData)
  : string * list string * Date * Z * Z * Z :=
  (module r, author_names r, created_at r, cd_bug_commits r,
   cd_feature_commits r, cd_refactor_commits r).

(** The dates of the entries of the map. *)
Definition datesOf (fileStats : list (string * FileStats))
  : list (string * Date * Date) :=
  map (fun entry => (fst entry, first_commit (snd entry),
                     last_commit (snd entry))) fileStats.

(** The leading columns of a file stat line, read directly: a run of
    digits, a run of white space, a run of digits, a run of white space, each
    of them non-empty. *)
Definition nonEmpty (s : string) : bool := negb (String.length s =? 0)%nat.

Definition numstatShape (line : string) : bool :=
  let (d1, r1) := Js.span Js.isDigit line in
  let (w1, r2) := Js.span Js.isSpace r1 in
  let (d2, r3) := Js.span Js.isDigit r2 in
  let (w2, _) := Js.span Js.isSpace r3 in
  nonEmpty d1 && nonEmpty w1 && nonEmpty d2 && nonEmpty w2.

(** A line the loop has no branch for. *)
Definition skipped (line : string) : bool :=
  negb (Js.includes line "|") && negb (Js.test numstatPattern line).

(** The part of an emitted record that the rename properties look at. *)
Definition summary (r : CommitData) : string * Z * Z * Z :=
  (module r, cd_commits r, cd_lines_added r, cd_lines_deleted r).

End CollectorSpec.

(* ================================================================== *)
(** * The constructor of the collector *)
(* ================================================================== *)

Set Implicit Arguments.
Set Warnings "-register-all".

Module CollectorSetup.

(** The text of a caught error inside a template literal: the name of its
    class, a colon and its message. *)
Definition errorToString (e : error) : string :=
  match e with
  | Error msg => "Error: " ++ msg
  | TypeError msg => "TypeError: " ++ msg
  end.

(** The private fields the constructor stores. *)
Record GitCommitCollector : Type :=
  { repoPath : string;
    branch : string;
    windowSizeDays : Z;
    onlyExistingFiles : bool }.

Section Constructor.

(** [fs.existsSync(p)] *)
Variable existsSync : string -> bool.
(** [execSync(command, { cwd })]: the output of the command, or the error
    it throws when the command fails. *)
Variable execSync : string -> string -> string + error.

(** The body of the [try] that verifies the branch. *)
Definition verifyBranch (repoPath branch : string) : result unit :=
  match execSync "git branch -a" repoPath with
  | inl branches =>
      if negb (Js.includes branches branch)
      then Throw (Error ("Branch '" ++ branch ++ "' not found"))
      else Ok tt
  | inr e => Throw e
  end.

(** [new GitCommitCollector(repoPath, branch, windowSizeDays,
    onlyExistingFiles)] *)
Definition new (repoPath branch : string) (windowSizeDays : Z)
  (onlyExistingFiles : bool) : result GitCommitCollector :=
  if negb (existsSync repoPath)
  then Throw (Error ("Repository path does not exist: " ++ repoPath))
  else
    match execSync "git rev-parse --git-dir" repoPath with
    | inr _ => Throw (Error ("Invalid git repository: " ++ repoPath))
    | inl _ =>
        match verifyBranch repoPath branch with
        | Ok _ =>
            Ok {| repoPath := repoPath;
                  branch := branch;
                  windowSizeDays := windowSizeDays;
                  onlyExistingFiles := onlyExistingFiles |}
        | Throw e =>
            Throw (Error ("Failed to verify branch: " ++ errorToString e))
        | OutOfFuel => OutOfFuel
        end
    end.

End Constructor.

End CollectorSetup.

(* ================================================================== *)
(** * The predict command *)
(* ================================================================== *)

Module PredictCommand.

Import XGBoostPredictor.

(** [acc[k] || 0] on an object whose properties are counts. *)
Definition countOr0 (acc : list (string * Z)) (k : string) : Z :=
  match GitCommitCollector.mapGet k acc with
  | Some n => n
  | None => 0
  end.

(** The reduction of [showSummary], [formatAsMarkdown] and [formatAsHTML]
    that counts the predictions of each category, in an object keyed by the
    label of the category. *)
Definition riskDist {num : Type} (predictions : list (RiskPrediction num))
  : list (string * Z) :=
  fold_left
    (fun acc p =>
       let k := RiskCategory_label (risk_category p) in
       GitCommitCollector.mapSet k (countOr0 acc k + 1) acc)
    predictions [].

(** The numbers [showSummary] prints. *)
Record Summary : Type :=
  { totalFiles : Z;
    severelyDegraded : Z;
    degraded : Z;
    stable : Z;
    improved : Z }.

Definition showSummary {num : Type} (predictions : list (RiskPrediction num))
  : Summary :=
  let riskDist := riskDist predictions in
  {| totalFiles := Z.of_nat (List.length predictions);
     severelyDegraded := countOr0 riskDist "severely_degraded";
     degraded := countOr0 riskDist "degraded";
     stable := countOr0 riskDist "stable";
     improved := countOr0 riskDist "improved" |}.

Definition maintSightEntry : string := ".maintsight/".

(** [addToGitignore], from the result of reading .gitignore ([None] when
    the file cannot be read) to the content written to it ([None] when
    nothing is written). *)
Definition addToGitignore (readFile : option string) : option string :=
  let gitignoreContent :=
    match readFile with
    | Some content => content
    | None => EmptyString
    end in
  if negb (Js.includes gitignoreContent ".maintsight") then
    Some (if negb (String.length gitignoreContent =? 0)%nat
          then Js.trimEnd gitignoreContent ++ Samples.LF ++ Samples.LF
               ++ "# MaintSight reports" ++ Samples.LF
               ++ maintSightEntry ++ Samples.LF
          else "# MaintSight reports" ++ Samples.LF
               ++ maintSightEntry ++ Samples.LF)
  else None.

End PredictCommand.

(* ================================================================== *)
(** * The report generator *)
(* ================================================================== *)

Module HtmlGenerator.

Import XGBoostPredictor.

(** [s.replace(a, b)] for one-character texts: the first occurrence only. *)
Fixpoint replaceChar (a b : ascii) (s : string) : string :=
  match s with
  | EmptyString => EmptyString
  | String c s' =>
      if Ascii.eqb c a then String b s' else String c (replaceChar a b s')
  end.

(** The class of the badge of a file: [category.replace('_', '-')]. *)
Definition categoryClass (category : RiskCategory) : string :=
  replaceChar "_" "-" (RiskCategory_label category).

Inductive FileTreeNode (num : Type) : Type :=
| Node (name : string) (isFolder : bool)
       (children : option (list (FileTreeNode num)))
       (prediction : option (RiskPrediction num))
       (path : option string).

Record FolderStats (num : Type) : Type :=
  { avgScore : num; fileCount : Z; category : string }.

Record CommitStats : Type :=
  { totalCommits : Z;
    totalBugFixes : Z;
    avgCommitsPerFile : Q;
    avgAuthorsPerFile : Q;
    authorNames : list string }.

Section WithNumbers.
Context {num : Type} {N : JsNumber num}.

(** [traverse] of [calculateFolderStats], on the pair of [totalScore] and
    [fileCount]. *)
Fixpoint traverse (n : FileTreeNode num) (acc : num * Z) : num * Z :=
  match n with
  | Node _ _ children prediction _ =>
      match children with
      | Some (c :: cs) => fold_left (fun a child => traverse child a) (c :: cs) acc
      | _ =>
          match prediction with
          | Some p => (add (fst acc) (degradation_score p), snd acc + 1)
          | None => acc
          end
      end
  end.

(** The category of a folder, from its average score. *)
Definition folderCategory (avgScore : num) : string :=
  if gtb avgScore (lit 2 (-1)) then "severely-degraded"
  else if gtb avgScore (lit 1 (-1)) then "degraded"
  else if gtb avgScore (lit 0 0) then "stable"
  else "improved".

Definition calculateFolderStats (node : FileTreeNode num) : FolderStats num :=
  let '(totalScore, fileCount) := traverse node (lit 0 0, 0) in
  let avgScore :=
    if 0 <? fileCount then div totalScore (lit fileCount 0) else lit 0 0 in
  {| avgScore := avgScore;
     fileCount := fileCount;
     category := folderCategory avgScore |}.

End WithNumbers.

(** [calculateCommitStats], on the records of the collector (whose
    counters are numbers, so that [d.commits || 0] is [d.commits], and whose
    [author_names] is an array). *)
Definition calculateCommitStats (commitData : list GitCommitCollector.CommitData)
  : CommitStats :=
  if (List.length commitData =? 0)%nat then
    {| totalCommits := 0;
       totalBugFixes := 0;
       avgCommitsPerFile := 0;
       avgAuthorsPerFile := 0;
       authorNames := [] |}
  else
    let totalCommits :=
      fold_left (fun sum d => sum + GitCommitCollector.cd_commits d)
                commitData 0 in
    let totalBugFixes :=
      fold_left (fun sum d => sum + GitCommitCollector.cd_bug_commits d)
                commitData 0 in
    let uniqueAuthors :=
      fold_left
        (fun set d =>
           fold_left (fun s author => GitCommitCollector.setAdd author s)
                     (GitCommitCollector.author_names d) set)
        commitData [] in
    let avgAuthorsPerFile :=
      GitCommitCollector.ratio
        (fold_left (fun sum d => sum + GitCommitCollector.cd_authors d)
                   commitData 0)
        (Z.of_nat (List.length commitData)) in
    {| totalCommits := totalCommits;
       totalBugFixes := totalBugFixes;
       avgCommitsPerFile :=
         GitCommitCollector.ratio totalCommits
                                  (Z.of_nat (List.length commitData));
       avgAuthorsPerFile := avgAuthorsPerFile;
       authorNames := uniqueAuthors |}.

End HtmlGenerator.

Unset Implicit Arguments.

(* ================================================================== *)
(** * Vocabulary of the further properties *)
(* ================================================================== *)

Module FeatureSpec.

(** An entry of the vector that is defined and is not NaN. *)
Definition definedNumber {num : Type} {N : JsNumber num} (v : option num)
  : Prop :=
  exists x, v = Some x /\ isNaN x = false.

(** The thirteen base fields of a record, in the order of the vector. *)
Definition baseFields {num : Type} (r : FeatureEngineer.CommitData num)
  : list (option num) :=
  [ FeatureEngineer.commits r; FeatureEngineer.authors r;
    FeatureEngineer.lines_added r; FeatureEngineer.lines_deleted r;
    FeatureEngineer.churn r; FeatureEngineer.bug_commits r;
    FeatureEngineer.refactor_commits r; FeatureEngineer.feature_commits r;
    FeatureEngineer.lines_per_author r; FeatureEngineer.churn_per_commit r;
    FeatureEngineer.bug_ratio r; FeatureEngineer.days_active r;
    FeatureEngineer.commits_per_day r ].

End FeatureSpec.

Module ScorerSpec.

Import XGBoostPredictor.

(** The trees the scorer walks: [trees || []]. *)
Definition treesOf {num : Type} (m : XGBoostModel num)
  : list (XGBoostTree num) :=
  match trees m with
  | Some ts => ts
  | None => []
  end.

(** The four labels in the order of severity. *)
Definition rank (c : RiskCategory) : nat :=
  match c with
  | IMPROVED => 0
  | STABLE => 1
  | DEGRADED => 2
  | SEVERELY_DEGRADED => 3
  end.

(** A value read from the feature vector that is [undefined] or NaN. *)
Definition missing {num : Type} {N : JsNumber num} (v : option num) : bool :=
  match v with
  | Some x => isNaN x
  | None => true
  end.

(** The two bounds of the clipping of [calibratePredictions]:
    [TRAIN_MIN - 0.1] and [TRAIN_MAX + 0.1]. *)
Definition clipLow {num : Type} {N : JsNumber num} : num :=
  sub XGBoostPredictor.TRAIN_MIN (lit 1 (-1)).

Definition clipHigh {num : Type} {N : JsNumber num} : num :=
  add XGBoostPredictor.TRAIN_MAX (lit 1 (-1)).

(** A score that is NaN or lies between the two bounds. *)
Definition inClipRange {num : Type} {N : JsNumber num} (y : num) : Prop :=
  isNaN y = true \/ (leb clipLow y = true /\ leb y clipHigh = true).

End ScorerSpec.

Module OutputSpec.

Import GitCommitCollector.

(** The counters of an entry of the map of FileStats are consistent: at
    least one commit, at least one author and at most one per commit, each
    author once, and no more bug, feature or refactor commits than
    commits. *)
Definition statsOk (s : FileStats) : Prop :=
  1 <= commits s
  /\ authors s <> []
  /\ NoDup (authors s)
  /\ Z.of_nat (List.length (authors s)) <= commits s
  /\ 0 <= bug_commits s <= commits s
  /\ 0 <= feature_commits s <= commits s
  /\ 0 <= refactor_commits s <= commits s.

(** The same for an emitted record, with its three ratios. *)
Definition recordOk (r : CommitData) : Prop :=
  1 <= cd_commits r
  /\ 1 <= cd_authors r <= cd_commits r
  /\ cd_authors r = Z.of_nat (List.length (author_names r))
  /\ NoDup (author_names r)
  /\ 0 <= cd_bug_commits r <= cd_commits r
  /\ 0 <= cd_feature_commits r <= cd_commits r
  /\ 0 <= cd_refactor_commits r <= cd_commits r
  /\ churn r = cd_lines_added r + cd_lines_deleted r
  /\ lines_per_author r = ratio (cd_lines_added r) (cd_authors r)
  /\ churn_per_commit r = ratio (churn r) (cd_commits r)
  /\ bug_ratio r = ratio (cd_bug_commits r) (cd_commits r)
  /\ (0 <= bug_ratio r <= 1)%Q.

(** A line that is not taken for a commit header, or that has the four
    fields the destructuring of a header reads. *)
Definition headerOk (line : string) : bool :=
  negb (Js.includes line "|")
  || (4 <=? List.length (Js.split line "|"))%nat.

(** The error of a header with fewer than four fields. *)
Definition headerError : error :=
  TypeError "Cannot read properties of undefined (reading 'toLowerCase')".

(** A path with none of the marks of a rename. *)
Definition noRenameMark (p : string) : bool :=
  negb (Js.includes p "=>") && negb (Js.includes p "{")
  && negb (Js.includes p "}").

End OutputSpec.

Module RenameSpec.

(** The characters of a path segment that carries no white space and none
    of the characters of the rename notation of the log. *)
Definition plainChar (c : ascii) : bool :=
  negb (Js.isSpace c) && negb (Ascii.eqb c "{") && negb (Ascii.eqb c "}")
  && negb (Ascii.eqb c "=") && negb (Ascii.eqb c ">")
  && negb (Ascii.eqb c (Js.chr 0)).

(** Every character of [s] satisfies [p]. *)
Fixpoint allChars (p : ascii -> bool) (s : string) : bool :=
  match s with
  | EmptyString => true
  | String c s' => p c && allChars p s'
  end.

Definition plain (s : string) : bool := allChars plainChar s.

Fixpoint hasChar (c : ascii) (s : string) : bool :=
  match s with
  | EmptyString => false
  | String d s' => Ascii.eqb c d || hasChar c s'
  end.

(** The pattern of the directory rename from its first white space on,
    that is, after the opening brace and group 1. *)
Definition afterGroup1 : Js.regex :=
  Js.RCat [ Js.RStar (Js.RChar Js.isSpace);
            Js.RLit "=>";
            Js.RStar (Js.RChar Js.isSpace);
            Js.RGroup 2 (Js.RPlus (Js.RChar GitCommitCollector.notBrace));
            Js.RLit "}";
            Js.RGroup 3 (Js.RStar (Js.RChar GitCommitCollector.anyChar));
            Js.REol ].

(** The text [s], white space skipped, does not start with an equals
    sign. *)
Definition noArrow (s : string) : bool :=
  negb (RegexSpec.startsWithClass (Ascii.eqb "=")
          (snd (Js.span Js.isSpace s))).

(** The matcher state with group [n] set to the text read since [st0]. *)
Definition capture (n : nat) (st0 st : Js.mstate) : Js.mstate :=
  {| Js.consumed := Js.consumed st;
     Js.rest := Js.rest st;
     Js.caps :=
       Js.setCap n (String.substring 0 (Js.consumed st - Js.consumed st0)
                                     (Js.rest st0))
                 (Js.caps st) |}.

End RenameSpec.

Module ReportSpec.

Import XGBoostPredictor.

(** The number of predictions of a batch that carry the category [c]. *)
Definition countCategory {num : Type} (c : RiskCategory)
  (predictions : list (RiskPrediction num)) : Z :=
  Z.of_nat
    (List.length
       (filter (fun p => Nat.eqb (ScorerSpec.rank (risk_category p))
                                 (ScorerSpec.rank c))
               predictions)).

(** A folder that holds one file with the prediction [p]. *)
Definition folderOfOne {num : Type} (folder file : string)
  (p : RiskPrediction num) : HtmlGenerator.FileTreeNode num :=
  HtmlGenerator.Node folder true
    (Some [HtmlGenerator.Node file false None (Some p) None])
    None None.

End ReportSpec.

(* ================================================================== *)
(** * Properties of the feature engineer *)
(* ================================================================== *)

Section FeatureVector.
Context {num : Type} {N : JsNumber num}.

Lemma orZero_truthy (x : num) : truthy x = true -> orZero (Some x) = Some x.
Proof. intros H. unfold orZero. now rewrite H. Qed.

(** The vector lists the 26 fields in the order of the feature names,
    whatever the numbers are, as long as the derived ones are not falsy. *)
Lemma extractFeatureVector_order (r : FeatureEngineer.CommitData num) :
  Forall (fun v => exists x, v = Some x /\ truthy x = true)
    [ FeatureEngineer.degradation_days r; FeatureEngineer.net_lines r;
      FeatureEngineer.code_stability r; FeatureEngineer.is_high_churn_commit r;
      FeatureEngineer.bug_commit_rate r; FeatureEngineer.commits_squared r;
      FeatureEngineer.author_concentration r; FeatureEngineer.lines_per_commit r;
      FeatureEngineer.churn_rate r; FeatureEngineer.modification_ratio r;
      FeatureEngineer.churn_per_author r; FeatureEngineer.deletion_rate r;
      FeatureEngineer.commit_density r ] ->
  FeatureEngineer.extractFeatureVector r =
  [ FeatureEngineer.commits r; FeatureEngineer.authors r;
    FeatureEngineer.lines_added r; FeatureEngineer.lines_deleted r;
    FeatureEngineer.churn r; FeatureEngineer.bug_commits r;
    FeatureEngineer.refactor_commits r; FeatureEngineer.feature_commits r;
    FeatureEngineer.lines_per_author r; FeatureEngineer.churn_per_commit r;
    FeatureEngineer.bug_ratio r; FeatureEngineer.days_active r;
    FeatureEngineer.commits_per_day r; FeatureEngineer.degradation_days r;
    FeatureEngineer.net_lines r; FeatureEngineer.code_stability r;
    FeatureEngineer.is_high_churn_commit r; FeatureEngineer.bug_commit_rate r;
    FeatureEngineer.commits_squared r; FeatureEngineer.author_concentration r;
    FeatureEngineer.lines_per_commit r; FeatureEngineer.churn_rate r;
    FeatureEngineer.modification_ratio r; FeatureEngineer.churn_per_author r;
    FeatureEngineer.deletion_rate r; FeatureEngineer.commit_density r ].
Proof.
  intros H. unfold FeatureEngineer.extractFeatureVector.
  repeat match goal with
         | H : Forall _ (_ :: _) |- _ =>
             let v := fresh "v" in let E := fresh "E" in let T := fresh "T" in
             let H' := fresh "H" in
             apply Forall_cons_iff in H; destruct H as [(v & E & T) H'];
             rewrite E, (orZero_truthy v T)
         end.
  reflexivity.
Qed.

End FeatureVector.

Lemma truthy_exact_nonzero (z : Z) : z <> 0 -> truthy (XR (IZR z)) = true.
Proof.
  intros Hz. cbn. destruct (Req_dec_T (IZR z) 0) as [E | _]; [ | reflexivity ].
  exfalso. apply Hz. now apply eq_IZR_R0.
Qed.

(** C8: on a record whose 26 feature fields are set to 1, 2, ..., 26 in the
    order commits, authors, ..., commit_density, extractFeatureVector returns
    exactly the list 1, 2, ..., 26; in binary64 and in exact arithmetic. *)
Theorem extractFeatureVector_oneTo26 :
  FeatureEngineer.extractFeatureVector (Samples.oneTo26 (num := float))
  = Samples.oneTo26Vector
  /\ FeatureEngineer.extractFeatureVector (Samples.oneTo26 (num := xreal))
     = Samples.oneTo26Vector.
Proof.
  split.
  - vm_compute. reflexivity.
  - rewrite extractFeatureVector_order.
    + reflexivity.
    + repeat constructor; eexists; (split; [ reflexivity | ]);
        apply truthy_exact_nonzero; discriminate.
Qed.

(* ================================================================== *)
(** * Properties of the scorer: loading and the usage error *)
(* ================================================================== *)

Lemma noThrow_bind {A B : Type} (r : result A) (f : A -> result B) :
  noThrow r -> (forall a, noThrow (f a)) -> noThrow (x <- r ;; f x).
Proof.
  intros Hr Hf e. destruct r as [a | e' | ]; cbn.
  - apply Hf.
  - destruct (Hr e' eq_refl).
  - discriminate.
Qed.

Lemma noThrow_mapM {A B : Type} (f : A -> result B) (xs : list A) :
  (forall x, noThrow (f x)) -> noThrow (mapM f xs).
Proof.
  intros Hf. induction xs as [ | x xs IH]; cbn.
  - intros e; discriminate.
  - apply noThrow_bind; [ apply Hf | intros y ].
    apply noThrow_bind; [ exact IH | intros ys e; discriminate ].
Qed.

Section Loading.
Context {num : Type} {N : JsNumber num} {M : JsMath num}.

Import XGBoostPredictor.

Lemma predictTree_from_noThrow fuel (tree : XGBoostTree num) features nodeId :
  noThrow (predictTree_from fuel tree features nodeId).
Proof.
  revert nodeId. induction fuel as [ | fuel IH]; intros nodeId e; cbn.
  - discriminate.
  - destruct (predictTree_step tree features nodeId); [ discriminate | apply IH ].
Qed.

Lemma addTrees_noThrow fuel (ts : list (XGBoostTree num)) features score :
  noThrow (addTrees fuel ts features score).
Proof.
  revert score. induction ts as [ | t ts IH]; intros score; cbn.
  - intros e; discriminate.
  - apply noThrow_bind; [ apply predictTree_from_noThrow | intros w; apply IH ].
Qed.

Lemma predictSingle_loaded_noThrow fuel (m : XGBoostModel num) features :
  noThrow (predictSingle fuel {| model := Some m |} features).
Proof.
  unfold predictSingle; cbn.
  destruct (List.length _ =? 0)%nat.
  - intros e; discriminate.
  - apply noThrow_bind; [ apply addTrees_noThrow | intros s e; discriminate ].
Qed.

Lemma predict_loaded_noThrow fuel (m : XGBoostModel num) commitData :
  noThrow (predict fuel {| model := Some m |} commitData).
Proof.
  unfold predict; cbn.
  apply noThrow_bind.
  - apply noThrow_mapM. intros f. apply predictSingle_loaded_noThrow.
  - intros raw e; discriminate.
Qed.

Lemma loadModel_loaded (XGBOOST_MODEL : XGBoostModel num) this :
  exists m, loadModel XGBOOST_MODEL this = {| model := Some m |}.
Proof. unfold loadModel. eexists. reflexivity. Qed.

(** Once a model is stored, no sequence of calls removes it, and no
    [predict] of the sequence throws. *)
Lemma runCalls_loaded (XGBOOST_MODEL : XGBoostModel num) fuel cs :
  forall m,
    (exists m', fst (runCalls XGBOOST_MODEL fuel {| model := Some m |} cs)
                = {| model := Some m' |})
    /\ Forall (fun r => forall res, r = Some res -> noThrow res)
              (snd (runCalls XGBOOST_MODEL fuel {| model := Some m |} cs)).
Proof.
  induction cs as [ | c cs IH]; intros m.
  - cbn. split; [ now exists m | constructor ].
  - cbn [runCalls]. destruct c as [ | commitData]; cbn [runCall].
    + destruct (loadModel_loaded XGBOOST_MODEL {| model := Some m |}) as [m1 E].
      rewrite E. destruct (IH m1) as [IH1 IH2].
      destruct (runCalls _ _ _ cs) as [this'' rs]. cbn in *.
      split; [ exact IH1 | constructor; [ discriminate | exact IH2 ] ].
    + destruct (IH m) as [IH1 IH2].
      destruct (runCalls _ _ _ cs) as [this'' rs]. cbn in *.
      split; [ exact IH1 | constructor; [ | exact IH2 ] ].
      intros res [= <-]. apply predict_loaded_noThrow.
Qed.

(** C7: [predict] on a predictor whose model is not loaded throws the error
    with the fixed message, whatever the batch, and leaves the predictor
    unloaded (so it neither predicts nor loads a model); after one
    [loadModel], no later [predict] throws this error, whatever calls are
    made in between. *)
Theorem predict_usage_error (XGBOOST_MODEL : XGBoostModel num) (fuel : nat) :
  (forall commitData,
      predict fuel new commitData = Throw usageError
      /\ runCall XGBOOST_MODEL fuel new (CallPredict commitData)
         = (new, Some (Throw usageError)))
  /\ (forall this cs,
         Forall (fun r => r <> Some (Throw usageError))
                (snd (runCalls XGBOOST_MODEL fuel
                               (loadModel XGBOOST_MODEL this) cs))).
Proof.
  split.
  - intros commitData. split; reflexivity.
  - intros this cs.
    destruct (loadModel_loaded XGBOOST_MODEL this) as [m ->].
    destruct (runCalls_loaded XGBOOST_MODEL fuel cs m) as [_ H].
    eapply Forall_impl; [ | exact H ].
    intros r Hr E. subst r. exact (Hr _ eq_refl usageError eq_refl).
Qed.

End Loading.

(* ================================================================== *)
(** * Properties of the scorer: an ensemble with no tree *)
(* ================================================================== *)

Lemma test_exec (r : Js.regex) (s : string) :
  Js.test r s = false <-> Js.exec r s = None.
Proof.
  unfold Js.test, Js.exec. destruct (Js.search r 0 s); cbn; split; congruence.
Qed.

Section ZeroTrees.
Context {num : Type} {N : JsNumber num} {M : JsMath num}.

Import XGBoostPredictor.

(** C1, as the code has it: when the ensemble of the loaded model has no tree
    (the list is missing or empty), the raw score returned for any feature
    vector is the base score itself, with no logistic function applied; the
    base score is 0.5 when the base-score string is absent or holds no
    bracketed run of the characters [-0-9.eE], and otherwise what parseFloat
    reads from the first such run. *)
Theorem predictSingle_zero_trees (fuel : nat) (m : XGBoostModel num)
  (features : list (option num)) :
  trees m = None \/ trees m = Some [] ->
  predictSingle fuel {| model := Some m |} features = Ok (baseScore m)
  /\ (base_score m = None -> baseScore m = lit 5 (-1))
  /\ (forall s, base_score m = Some s ->
                Js.test baseScorePattern s = false -> baseScore m = lit 5 (-1))
  /\ (forall s groups text,
         base_score m = Some s ->
         Js.exec baseScorePattern s = Some groups ->
         Js.getCap 1 groups = Some text ->
         baseScore m = parseFloat text).
Proof.
  intros Htrees. repeat split.
  - unfold predictSingle; cbn. now destruct Htrees as [-> | ->].
  - intros E. unfold baseScore. now rewrite E.
  - intros s E Hs. unfold baseScore. rewrite E.
    apply test_exec in Hs. rewrite Hs.
    now destruct (String.length s =? 0)%nat.
  - intros s groups text E Hg Ht. unfold baseScore. rewrite E, Hg, Ht.
    destruct s as [ | c s']; [ discriminate Hg | reflexivity ].
Qed.

End ZeroTrees.

Lemma predictSingle_zero_trees_witness :
  XGBoostPredictor.predictSingle 3
    {| XGBoostPredictor.model := Some (Samples.noTrees (Some "[-1.201454E-2]")) |}
    [Some (XR 30)]
  = Ok (XGBoostPredictor.baseScore
          (Samples.noTrees (num := xreal) (Some "[-1.201454E-2]"))).
Proof.
  apply (predictSingle_zero_trees 3
           (Samples.noTrees (num := xreal) (Some "[-1.201454E-2]"))
           [Some (XR 30)]).
  right. reflexivity.
Defined.

Lemma exact_sigmoid (x : R) :
  XGBoostPredictor.sigmoid (XR x) = XR (1 / (1 + Rtrigo_def.exp (- x))).
Proof.
  unfold XGBoostPredictor.sigmoid. cbn.
  destruct (Req_dec_T _ 0) as [E | _].
  - pose proof (exp_pos (- x)). lra.
  - reflexivity.
Qed.

Lemma exact_sigmoid_not_fixed_at_half :
  XGBoostPredictor.sigmoid (XR (5 / 10)) <> XR (5 / 10).
Proof.
  rewrite exact_sigmoid. intros [= E].
  assert (Hpos : (0 < 1 + Rtrigo_def.exp (- (5 / 10)))%R).
  { pose proof (exp_pos (- (5 / 10))). lra. }
  assert (E1 : Rtrigo_def.exp (- (5 / 10)) = 1%R).
  { apply (Rmult_eq_compat_r (1 + Rtrigo_def.exp (- (5 / 10)))%R) in E.
    unfold Rdiv in E. rewrite Rmult_assoc, Rinv_l in E; lra. }
  rewrite <- exp_0 in E1. apply exp_inv in E1. lra.
Qed.

(** C1, as the specification states it, fails: with the default base score
    and no tree the scorer returns 0.5, which is not the logistic function
    of 0.5; and a base-score string whose brackets hold no number gives NaN,
    not 0.5. *)
Lemma zero_trees_not_sigmoid :
  XGBoostPredictor.baseScore (Samples.noTrees (num := xreal) None) = XR (5 / 10)
  /\ XGBoostPredictor.predictSingle 0
       {| XGBoostPredictor.model := Some (Samples.noTrees None) |} []
     = Ok (XR (5 / 10))
  /\ XGBoostPredictor.predictSingle 0
       {| XGBoostPredictor.model := Some (Samples.noTrees None) |} []
     <> Ok (XGBoostPredictor.sigmoid
              (XGBoostPredictor.baseScore (Samples.noTrees None)))
  /\ XGBoostPredictor.baseScore (Samples.noTrees (num := xreal) (Some "[-]"))
     = XNaN.
Proof.
  assert (B : XGBoostPredictor.baseScore (Samples.noTrees (num := xreal) None)
              = XR (5 / 10)).
  { cbv [XGBoostPredictor.baseScore Samples.noTrees XGBoostPredictor.base_score
         lit ofDecimal Exact.number Exact.ofDecimal Js.exponent10 Js.mantissa].
    cbn. reflexivity. }
  split; [ | split; [ | split ] ].
  - exact B.
  - unfold XGBoostPredictor.predictSingle; cbn -[XGBoostPredictor.baseScore].
    now rewrite B.
  - unfold XGBoostPredictor.predictSingle; cbn -[XGBoostPredictor.baseScore XGBoostPredictor.sigmoid].
    rewrite B. intros [= E]. symmetry in E.
    exact (exact_sigmoid_not_fixed_at_half E).
  - vm_compute. reflexivity.
Qed.

(* ================================================================== *)
(** * Properties of the scorer: calibration of a constant batch *)
(* ================================================================== *)

Section ExactCalibration.

Import XGBoostPredictor.

Lemma exact_lit0 (m : Z) : lit m 0 = XR (IZR m).
Proof.
  unfold lit; cbn. unfold Exact.ofDecimal; cbn. now rewrite Z.mul_1_r.
Qed.

Lemma exact_fold_add (f : xreal -> xreal) (c : R) (xs : list xreal) :
  (forall x, In x xs -> f x = XR c) ->
  forall a, fold_left (fun s p => add s (f p)) xs (XR a)
            = XR (a + INR (List.length xs) * c).
Proof.
  induction xs as [ | x xs IH]; intros Hf a.
  - cbn. f_equal. lra.
  - cbn [fold_left]. rewrite (Hf x (or_introl eq_refl)). cbn [add Exact.number Exact.lift2].
    rewrite IH by (intros y Hy; apply Hf; now right).
    f_equal. change (List.length (x :: xs)) with (S (List.length xs)).
    rewrite S_INR. lra.
Qed.

Lemma exact_fold_nan (f : xreal -> xreal) (xs : list xreal) :
  fold_left (fun s p => add s (f p)) xs XNaN = XNaN.
Proof. induction xs as [ | x xs IH]; cbn; [ reflexivity | exact IH ]. Qed.

Lemma exact_sum_const (x : R) (xs : list xreal) :
  Forall (fun p => p = XR x) xs ->
  sum xs = XR (INR (List.length xs) * x).
Proof.
  intros H. unfold sum. rewrite exact_lit0.
  change (fold_left add xs (XR 0))
    with (fold_left (fun s p => add s ((fun q => q) p)) xs (XR 0)).
  rewrite (exact_fold_add (fun q => q) x).
  - f_equal. lra.
  - intros y Hy. rewrite Forall_forall in H. now apply H.
Qed.

Lemma exact_lengthNum (A : Type) (xs : list A) :
  lengthNum xs = XR (INR (List.length xs)).
Proof. unfold lengthNum. rewrite exact_lit0. now rewrite INR_IZR_INZ. Qed.

Lemma exact_fold_to_nan (f : xreal -> xreal) (xs : list xreal) (a : xreal) :
  xs <> [] -> (forall x, In x xs -> f x = XNaN) ->
  fold_left (fun s p => add s (f p)) xs a = XNaN.
Proof.
  intros Hne Hf. destruct xs as [ | x xs]; [ congruence | ].
  cbn [fold_left]. rewrite (Hf x (or_introl eq_refl)).
  replace (add a XNaN) with XNaN by (destruct a; reflexivity).
  apply exact_fold_nan.
Qed.

(** In exact arithmetic a non-empty batch of equal scores has standard
    deviation zero and is sent to the reference mean. *)
Lemma exact_calibrate_constant (p : xreal) (predictions : list xreal) :
  predictions <> [] ->
  Forall (fun q => q = p) predictions ->
  calibratePredictions predictions = map (fun _ => TRAIN_MEAN) predictions.
Proof.
  intros Hne Hall. unfold calibratePredictions.
  assert (Hlen : INR (List.length predictions) <> 0%R).
  { destruct predictions; [ congruence | ]. apply not_0_INR. discriminate. }
  rewrite Forall_forall in Hall.
  enough (Hstd : gtb (Math_sqrt
            (div (fold_left
                    (fun acc pred =>
                       add acc (Math_pow2
                                  (sub pred (div (sum predictions)
                                                 (lengthNum predictions)))))
                    predictions (lit 0 0))
                 (lengthNum predictions)))
            (lit 0 0) = false) by now rewrite Hstd.
  destruct p as [ | x].
  - (* every score is NaN *)
    rewrite exact_fold_to_nan; [ reflexivity | exact Hne | ].
    intros q Hq. rewrite (Hall q Hq). reflexivity.
  - assert (Hmean : div (sum predictions) (lengthNum predictions) = XR x).
    { rewrite (exact_sum_const x), exact_lengthNum;
        [ | now apply Forall_forall ].
      cbn. destruct (Req_dec_T _ 0) as [E | _]; [ contradiction | ].
      f_equal. now field. }
    rewrite Hmean, exact_lit0.
    rewrite (exact_fold_add _ 0).
    + rewrite exact_lengthNum. cbn.
      destruct (Req_dec_T _ 0) as [E | _]; [ contradiction | ].
      replace ((0 + INR (List.length predictions) * 0)
               / INR (List.length predictions))%R with 0%R by now field.
      unfold Exact.sqrt.
      destruct (Rlt_dec 0 0) as [L | _]; [ lra | ].
      rewrite sqrt_0. destruct (Rlt_dec 0 0) as [L | _]; [ lra | reflexivity ].
    + intros q Hq. rewrite (Hall q Hq). cbn. f_equal. ring.
Qed.

End ExactCalibration.

(** The double nearest to 0.1, three times. *)
Lemma tenths_equal :
  Forall (fun q : float => q = lit 1 (-1)) [lit 1 (-1); lit 1 (-1); lit 1 (-1)].
Proof. repeat constructor. Qed.

(** C4 at the batch of three scores all equal to 0.1, in binary64: the mean
    of the batch is computed as 0.10000000000000002, so the standard
    deviation is not zero and every score is calibrated to -0.093, which is
    not the reference mean -0.011.  The batch is one [predict] builds: it is
    the raw scores of any three files under a model with no tree and base
    score 0.1. *)
Theorem calibratePredictions_constant_batch_binary64 :
  div (sum [lit 1 (-1); lit 1 (-1); lit 1 (-1)])
      (lengthNum [lit 1 (-1); lit 1 (-1); lit 1 (-1)])
  = (0.10000000000000002)%float
  /\ XGBoostPredictor.calibratePredictions
       [lit 1 (-1); lit 1 (-1); lit 1 (-1)]
     = [lit (-93) (-3); lit (-93) (-3); lit (-93) (-3)] :> list float
  /\ (lit (-93) (-3) : float) <> XGBoostPredictor.TRAIN_MEAN
  /\ (forall (exp : float -> float) (fuel : nat)
             (r1 r2 r3 : FeatureEngineer.CommitData float),
         exists predictions,
           XGBoostPredictor.predict (M := IEEE.mathWith exp) fuel
             {| XGBoostPredictor.model := Some (Samples.noTrees (Some "[0.1]")) |}
             [r1; r2; r3]
           = Ok predictions
           /\ map (@XGBoostPredictor.raw_prediction float) predictions
              = [lit 1 (-1); lit 1 (-1); lit 1 (-1)]
           /\ map (@XGBoostPredictor.degradation_score float) predictions
              = [lit (-93) (-3); lit (-93) (-3); lit (-93) (-3)]).
Proof.
  split; [ | split; [ | split ] ].
  - vm_compute. reflexivity.
  - vm_compute. reflexivity.
  - intros E.
    assert (H : PrimFloat.ltb (lit (-93) (-3)) (lit (-5) (-2))
                = PrimFloat.ltb XGBoostPredictor.TRAIN_MEAN (lit (-5) (-2)))
      by now rewrite E.
    vm_compute in H. discriminate H.
  - intros exp fuel r1 r2 r3. eexists. split; [ reflexivity | ].
    split; vm_compute; reflexivity.
Qed.

(* ================================================================== *)
(** * Properties of the collector: renames *)
(* ================================================================== *)

Section Renames.

Import GitCommitCollector CollectorSpec.

(** The loop that looks for the canonical path is one lookup in the
    mapping: the target found is not looked up again. *)
Lemma canonicalOf_mapGet (pm : list (string * string)) (p : string) :
  canonicalOf pm p = match mapGet p pm with Some q => q | None => p end.
Proof.
  induction pm as [ | [oldP newP] pm IH]; cbn; [ reflexivity | ].
  destruct (String.eqb p oldP); [ reflexivity | exact IH ].
Qed.

(** C2 at a history with the chain a.ts -> b.ts -> c.ts: the commits that
    touch b.ts and c.ts (and the two renames) are counted under c.ts, but
    the commit that touches a.ts is resolved one step only, to b.ts.  It is
    reported under b.ts when files need not exist, and dropped when only
    existing files are kept and b.ts is gone; c.ts has 4 commits and 7
    added lines in both cases, where the specification asks for 5 and 14. *)
Theorem rename_chain_resolved_one_hop :
  canonicalOf [("b.ts", "c.ts"); ("a.ts", "b.ts")] "a.ts" = "b.ts"
  /\ (forall existsSync now,
         exists out,
           fetchCommitData "repo" false existsSync now Samples.renameChainLog
           = Ok out
           /\ map summary out = [("c.ts", 4, 7, 4); ("b.ts", 1, 7, 0)])
  /\ (forall now,
         exists out,
           fetchCommitData "repo" true (fun p => String.eqb p "c.ts") now
                           Samples.renameChainLog
           = Ok out
           /\ map summary out = [("c.ts", 4, 7, 4)]).
Proof.
  split; [ reflexivity | split ].
  - intros existsSync now. eexists. split; vm_compute; reflexivity.
  - intros now. eexists. split; vm_compute; reflexivity.
Qed.

End Renames.

(* ================================================================== *)
(** * Properties of the collector: commit dates *)
(* ================================================================== *)

Section Dates.

Import GitCommitCollector CollectorSpec.

Lemma mapGet_In {V : Type} (k : string) (m : list (string * V)) (v : V) :
  mapGet k m = Some v -> exists k', In (k', v) m.
Proof.
  induction m as [ | [k' v'] m IH]; cbn; [ discriminate | ].
  destruct (String.eqb k k').
  - intros [= ->]. exists k'. now left.
  - intros H. destruct (IH H) as [k'' Hin]. exists k''. now right.
Qed.

Lemma mapGet_mapSet_same {V : Type} (k : string) (v : V) (m : list (string * V)) :
  mapGet k (mapSet k v m) = Some v.
Proof.
  induction m as [ | [k' v'] m IH]; cbn.
  - now rewrite String.eqb_refl.
  - destruct (String.eqb k k') eqn:E; cbn; rewrite E; [ reflexivity | exact IH ].
Qed.

Lemma mapGet_mapSet_other {V : Type} (k q : string) (v : V)
  (m : list (string * V)) :
  q <> k -> mapGet q (mapSet k v m) = mapGet q m.
Proof.
  intros Hne. induction m as [ | [k' v'] m IH]; cbn.
  - apply String.eqb_neq in Hne. now rewrite Hne.
  - destruct (String.eqb k k') eqn:E; cbn.
    + apply String.eqb_eq in E. subst k'.
      apply String.eqb_neq in Hne. now rewrite Hne.
    + now rewrite IH.
Qed.

Lemma mapSet_Forall {V : Type} (P : string * V -> Prop) (k : string) (v : V)
  (m : list (string * V)) :
  Forall P m -> (forall k', P (k', v)) -> Forall P (mapSet k v m).
Proof.
  intros Hm Hv. induction Hm as [ | [k' v'] m Hx Hm IH]; cbn.
  - constructor; [ apply Hv | constructor ].
  - destruct (String.eqb k k'); constructor; auto.
Qed.

Lemma date_lt_spec (a b : Z) : date_lt (Some a) (Some b) = (a <? b).
Proof. reflexivity. Qed.

(** Folding a date into an ordered entry keeps it ordered, whether the date
    is older, newer, in between or invalid. *)
Lemma fold_date_ordered (s : FileStats) (d : Date) :
  ordered s ->
  match (if date_lt d (first_commit s) then d else first_commit s),
        (if date_gt d (last_commit s) then d else last_commit s) with
  | Some f, Some l => f <= l
  | _, _ => False
  end.
Proof.
  unfold ordered, date_gt.
  destruct (first_commit s) as [f | ], (last_commit s) as [l | ]; try tauto.
  intros Hfl. destruct d as [t | ]; cbn; [ | exact Hfl ].
  destruct (Z.ltb_spec t f), (Z.ltb_spec l t); lia.
Qed.

Lemma updateOrCreateFileStats_allOrdered fileStats filepath added removed
  author (d : Date) b f r :
  allOrdered fileStats ->
  (mapGet filepath fileStats = None -> validDate d) ->
  allOrdered (updateOrCreateFileStats filepath fileStats added removed
                                      author d b f r).
Proof.
  intros Hall Hd. unfold updateOrCreateFileStats.
  destruct (mapGet filepath fileStats) as [s | ] eqn:E.
  - apply mapSet_Forall; [ exact Hall | intros k'; cbn ].
    apply fold_date_ordered.
    destruct (mapGet_In _ _ _ E) as [k Hin].
    unfold allOrdered in Hall. rewrite Forall_forall in Hall.
    exact (Hall _ Hin).
  - apply mapSet_Forall; [ exact Hall | intros k'; cbn ].
    destruct (Hd eq_refl) as [t ->]. unfold ordered; cbn. lia.
Qed.

Lemma processFileStat_datesOk onlyExistingFiles existsSync st line :
  datesOk st -> datesOk (processFileStat onlyExistingFiles existsSync st line).
Proof.
  intros [Hd Hall]. unfold processFileStat.
  destruct (Js.split line _) as [ | p0 [ | p1 [ | raw rest']]];
    try (split; assumption).
  destruct (parseRenameInfo raw) as [info | ]; [ | split; assumption ].
  cbv zeta.
  destruct (negb (isSourceFile _)); [ split; assumption | ].
  destruct (onlyExistingFiles && _); [ split; assumption | ].
  split; [ exact Hd | cbn ].
  apply updateOrCreateFileStats_allOrdered; [ exact Hall | intros _; exact Hd ].
Qed.

Lemma processLine_datesOk onlyExistingFiles existsSync st line st' :
  datesOk st -> timestampOk line = true ->
  processLine onlyExistingFiles existsSync st line = Ok st' ->
  datesOk st'.
Proof.
  intros Hst Hts. unfold processLine, timestampOk in *.
  destruct (Js.includes line "|").
  - unfold processHeader.
    destruct (Js.split line "|") as [ | h [ | a [ | ts [ | msg rest']]]];
      try discriminate.
    intros [= <-]. destruct Hst as [_ Hall]. split; [ cbn | exact Hall ].
    destruct (newDate _) as [t | ]; [ now exists t | discriminate ].
  - destruct (Js.test numstatPattern line); intros [= <-];
      [ now apply processFileStat_datesOk | exact Hst ].
Qed.

Lemma processLines_datesOk onlyExistingFiles existsSync lines :
  forall st st',
    datesOk st -> forallb timestampOk lines = true ->
    processLines onlyExistingFiles existsSync st lines = Ok st' ->
    datesOk st'.
Proof.
  induction lines as [ | line lines IH]; intros st st' Hst Hts; cbn.
  - now intros [= <-].
  - cbn in Hts. apply andb_true_iff in Hts as [Hl Hls].
    destruct (processLine onlyExistingFiles existsSync st line) as [st1 | e | ] eqn:E;
      cbn; try discriminate.
    apply IH; [ | exact Hls ].
    exact (processLine_datesOk _ _ _ _ _ Hst Hl E).
Qed.

Lemma initialState_datesOk now : datesOk (initialState now).
Proof. split; [ now exists now | constructor ]. Qed.

(** An entry whose dates are invalid keeps them whatever is folded into it:
    no comparison with an invalid date is true. *)
Lemma fold_date_invalid (d : Date) :
  (if date_lt d None then d else None) = None
  /\ (if date_gt d None then d else None) = None.
Proof. unfold date_gt. now destruct d. Qed.

(** C9: first_commit <= last_commit does not hold in every entry of the map
    at all times.  On the log of a commit that adds lib/a|b|c|d.ts and edits
    src/app.ts the line of the first file is read as a commit header, the
    current date becomes an invalid date, and the entry of src/app.ts is
    created with first_commit and last_commit both invalid, so that neither
    is below or equal to the other.  In general a new entry takes the current
    date for both fields and is ordered exactly when that date is valid;
    folding a further commit into an entry keeps it ordered if it was,
    whatever the date folded is, and keeps an invalid first or last date
    invalid; the other entries are not touched; and the order holds in every
    entry at the end of the loop over a log in which the third field of every
    line with a bar is a timestamp. *)
Theorem first_commit_invalid_date :
  (forall existsSync now,
      exists st,
        processLines false existsSync (initialState now)
                     (logLines Samples.barNameLog) = Ok st
        /\ datesOf (fileStats st) = [("src/app.ts", None, None)]
        /\ ~ allOrdered (fileStats st))
  /\ (forall fileStats filepath added removed author d b f r,
         mapGet filepath fileStats = None ->
         exists s,
           mapGet filepath
             (updateOrCreateFileStats filepath fileStats added removed author
                                      d b f r) = Some s
           /\ first_commit s = d /\ last_commit s = d
           /\ (ordered s <-> validDate d))
  /\ (forall fileStats filepath added removed author d b f r s,
         mapGet filepath fileStats = Some s ->
         exists s',
           mapGet filepath
             (updateOrCreateFileStats filepath fileStats added removed author
                                      d b f r) = Some s'
           /\ (ordered s -> ordered s')
           /\ (first_commit s = None -> first_commit s' = None)
           /\ (last_commit s = None -> last_commit s' = None))
  /\ (forall fileStats filepath added removed author d b f r q,
         q <> filepath ->
         mapGet q (updateOrCreateFileStats filepath fileStats added removed
                                           author d b f r)
         = mapGet q fileStats)
  /\ (forall fileStats filepath added removed author d b f r,
         allOrdered fileStats ->
         (mapGet filepath fileStats = None -> validDate d) ->
         allOrdered (updateOrCreateFileStats filepath fileStats added removed
                                             author d b f r))
  /\ (forall onlyExistingFiles existsSync now lines st,
         forallb timestampOk lines = true ->
         processLines onlyExistingFiles existsSync (initialState now) lines
         = Ok st ->
         allOrdered (fileStats st)).
Proof.
  split; [ | split; [ | split; [ | split; [ | split ] ] ] ].
  - intros existsSync now. eexists. split; [ vm_compute; reflexivity | ].
    split; [ reflexivity | ].
    intros Hall. apply Forall_inv in Hall. exact Hall.
  - intros fileStats filepath added removed author d b f r E.
    unfold updateOrCreateFileStats. rewrite E, mapGet_mapSet_same.
    eexists. split; [ reflexivity | ]. cbn. unfold ordered, validDate; cbn.
    repeat split.
    + destruct d as [t | ]; [ intros _; now exists t | tauto ].
    + intros [t ->]. lia.
  - intros fileStats filepath added removed author d b f r s E.
    unfold updateOrCreateFileStats. rewrite E, mapGet_mapSet_same.
    eexists. split; [ reflexivity | ].
    unfold ordered; cbn. split; [ | split ].
    + now apply fold_date_ordered.
    + intros ->. apply fold_date_invalid.
    + intros ->. apply fold_date_invalid.
  - intros fileStats filepath added removed author d b f r q Hq.
    unfold updateOrCreateFileStats.
    destruct (mapGet filepath fileStats); now apply mapGet_mapSet_other.
  - intros fileStats filepath added removed author d b f r Hall Hd.
    now apply updateOrCreateFileStats_allOrdered.
  - intros onlyExistingFiles existsSync now lines st Hts Hrun.
    exact (proj2 (processLines_datesOk _ _ _ _ _ (initialState_datesOk now)
                                       Hts Hrun)).
Qed.

End Dates.

(* ================================================================== *)
(** * Properties of the collector: days active and commits per day *)
(* ================================================================== *)

Section DaysActive.

Import GitCommitCollector CollectorSpec.

(** [ceilDiv x d] is the least integer not below [x / d]. *)
Lemma ceilDiv_spec (x d k : Z) : 0 < d -> ceilDiv x d <= k <-> x <= k * d.
Proof.
  intros Hd. unfold ceilDiv. split; intros H.
  - assert (H1 : - k <= - x / d) by lia.
    assert (H2 : - k * d <= - x / d * d) by nia.
    pose proof (Z.mul_div_le (- x) d Hd). lia.
  - assert (H1 : - k <= - x / d); [ | lia ].
    apply Z.div_le_lower_bound; lia.
Qed.

Lemma MS_PER_DAY_value : MS_PER_DAY = 86400000.
Proof. reflexivity. Qed.

Lemma toCommitData_daysActive repoName filepath (stats : FileStats) :
  daysActiveSpec stats (toCommitData repoName filepath stats).
Proof.
  unfold daysActiveSpec, toCommitData, daysActiveOf. cbn.
  repeat (split; [ reflexivity | ]).
  destruct (first_commit stats) as [f | ], (last_commit stats) as [l | ];
    cbn; try (split; reflexivity).
  exists (Z.max (ceilDiv (l - f) MS_PER_DAY) 1).
  pose proof (ceilDiv_spec (l - f) MS_PER_DAY) as Hc.
  rewrite MS_PER_DAY_value in *.
  split; [ reflexivity | ]. split; [ lia | ]. split; [ | split; [ | split ] ].
  - pose proof (proj1 (Hc (ceilDiv (l - f) 86400000) ltac:(lia))
                      ltac:(lia)).
    lia.
  - intros k Hk Hle. apply (Hc k ltac:(lia)) in Hle. lia.
  - intros ->. replace (l - l) with 0 by lia. reflexivity.
  - reflexivity.
Qed.

Lemma Forall2_map_r {A B : Type} (R : A -> B -> Prop) (g : A -> B)
  (l : list A) :
  (forall x, R x (g x)) -> Forall2 R l (map g l).
Proof. intros H. induction l; cbn; constructor; auto. Qed.

(** C6: days_active is not at least 1 in every record the collector emits.
    On the log of a commit that adds lib/a|b|c|d.ts and edits src/app.ts the
    line of the first file is read as a commit header whose timestamp is
    the text c, the current date becomes an invalid date, and the record of
    src/app.ts has created_at and last_modified invalid and days_active and
    commits_per_day NaN; on the log of two commits of src/app.ts 36 hours
    apart the record has days_active 2 and commits_per_day 2 / 2.  In
    general the record of an entry carries the
    dates and the commit count of the entry; when both dates are valid,
    days_active is the least integer d >= 1 with last - first <= d * 86400000,
    that is the ceiling of the difference in days raised to 1 (and it is 1
    when the dates coincide), and commits_per_day is the commit count divided
    by it; when a date is invalid both are NaN.  Over a log in which the
    third field of every line with a bar is a timestamp, every record is of
    the first kind. *)
Theorem days_active_not_a_number :
  (forall existsSync now,
      exists out,
        fetchCommitData "repo" false existsSync now Samples.barNameLog = Ok out
        /\ map activity out = [("src/app.ts", 1, None, None, None, None)])
  /\ (forall existsSync now,
         exists out,
           fetchCommitData "repo" false existsSync now Samples.twoDayLog
           = Ok out
           /\ map activity out
              = [("src/app.ts", 2, Some 1700000000000, Some 1700129600000,
                  Some 2, Some (ratio 2 2))])
  /\ (forall repoName onlyExistingFiles existsSync now logOutput out,
         fetchCommitData repoName onlyExistingFiles existsSync now logOutput
         = Ok out ->
         exists st,
           processLines onlyExistingFiles existsSync (initialState now)
                        (logLines logOutput) = Ok st
           /\ Forall2 (fun entry r =>
                         module r = fst entry /\ daysActiveSpec (snd entry) r)
                      (fileStats st) out)
  /\ (forall repoName onlyExistingFiles existsSync now logOutput out,
         forallb timestampOk (logLines logOutput) = true ->
         fetchCommitData repoName onlyExistingFiles existsSync now logOutput
         = Ok out ->
         Forall (fun r =>
                   exists f l d,
                     created_at r = Some f /\ last_modified r = Some l
                     /\ f <= l
                     /\ days_active r = Some d
                     /\ 1 <= d
                     /\ l - f <= d * 86400000
                     /\ (forall k, 1 <= k -> l - f <= k * 86400000 -> d <= k)
                     /\ (f = l -> d = 1)
                     /\ commits_per_day r = Some (ratio (cd_commits r) d))
                out).
Proof.
  split; [ | split; [ | split ] ].
  - intros existsSync now. eexists.
    split; [ vm_compute; reflexivity | reflexivity ].
  - intros existsSync now. eexists.
    split; [ vm_compute; reflexivity | reflexivity ].
  - intros repoName onlyExistingFiles existsSync now logOutput out Hrun.
    unfold fetchCommitData in Hrun.
    destruct (processLines _ _ _ _) as [st | e | ] eqn:E; cbn in Hrun;
      try discriminate.
    injection Hrun as <-. exists st. split; [ reflexivity | ].
    apply Forall2_map_r. intros [filepath stats]. cbn.
    split; [ reflexivity | apply toCommitData_daysActive ].
  - intros repoName onlyExistingFiles existsSync now logOutput out Hts Hrun.
    unfold fetchCommitData in Hrun.
    destruct (processLines _ _ _ _) as [st | e | ] eqn:E; cbn in Hrun;
      try discriminate.
    injection Hrun as <-.
    destruct (processLines_datesOk _ _ _ _ _ (initialState_datesOk now) Hts E)
      as [_ Hall].
    unfold allOrdered in Hall. apply Forall_map.
    eapply Forall_impl; [ | exact Hall ].
    intros [filepath stats] Hs. cbn in Hs.
    destruct (toCommitData_daysActive repoName filepath stats)
      as (Hf & Hl & Hc & Hd).
    unfold ordered in Hs.
    destruct (first_commit stats) as [f | ]; [ | contradiction ].
    destruct (last_commit stats) as [l | ]; [ | contradiction ].
    destruct Hd as (d & H1 & H2 & H3 & H4 & H5 & H6).
    exists f, l, d. rewrite Hc. tauto.
Qed.

End DaysActive.

(* ================================================================== *)
(** * Properties of the matcher on the pattern of file stat lines *)
(* ================================================================== *)

Section NumstatPattern.

Import Js GitCommitCollector RegexSpec CollectorSpec.

(** The pattern is anchored: it matches at no position but the first. *)
Lemma numstat_search_later (s : string) :
  forall pos, Js.search numstatPattern (S pos) s = None.
Proof.
  induction s as [ | c s IH]; intros pos; cbn; [ reflexivity | apply IH ].
Qed.

Lemma rmatch_star_char (p : ascii -> bool) (st : mstate) (k : mstate -> option mstate) :
  rmatch (RStar (RChar p)) st k
  = match rest st with
    | String c s =>
        if p c then
          match rmatch (RStar (RChar p)) (advance st c s) k with
          | Some r => Some r
          | None => k st
          end
        else k st
    | EmptyString => k st
    end.
Proof.
  destruct st as [n r cs]. cbn [rest]. destruct r as [ | c s]; [ reflexivity | ].
  cbn. destruct (p c); [ | reflexivity ].
  rewrite Nat.leb_refl. reflexivity.
Qed.

Lemma star_span (p : ascii -> bool) (k : mstate -> option mstate) :
  (forall st, startsWithClass p (rest st) = true -> k st = None) ->
  forall s n cs,
    rmatch (RStar (RChar p)) {| consumed := n; rest := s; caps := cs |} k
    = k (skip p {| consumed := n; rest := s; caps := cs |}).
Proof.
  intros Hk. induction s as [ | c s IH]; intros n cs.
  - rewrite rmatch_star_char. cbn. unfold skip; cbn. now rewrite Nat.add_0_r.
  - rewrite rmatch_star_char. cbn [rest]. destruct (p c) eqn:Hc.
    + unfold advance; cbn [consumed caps]. rewrite IH.
      assert (E : skip p {| consumed := S n; rest := s; caps := cs |}
                  = skip p {| consumed := n; rest := String c s; caps := cs |}).
      { unfold skip; cbn [rest consumed caps span]. rewrite Hc.
        destruct (span p s) as [a b]. cbn. f_equal. lia. }
      rewrite E. destruct (k _) eqn:Ek; [ reflexivity | ].
      apply Hk. cbn. exact Hc.
    + unfold skip; cbn [rest consumed caps span]. rewrite Hc. cbn.
      now rewrite Nat.add_0_r.
Qed.
Lemma char_then (p : ascii -> bool) (st : mstate) (k : mstate -> option mstate) :
  rmatch (RChar p) st k
  = match rest st with
    | String c s => if p c then k (advance st c s) else None
    | EmptyString => None
    end.
Proof. reflexivity. Qed.

Lemma seq_then (r1 r2 : regex) (st : mstate) (k : mstate -> option mstate) :
  rmatch (RSeq r1 r2) st k = rmatch r1 st (fun st' => rmatch r2 st' k).
Proof. reflexivity. Qed.

(** One or more [p]-characters followed by [k], when [k] fails on input that
    starts with a [p]-character: the whole run is taken. *)
Lemma plus_span (p : ascii -> bool) (k : mstate -> option mstate) :
  (forall st, startsWithClass p (rest st) = true -> k st = None) ->
  forall st,
    rmatch (RPlus (RChar p)) st k
    = if startsWithClass p (rest st) then k (skip p st) else None.
Proof.
  intros Hk [n s cs]. unfold RPlus. rewrite seq_then, char_then.
  cbn [rest]. destruct s as [ | c s]; [ reflexivity | ].
  cbn [startsWithClass]. destruct (p c) eqn:Hc; [ | reflexivity ].
  unfold advance; cbn [consumed caps].
  rewrite (star_span p k Hk). f_equal.
  unfold skip; cbn [rest consumed caps span]. rewrite Hc.
  destruct (span p s) as [a b]. cbn. f_equal. lia.
Qed.

Lemma skip_not_class (p : ascii -> bool) (st : mstate) :
  startsWithClass p (rest (skip p st)) = false.
Proof.
  destruct st as [n s cs]. unfold skip; cbn [rest]. clear n cs.
  induction s as [ | c s IH]; [ reflexivity | ].
  cbn [span]. destruct (p c) eqn:Hc.
  - destruct (span p s) as [a b]. exact IH.
  - cbn. exact Hc.
Qed.

Lemma digit_not_space (c : ascii) : isDigit c = true -> isSpace c = false.
Proof.
  unfold isDigit, isSpace. intros H.
  apply andb_true_iff in H as [H1 H2].
  apply Nat.leb_le in H1, H2.
  apply orb_false_iff. split.
  - apply andb_false_iff. right. apply Nat.leb_gt. lia.
  - apply Nat.eqb_neq. lia.
Qed.

Lemma space_not_digit (c : ascii) : isSpace c = true -> isDigit c = false.
Proof.
  intros H. destruct (isDigit c) eqn:E; [ | reflexivity ].
  apply digit_not_space in E. congruence.
Qed.

Lemma plus_fails (p : ascii -> bool) (st : mstate) (k : mstate -> option mstate) :
  startsWithClass p (rest st) = false -> rmatch (RPlus (RChar p)) st k = None.
Proof.
  intros H. unfold RPlus. rewrite seq_then, char_then.
  destruct (rest st) as [ | c s]; [ reflexivity | ]. cbn in H. now rewrite H.
Qed.

Lemma star_some (p : ascii -> bool) (s : string) :
  forall n cs,
    rmatch (RStar (RChar p)) {| consumed := n; rest := s; caps := cs |} Some
    <> None.
Proof.
  induction s as [ | c s IH]; intros n cs; rewrite rmatch_star_char; cbn [rest].
  - discriminate.
  - destruct (p c); [ | discriminate ].
    destruct (rmatch _ _ _); discriminate.
Qed.

Lemma plus_some (p : ascii -> bool) (st : mstate) :
  match rmatch (RPlus (RChar p)) st Some with
  | Some _ => true
  | None => false
  end = startsWithClass p (rest st).
Proof.
  destruct st as [n s cs]. unfold RPlus. rewrite seq_then, char_then.
  cbn [rest]. destruct s as [ | c s]; [ reflexivity | ].
  cbn [startsWithClass]. destruct (p c); [ | reflexivity ].
  unfold advance; cbn [consumed caps].
  pose proof (star_some p s (S n) cs) as H.
  destruct (rmatch _ _ _); [ reflexivity | contradiction ].
Qed.

Lemma nonEmpty_span (p : ascii -> bool) (s : string) :
  nonEmpty (fst (span p s)) = startsWithClass p s.
Proof.
  destruct s as [ | c s]; [ reflexivity | ].
  cbn. destruct (p c); [ | reflexivity ].
  now destruct (span p s).
Qed.

Lemma starts_disjoint (p q : ascii -> bool) (s : string) :
  (forall c, p c = true -> q c = false) ->
  startsWithClass p s = true -> startsWithClass q s = false.
Proof. intros H. destruct s as [ | c s]; cbn; [ discriminate | apply H ]. Qed.

(** The pattern, run at the start of a line, accepts exactly the lines with
    two leading columns of digits, each followed by white space. *)
Lemma numstat_rmatch (line : string) :
  match rmatch numstatPattern {| consumed := 0; rest := line; caps := [] |} Some with
  | Some _ => true
  | None => false
  end = numstatShape line.
Proof.
  unfold numstatPattern, RCat. rewrite seq_then. cbn [rmatch consumed Nat.eqb].
  set (k3 := fun st : mstate => rmatch (RPlus (RChar isSpace)) st
                                  (fun st' => rmatch REmpty st' Some)).
  set (k2 := fun st : mstate => rmatch (RPlus (RChar isDigit)) st k3).
  set (k1 := fun st : mstate => rmatch (RPlus (RChar isSpace)) st k2).
  assert (H3 : forall st, startsWithClass isDigit (rest st) = true -> k3 st = None).
  { intros st H. apply plus_fails.
    exact (starts_disjoint _ _ _ digit_not_space H). }
  assert (H2 : forall st, startsWithClass isSpace (rest st) = true -> k2 st = None).
  { intros st H. apply plus_fails.
    exact (starts_disjoint _ _ _ space_not_digit H). }
  assert (H1 : forall st, startsWithClass isDigit (rest st) = true -> k1 st = None).
  { intros st H. apply plus_fails.
    exact (starts_disjoint _ _ _ digit_not_space H). }
  rewrite (plus_span isDigit k1 H1). unfold numstatShape.
  set (st0 := {| consumed := 0; rest := line; caps := [] |}).
  change line with (rest st0).
  rewrite (surjective_pairing (span isDigit (rest st0))).
  rewrite nonEmpty_span.
  destruct (startsWithClass isDigit (rest st0)); [ | now repeat destruct (span _ _) ].
  unfold k1 at 1. rewrite (plus_span isSpace k2 H2).
  change (snd (span isDigit (rest st0))) with (rest (skip isDigit st0)).
  set (st1 := skip isDigit st0).
  rewrite (surjective_pairing (span isSpace (rest st1))).
  rewrite nonEmpty_span.
  destruct (startsWithClass isSpace (rest st1)); [ | now repeat destruct (span _ _) ].
  unfold k2 at 1. rewrite (plus_span isDigit k3 H3).
  change (snd (span isSpace (rest st1))) with (rest (skip isSpace st1)).
  set (st2 := skip isSpace st1).
  rewrite (surjective_pairing (span isDigit (rest st2))).
  rewrite nonEmpty_span.
  destruct (startsWithClass isDigit (rest st2)); [ | now repeat destruct (span _ _) ].
  unfold k3.
  change (snd (span isDigit (rest st2))) with (rest (skip isDigit st2)).
  set (st3 := skip isDigit st2).
  rewrite (surjective_pairing (span isSpace (rest st3))).
  rewrite nonEmpty_span. cbn [andb].
  change (fun st' : mstate => rmatch REmpty st' Some) with (@Some mstate).
  apply plus_some.
Qed.

Lemma numstat_test_shape (line : string) :
  Js.test numstatPattern line = numstatShape line.
Proof.
  unfold Js.test. rewrite <- numstat_rmatch.
  destruct line as [ | c s]; cbn [search].
  - destruct (rmatch _ _ _); reflexivity.
  - destruct (rmatch _ _ _); [ reflexivity | ].
    now rewrite numstat_search_later.
Qed.
End NumstatPattern.

(* ================================================================== *)
(** * Properties of the collector: lines that are not file stat lines *)
(* ================================================================== *)

Section SkippedLines.

Import GitCommitCollector CollectorSpec.

(** A line that does not start with a digit is not a file stat line. *)
Lemma numstat_needs_digit (c : ascii) (s : string) :
  Js.isDigit c = false -> Js.test numstatPattern (String c s) = false.
Proof.
  intros Hc. unfold Js.test. cbn -[Js.isDigit]. rewrite Hc.
  now rewrite numstat_search_later.
Qed.

(** The form [git log --numstat] prints for a binary file. *)
Lemma numstat_binary_line (path : string) :
  Js.test numstatPattern (Samples.numstat "-" "-" path) = false.
Proof. now apply numstat_needs_digit. Qed.

Lemma processLine_skipped onlyExistingFiles existsSync st line :
  skipped line = true ->
  processLine onlyExistingFiles existsSync st line = Ok st.
Proof.
  unfold skipped, processLine. intros H.
  apply andb_true_iff in H as [H1 H2].
  apply negb_true_iff in H1, H2. now rewrite H1, H2.
Qed.

Lemma processLines_drop_skipped onlyExistingFiles existsSync lines :
  forall st,
    processLines onlyExistingFiles existsSync st
                 (filter (fun l => negb (skipped l)) lines)
    = processLines onlyExistingFiles existsSync st lines.
Proof.
  induction lines as [ | line lines IH]; intros st; cbn; [ reflexivity | ].
  destruct (skipped line) eqn:E; cbn.
  - rewrite (processLine_skipped _ _ _ _ E). cbn. apply IH.
  - destruct (processLine _ _ st line); cbn; auto.
Qed.

Lemma processLines_no_stat_line onlyExistingFiles existsSync lines :
  forall st st',
    forallb (fun l => negb (Js.test numstatPattern l)) lines = true ->
    processLines onlyExistingFiles existsSync st lines = Ok st' ->
    fileStats st' = fileStats st /\ pathMappings st' = pathMappings st.
Proof.
  induction lines as [ | line lines IH]; intros st st' Hall; cbn.
  - intros [= <-]. now split.
  - cbn [forallb] in Hall. apply andb_true_iff in Hall as [Hl Hls].
    apply negb_true_iff in Hl.
    unfold processLine. rewrite Hl.
    destruct (Js.includes line "|").
    + unfold processHeader.
      destruct (Js.split line "|") as [ | h [ | a [ | ts [ | msg rest']]]];
        cbn; try discriminate.
      intros Hrun. destruct (IH _ _ Hls Hrun) as [H1 H2]. now split.
    + cbn. now apply IH.
Qed.

(** C10: a line whose two leading columns are not both runs of digits is not
    always skipped.  It never matches the pattern of file stat lines, but the
    loop asks first whether the line contains a bar, and then reads it as a
    commit header.  On the log of a commit that adds the binary file
    img/a|evil@x.io|0|fix.png and edits src/app.ts, the record of src/app.ts
    names evil@x.io as its author, 1970-01-01 as its date and one bug fix
    commit, where the log without the line of the binary file gives dev@x.io,
    the date of the commit and no bug fix commit; and with one bar in the
    name of the binary file, the run throws a TypeError.  In general such a
    line is handled as a commit header when it contains a bar and leaves the
    whole state of the loop as it was when it does not; in both cases, when
    the step returns, the FileStats map and the path mappings are as they
    were.  The lines git prints for binary files are of this kind.  The lines
    with no bar that are not file stat lines can be deleted from the log
    without changing the result, and a log with no file stat line yields no
    record at all. *)
Theorem non_numeric_line_read_as_header :
  (forall existsSync now,
      exists out out',
        fetchCommitData "repo" false existsSync now Samples.binaryBarLog
        = Ok out
        /\ fetchCommitData "repo" false existsSync now Samples.binaryLogWithout
           = Ok out'
        /\ map attribution out
           = [("src/app.ts", ["evil@x.io"], Some 0, 1, 0, 0)]
        /\ map attribution out'
           = [("src/app.ts", ["dev@x.io"], Some 1700000000000, 0, 0, 0)])
  /\ (forall existsSync now,
         fetchCommitData "repo" false existsSync now Samples.binaryOneBarLog
         = Throw (TypeError
                    "Cannot read properties of undefined (reading 'toLowerCase')"))
  /\ (forall onlyExistingFiles existsSync st line,
         numstatShape line = false ->
         Js.test numstatPattern line = false
         /\ processLine onlyExistingFiles existsSync st line
            = (if Js.includes line "|" then processHeader st line else Ok st)
         /\ (forall st',
                processLine onlyExistingFiles existsSync st line = Ok st' ->
                fileStats st' = fileStats st
                /\ pathMappings st' = pathMappings st))
  /\ (forall path, numstatShape (Samples.numstat "-" "-" path) = false)
  /\ (forall onlyExistingFiles existsSync lines st0,
         processLines onlyExistingFiles existsSync st0
                      (filter (fun l => negb (skipped l)) lines)
         = processLines onlyExistingFiles existsSync st0 lines)
  /\ (forall repoName onlyExistingFiles existsSync now logOutput out,
         forallb (fun l => negb (numstatShape l)) (logLines logOutput) = true ->
         fetchCommitData repoName onlyExistingFiles existsSync now logOutput
         = Ok out ->
         out = []).
Proof.
  split; [ | split; [ | split; [ | split; [ | split ] ] ] ].
  - intros existsSync now. eexists. eexists.
    split; [ vm_compute; reflexivity | ].
    split; [ vm_compute; reflexivity | ].
    split; reflexivity.
  - intros existsSync now. vm_compute. reflexivity.
  - intros onlyExistingFiles existsSync st line Hshape.
    assert (Hno : Js.test numstatPattern line = false)
      by now rewrite numstat_test_shape.
    split; [ exact Hno | split ].
    + unfold processLine. now rewrite Hno.
    + intros st' Hrun.
      apply (processLines_no_stat_line onlyExistingFiles existsSync [line]
                                       st st').
      * cbn [forallb]. now rewrite Hno.
      * cbn [processLines]. now rewrite Hrun.
  - intros path. rewrite <- numstat_test_shape. apply numstat_binary_line.
  - intros onlyExistingFiles existsSync. apply processLines_drop_skipped.
  - intros repoName onlyExistingFiles existsSync now logOutput out Hall Hrun.
    unfold fetchCommitData in Hrun.
    destruct (processLines _ _ _ _) as [st1 | e | ] eqn:E; cbn in Hrun;
      try discriminate.
    injection Hrun as <-.
    assert (Hall' : forallb (fun l => negb (Js.test numstatPattern l))
                            (logLines logOutput) = true).
    { rewrite <- Hall. clear. induction (logLines logOutput) as [ | l ls IH];
        [ reflexivity | ].
      cbn [forallb]. now rewrite IH, numstat_test_shape. }
    destruct (processLines_no_stat_line _ _ _ _ _ Hall' E) as [H _].
    now rewrite H.
Qed.

End SkippedLines.

(* ================================================================== *)
(** * The order of numbers on the two carriers *)
(* ================================================================== *)

Section ExactOrder.

Lemma exact_ltb_iff (x y : R) : Exact.ltb (XR x) (XR y) = true <-> (x < y)%R.
Proof. cbn. destruct (Rlt_dec x y); split; intros; try lra; congruence. Qed.

Lemma exact_leb_iff (x y : R) : Exact.leb (XR x) (XR y) = true <-> (x <= y)%R.
Proof. cbn. destruct (Rle_dec x y); split; intros; try lra; congruence. Qed.

Lemma exact_laws : JsNumberLaws xreal Exact.number.
Proof.
  constructor.
  - intros [ | x]; [ reflexivity | ].
    cbn. destruct (Rlt_dec x x); [ lra | reflexivity ].
  - intros [ | x] [ | y] [ | z]; cbn; try discriminate.
    destruct (Rlt_dec x y), (Rlt_dec y z), (Rlt_dec x z);
      intros; try reflexivity; try discriminate; lra.
  - intros [ | x] [ | y]; cbn; try discriminate. now split.
  - intros [ | x] [ | y]; cbn; try discriminate. intros _ _.
    destruct (Rle_dec x y), (Rlt_dec y x); try reflexivity; lra.
Qed.

End ExactOrder.

Section FloatOrderLemmas.

Import SpecFloat FloatOrder.

Lemma SFcompare_key (x y : spec_float) :
  isNan x = false -> isNan y = false ->
  exists c, SFcompare x y = Some c
            /\ (c = Lt <-> lexlt (key x) (key y))
            /\ (c = Gt <-> lexlt (key y) (key x)).
Proof.
  intros Hx Hy.
  destruct x as [sx | sx | | sx mx ex], y as [sy | sy | | sy my ey];
    try discriminate; cbn [SFcompare]; try destruct sx; try destruct sy;
    (eexists; split; [ reflexivity | ]); cbn [key lexlt].
  all: try change (PosDef.Pos.compare_cont Eq mx my) with (Pos.compare mx my).
  all: try (destruct (Z.compare_spec ex ey);
            try destruct (Pos.compare_spec mx my)).
  all: cbn [CompOpp].
  all: split; split; intros K; first [ discriminate K | reflexivity | lia ].
Qed.

Lemma SFcompare_nan (x y : spec_float) :
  isNan x = true \/ isNan y = true -> SFcompare x y = None.
Proof.
  destruct x as [sx | sx | | sx mx ex], y as [sy | sy | | sy my ey];
    cbn; intros [H | H]; try discriminate; reflexivity.
Qed.

Lemma is_nan_spec (x : float) : PrimFloat.is_nan x = isNan (Prim2SF x).
Proof.
  unfold PrimFloat.is_nan. rewrite eqb_spec. unfold SFeqb.
  destruct (isNan (Prim2SF x)) eqn:E.
  - now rewrite SFcompare_nan by now left.
  - destruct (SFcompare_key _ _ E E) as (c & -> & H1 & H2).
    destruct c; [ reflexivity | | ]; exfalso.
    + assert (H : lexlt (key (Prim2SF x)) (key (Prim2SF x))) by now apply H1.
      destruct (key (Prim2SF x)) as [[a b] d]. cbn in H. lia.
    + assert (H : lexlt (key (Prim2SF x)) (key (Prim2SF x))) by now apply H2.
      destruct (key (Prim2SF x)) as [[a b] d]. cbn in H. lia.
Qed.

Lemma float_ltb_iff (x y : float) :
  PrimFloat.ltb x y = true <->
  isNan (Prim2SF x) = false /\ isNan (Prim2SF y) = false
  /\ lexlt (key (Prim2SF x)) (key (Prim2SF y)).
Proof.
  rewrite ltb_spec. unfold SFltb.
  destruct (isNan (Prim2SF x)) eqn:Ex.
  - rewrite SFcompare_nan by now left. split; [ discriminate | ].
    intros (H & _); discriminate.
  - destruct (isNan (Prim2SF y)) eqn:Ey.
    + rewrite SFcompare_nan by now right. split; [ discriminate | ].
      intros (_ & H & _); discriminate.
    + destruct (SFcompare_key _ _ Ex Ey) as (c & -> & H1 & _).
      destruct c; split; intros H; try discriminate H; try reflexivity.
      * destruct H as (_ & _ & H). apply H1 in H. discriminate H.
      * repeat split. now apply H1.
      * destruct H as (_ & _ & H). apply H1 in H. discriminate H.
Qed.

Lemma float_leb_iff (x y : float) :
  isNan (Prim2SF x) = false -> isNan (Prim2SF y) = false ->
  (PrimFloat.leb x y = true <-> ~ lexlt (key (Prim2SF y)) (key (Prim2SF x))).
Proof.
  intros Ex Ey. rewrite leb_spec. unfold SFleb.
  destruct (SFcompare_key _ _ Ex Ey) as (c & -> & _ & H2).
  destruct c; split; try discriminate; try reflexivity; intros H.
  - intros K. apply H2 in K. discriminate K.
  - intros K. apply H2 in K. discriminate K.
  - exfalso. apply H. now apply H2.
Qed.

Lemma float_laws : JsNumberLaws float IEEE.number.
Proof.
  constructor; cbn.
  - intros x. destruct (PrimFloat.ltb x x) eqn:E; [ | reflexivity ].
    apply float_ltb_iff in E as (_ & _ & H).
    destruct (key (Prim2SF x)) as [[a b] c]. cbn in H. lia.
  - intros x y z Hxy Hyz.
    apply float_ltb_iff in Hxy as (Hx & Hy & H1).
    apply float_ltb_iff in Hyz as (_ & Hz & H2).
    apply float_ltb_iff. repeat split; try assumption.
    destruct (key (Prim2SF x)) as [[a1 a2] a3],
             (key (Prim2SF y)) as [[b1 b2] b3],
             (key (Prim2SF z)) as [[c1 c2] c3].
    cbn in *. lia.
  - intros x y H. apply float_ltb_iff in H as (Hx & Hy & _).
    now rewrite !is_nan_spec.
  - intros x y Hx Hy. rewrite is_nan_spec in Hx, Hy.
    destruct (PrimFloat.ltb y x) eqn:E; cbn.
    + apply float_ltb_iff in E as (_ & _ & H).
      destruct (PrimFloat.leb x y) eqn:E'; [ | reflexivity ].
      apply (float_leb_iff x y Hx Hy) in E'. contradiction.
    + apply (float_leb_iff x y Hx Hy). intros K.
      assert (E' : PrimFloat.ltb y x = true)
        by (apply float_ltb_iff; repeat split; assumption).
      congruence.
Qed.

End FloatOrderLemmas.

(* ================================================================== *)
(** * Properties of the scorer: the walk down one tree *)
(* ================================================================== *)

Section TreeWalk.
Context {num : Type} {N : JsNumber num}.

Import XGBoostPredictor TreeSpec.

Variable tree : XGBoostTree num.
Variable features : list (option num).

(** One turn of the loop at a leaf. *)
Lemma step_leaf (n : Z) :
  arrayGet (left_children tree) (Some n) = Some (-1) ->
  predictTree_step tree features (Some n)
  = Return (arrayGet (base_weights tree) (Some n)).
Proof. intros E. unfold predictTree_step. now rewrite E. Qed.

(** One turn of the loop at a split. *)
Lemma step_split (n l i : Z) (c : num) :
  arrayGet (left_children tree) (Some n) = Some l -> l <> -1 ->
  arrayGet (split_indices tree) (Some n) = Some i ->
  arrayGet (split_conditions tree) (Some n) = Some c ->
  predictTree_step tree features (Some n)
  = if js_lt (featureAt features i) (Some c) then Goto (Some l)
    else Goto (arrayGet (right_children tree) (Some n)).
Proof.
  intros El Hl Ei Ec. unfold predictTree_step. rewrite El, Ei, Ec.
  change (match arrayGet features (Some i) with
          | Some v => v
          | None => None
          end) with (featureAt features i).
  destruct l as [ | p | p]; try reflexivity.
  destruct p; try reflexivity. contradiction.
Qed.

Lemma descends_unique (n : Z) (w : num) :
  descends tree features n w ->
  forall w', descends tree features n w' -> w' = w.
Proof.
  induction 1 as [n w El Ew | n l i c w El Hl Ei Ec Hlt _ IH
                  | n l r i c w El Hl Ei Ec Hlt Er _ IH];
    intros w' H'; inversion H'; subst; try congruence.
  - apply IH. congruence.
  - apply IH. congruence.
Qed.

(** From a well-formed node the loop reaches a leaf within some number of
    turns, at the weight the specification's walk gives. *)
Lemma predictTree_from_wellFormed (n : Z) :
  wellFormedFrom tree n ->
  exists w fuel,
    (forall fuel', (fuel <= fuel')%nat ->
                   predictTree_from fuel' tree features (Some n) = Ok (Some w))
    /\ descends tree features n w.
Proof.
  induction 1 as [n w El Ew | n l r i c El Hl Er Ei Ec _ IHl _ IHr].
  - exists w, 1%nat. split.
    + intros [ | fuel'] Hf; [ lia | ]. cbn [predictTree_from].
      now rewrite (step_leaf n El), Ew.
    + now apply descends_leaf.
  - destruct (js_lt (featureAt features i) (Some c)) eqn:Hlt.
    + destruct IHl as (w & fuel & Hrun & Hd). exists w, (S fuel). split.
      * intros [ | fuel'] Hf; [ lia | ]. cbn [predictTree_from].
        rewrite (step_split n l i c El Hl Ei Ec), Hlt. apply Hrun. lia.
      * eapply descends_left; eauto.
    + destruct IHr as (w & fuel & Hrun & Hd). exists w, (S fuel). split.
      * intros [ | fuel'] Hf; [ lia | ]. cbn [predictTree_from].
        rewrite (step_split n l i c El Hl Ei Ec), Hlt, Er. apply Hrun. lia.
      * eapply descends_right; eauto.
Qed.

End TreeWalk.

Section Forward.
Context {num : Type} {N : JsNumber num}.
Import XGBoostPredictor TreeSpec.
Variable tree : XGBoostTree num.
Variable features : list (option num).

Lemma wellFormedb_node (i : Z) :
  wellFormedb tree = true ->
  0 <= i < Z.of_nat (List.length (left_children tree)) ->
  forwardNode tree (Z.of_nat (List.length (left_children tree))) i = true.
Proof.
  unfold wellFormedb. intros H Hi. apply andb_true_iff in H as [_ H].
  rewrite forallb_forall in H.
  specialize (H (Z.to_nat i)). rewrite Z2Nat.id in H by lia.
  apply H. apply in_seq. lia.
Qed.

Lemma forward_wellFormedFrom :
  wellFormedb tree = true ->
  forall (k : nat) (i : Z),
    0 <= i < Z.of_nat (List.length (left_children tree)) ->
    Z.of_nat (List.length (left_children tree)) - i <= Z.of_nat k ->
    wellFormedFrom tree i
    /\ exists w, predictTree_from k tree features (Some i) = Ok (Some w).
Proof.
  intros Hwf. induction k as [ | k IH]; intros i Hi Hk; [ lia | ].
  pose proof (wellFormedb_node i Hwf Hi) as Hn. unfold forwardNode in Hn.
  destruct (arrayGet (left_children tree) (Some i)) as [l | ] eqn:El;
    [ | discriminate ].
  destruct (Z.eqb_spec l (-1)) as [-> | Hl].
  - destruct (arrayGet (base_weights tree) (Some i)) as [w | ] eqn:Ew;
      [ | discriminate ].
    split; [ now apply (wf_leaf tree i w) | ].
    exists w. cbn [predictTree_from]. now rewrite (step_leaf tree features i El), Ew.
  - destruct (arrayGet (right_children tree) (Some i)) as [r | ] eqn:Er;
      [ | rewrite andb_false_r in Hn; discriminate ].
    destruct (arrayGet (split_indices tree) (Some i)) as [ix | ] eqn:Ei;
      [ | rewrite andb_false_r in Hn; discriminate ].
    destruct (arrayGet (split_conditions tree) (Some i)) as [c | ] eqn:Ec;
      [ | rewrite andb_false_r in Hn; discriminate ].
    cbn [isSome] in Hn. rewrite !andb_true_r in Hn.
    apply andb_true_iff in Hn as [Hn1 Hn2].
    apply andb_true_iff in Hn1 as [Hil Hln].
    apply andb_true_iff in Hn2 as [Hir Hrn].
    apply Z.ltb_lt in Hil, Hln, Hir, Hrn.
    destruct (IH l ltac:(lia) ltac:(lia)) as [Wl [wl Rl]].
    destruct (IH r ltac:(lia) ltac:(lia)) as [Wr [wr Rr]].
    split; [ now apply (wf_split tree i l r ix c) | ].
    cbn [predictTree_from].
    rewrite (step_split tree features i l ix c El Hl Ei Ec).
    destruct (js_lt _ _); [ now exists wl | rewrite Er; now exists wr ].
Qed.

(** A tree that passes the check is well formed, and the walk returns within
    as many turns as the tree has nodes. *)
Lemma wellFormedb_sound :
  wellFormedb tree = true ->
  wellFormed tree
  /\ exists w,
       predictTree (List.length (left_children tree)) tree features
       = Ok (Some w).
Proof.
  intros Hwf.
  assert (Hn : (0 < List.length (left_children tree))%nat).
  { unfold wellFormedb in Hwf. apply andb_true_iff in Hwf as [H _].
    now apply Nat.ltb_lt in H. }
  apply (forward_wellFormedFrom Hwf); lia.
Qed.
End Forward.

(** C5: on a well-formed tree and any feature vector, predictTree starts at
    node 0 and returns, within finitely many turns of its loop, the one
    weight that the walk of the specification reaches: the weight of the
    node when its left-child entry is -1, otherwise the result from the left
    child when the feature value at the split index is strictly below the
    threshold and from the right child when it is not; a value equal to the
    threshold is not strictly below it and goes right ([<] is irreflexive on
    both carriers). *)
Theorem predictTree_walk {num : Type} {N : JsNumber num}
  (tree : XGBoostPredictor.XGBoostTree num) (features : list (option num)) :
  (forall x : num, ltb x x = false) ->
  TreeSpec.wellFormed tree ->
  (exists w fuel,
      (forall fuel', (fuel <= fuel')%nat ->
                     XGBoostPredictor.predictTree fuel' tree features
                     = Ok (Some w))
      /\ TreeSpec.descends tree features 0 w
      /\ (forall w', TreeSpec.descends tree features 0 w' -> w' = w))
  /\ (forall c : num, js_lt (Some c) (Some c) = false).
Proof.
  intros Hirr Hwf. split.
  - destruct (predictTree_from_wellFormed tree features 0 Hwf)
      as (w & fuel & Hrun & Hd).
    exists w, fuel. repeat split; [ exact Hrun | exact Hd | ].
    now apply descends_unique.
  - intros c. unfold js_lt; cbn. apply Hirr.
Qed.

Lemma stump_wellFormed : TreeSpec.wellFormed (Samples.stump (num := float)).
Proof.
  apply (TreeSpec.wf_split _ 0 1 2 0 (lit 50 0));
    try reflexivity; try discriminate.
  - apply (TreeSpec.wf_leaf _ 1 (lit 1 (-1))); reflexivity.
  - apply (TreeSpec.wf_leaf _ 2 (lit (-1) (-1))); reflexivity.
Defined.

(** The stump walked with feature value 30, on binary64. *)
Lemma predictTree_walk_witness :
  (exists (w : float) (fuel : nat),
      (forall fuel', (fuel <= fuel')%nat ->
                     XGBoostPredictor.predictTree fuel' Samples.stump
                                                  [Some (lit 30 0)]
                     = Ok (Some w))
      /\ TreeSpec.descends Samples.stump [Some (lit 30 0)] 0 w
      /\ (forall w', TreeSpec.descends Samples.stump [Some (lit 30 0)] 0 w'
                     -> w' = w))
  /\ (forall c : float, js_lt (Some c) (Some c) = false).
Proof.
  apply (predictTree_walk Samples.stump [Some (lit 30 0)]).
  - exact (ltb_irrefl float IEEE.number float_laws).
  - exact stump_wellFormed.
Defined.

(* ================================================================== *)
(** * Properties of the scorer: risk categories *)
(* ================================================================== *)

Section Categories.
Context {num : Type} {N : JsNumber num}.
Variable L : JsNumberLaws num N.

Import XGBoostPredictor.

(** The thresholds are in increasing order. *)
Hypothesis zero_below_tenth : ltb (lit 0 0) (lit 1 (-1)) = true.
Hypothesis tenth_below_fifth : ltb (lit 1 (-1)) (lit 2 (-1)) = true.

Lemma thresholds_not_NaN :
  isNaN (lit 0 0) = false /\ isNaN (lit 1 (-1)) = false
  /\ isNaN (lit 2 (-1)) = false.
Proof.
  destruct (ltb_not_NaN num N L _ _ zero_below_tenth) as [H0 H1].
  destruct (ltb_not_NaN num N L _ _ tenth_below_fifth) as [_ H2].
  now repeat split.
Qed.

Lemma ltb_asym (x y : num) : ltb x y = true -> ltb y x = false.
Proof.
  intros H. destruct (ltb y x) eqn:E; [ | reflexivity ].
  pose proof (ltb_trans num N L _ _ _ H E) as K.
  now rewrite (ltb_irrefl num N L) in K.
Qed.

(** The four branches of [getRiskCategory] in terms of the order. *)
Lemma getRiskCategory_ranges (s : num) :
  isNaN s = false ->
  (getRiskCategory s = IMPROVED <-> ltb s (lit 0 0) = true)
  /\ (getRiskCategory s = STABLE
      <-> leb (lit 0 0) s = true /\ leb s (lit 1 (-1)) = true)
  /\ (getRiskCategory s = DEGRADED
      <-> ltb (lit 1 (-1)) s = true /\ leb s (lit 2 (-1)) = true)
  /\ (getRiskCategory s = SEVERELY_DEGRADED <-> ltb (lit 2 (-1)) s = true).
Proof.
  intros Hs. destruct thresholds_not_NaN as (N0 & N1 & N2).
  rewrite (leb_ltb num N L (lit 0 0) s N0 Hs).
  rewrite (leb_ltb num N L s (lit 1 (-1)) Hs N1).
  rewrite (leb_ltb num N L s (lit 2 (-1)) Hs N2).
  unfold getRiskCategory.
  rewrite (leb_ltb num N L s (lit 1 (-1)) Hs N1).
  rewrite (leb_ltb num N L s (lit 2 (-1)) Hs N2).
  destruct (ltb s (lit 0 0)) eqn:E0.
  - (* s < 0 *)
    assert (E1 : ltb (lit 1 (-1)) s = false).
    { apply ltb_asym. exact (ltb_trans num N L _ _ _ E0 zero_below_tenth). }
    assert (E2 : ltb (lit 2 (-1)) s = false).
    { apply ltb_asym.
      exact (ltb_trans num N L _ _ _
               (ltb_trans num N L _ _ _ E0 zero_below_tenth)
               tenth_below_fifth). }
    rewrite E1, E2. cbn.
    repeat split; intros; try discriminate; try tauto;
      match goal with H : _ /\ _ |- _ => destruct H; discriminate end.
  - destruct (ltb (lit 1 (-1)) s) eqn:E1; cbn.
    + destruct (ltb (lit 2 (-1)) s) eqn:E2; cbn;
        repeat split; intros; try discriminate; try tauto;
        match goal with H : _ /\ _ |- _ => destruct H; discriminate end.
    + assert (E2 : ltb (lit 2 (-1)) s = false).
      { destruct (ltb (lit 2 (-1)) s) eqn:E2; [ | reflexivity ].
        pose proof (ltb_trans num N L _ _ _ tenth_below_fifth E2). congruence. }
      rewrite E2.
      repeat split; intros; try discriminate; try tauto;
        match goal with H : _ /\ _ |- _ => destruct H; discriminate end.
Qed.

End Categories.

(** C3: every score that is a number (not NaN) gets exactly one label:
    improved when it is below 0, stable from 0 to 0.1 inclusive, degraded
    above 0.1 and up to 0.2 inclusive, severely_degraded above 0.2; on the
    exact reals, and on binary64 with the comparisons and the literals 0,
    0.1 and 0.2 of that format. *)
Theorem getRiskCategory_thresholds :
  (forall r : R,
      (XGBoostPredictor.getRiskCategory (XR r) = XGBoostPredictor.IMPROVED
       <-> (r < 0)%R)
      /\ (XGBoostPredictor.getRiskCategory (XR r) = XGBoostPredictor.STABLE
          <-> (0 <= r <= 1 / 10)%R)
      /\ (XGBoostPredictor.getRiskCategory (XR r) = XGBoostPredictor.DEGRADED
          <-> (1 / 10 < r <= 2 / 10)%R)
      /\ (XGBoostPredictor.getRiskCategory (XR r)
          = XGBoostPredictor.SEVERELY_DEGRADED
          <-> (2 / 10 < r)%R))
  /\ (forall s : float,
         PrimFloat.is_nan s = false ->
         (XGBoostPredictor.getRiskCategory s = XGBoostPredictor.IMPROVED
          <-> PrimFloat.ltb s 0 = true)
         /\ (XGBoostPredictor.getRiskCategory s = XGBoostPredictor.STABLE
             <-> PrimFloat.leb 0 s = true /\ PrimFloat.leb s 0.1 = true)
         /\ (XGBoostPredictor.getRiskCategory s = XGBoostPredictor.DEGRADED
             <-> PrimFloat.ltb 0.1 s = true /\ PrimFloat.leb s 0.2 = true)
         /\ (XGBoostPredictor.getRiskCategory s
             = XGBoostPredictor.SEVERELY_DEGRADED
             <-> PrimFloat.ltb 0.2 s = true)).
Proof.
  split.
  - intros r.
    assert (E0 : (lit 0 0 : xreal) = XR 0) by apply exact_lit0.
    assert (E1 : (lit 1 (-1) : xreal) = XR (1 / 10)) by reflexivity.
    assert (E2 : (lit 2 (-1) : xreal) = XR (2 / 10)) by reflexivity.
    assert (H01 : ltb (lit 0 0) (lit 1 (-1) : xreal) = true).
    { rewrite E0, E1. apply exact_ltb_iff. lra. }
    assert (H12 : ltb (lit 1 (-1)) (lit 2 (-1) : xreal) = true).
    { rewrite E1, E2. apply exact_ltb_iff. lra. }
    destruct (getRiskCategory_ranges exact_laws H01 H12 (XR r) eq_refl)
      as (H1 & H2 & H3 & H4).
    rewrite H1, H2, H3, H4, E0, E1, E2.
    change (@ltb xreal Exact.number) with Exact.ltb.
    change (@leb xreal Exact.number) with Exact.leb.
    rewrite !exact_ltb_iff, !exact_leb_iff.
    repeat split; intros; lra.
  - intros s Hs.
    exact (getRiskCategory_ranges float_laws eq_refl eq_refl s Hs).
Qed.

(* ================================================================== *)
(** * The unit tests of the repository, replayed on the model *)
(* ================================================================== *)

Section RepositoryTests.

Import XGBoostPredictor.

(** feature-engineer.spec: "should transform commit data into features
    correctly", with the doubles the test expects. *)
Example transform_test :
  Samples.derivedFields
    (FeatureEngineer.transformRecord (Samples.transformTestInput (num := float)))
  = map Some
      [ 31; 50; 1.4851485148514851; 0; 0.18181818181818182; 100; 0.25;
        9.090909090909092; 4.6875; 0.49504950495049505; 37.5;
        0.33112582781456956; 0.3125 ]%float.
Proof. vm_compute. reflexivity. Qed.

(** xgboost-predictor.spec: the four describe blocks of getRiskCategory, and
    the boundary values of the specification. *)
Example getRiskCategory_tests :
  map getRiskCategory [ -0.1; -0.01; 0.0; 0.1; 0.11; 0.2; 0.21; 0.5 ]%float
  = [ IMPROVED; IMPROVED; STABLE; STABLE; DEGRADED; DEGRADED;
      SEVERELY_DEGRADED; SEVERELY_DEGRADED ]
  /\ map getRiskCategory
       [ 0.1; 0.100001; 0.2; 0.200001; 0.0; -0.000001 ]%float
     = [ STABLE; DEGRADED; DEGRADED; SEVERELY_DEGRADED; STABLE; IMPROVED ].
Proof. split; vm_compute; reflexivity. Qed.

(** xgboost-predictor.spec: "should categorize risks correctly": raw scores
    0.05, 0.15, 0.25, -0.05 are calibrated and labelled as the test
    expects. *)
Example categorize_test :
  map getRiskCategory
      (calibratePredictions [ 0.05; 0.15; 0.25; -0.05 ]%float)
  = [ IMPROVED; STABLE; STABLE; IMPROVED ].
Proof. vm_compute. reflexivity. Qed.

(** xgboost-predictor.spec: "should handle empty trees gracefully": the score
    for the empty vector under the mocked model is 0.5. *)
Example empty_trees_test (exp : float -> float) :
  predictSingle (M := IEEE.mathWith exp) 0
    (loadModel (Samples.noTrees None) new) []
  = Ok 0.5%float.
Proof. vm_compute. reflexivity. Qed.

(** A tree whose root is its own child keeps the loop turning for ever. *)
Lemma cyclic_tree_diverges {num : Type} {N : JsNumber num}
  (features : list (option num)) (fuel : nat) :
  predictTree fuel Samples.cyclic features = OutOfFuel.
Proof.
  unfold predictTree. induction fuel as [ | fuel IH]; [ reflexivity | ].
  cbn [predictTree_from]. unfold predictTree_step.
  cbn [arrayGet Samples.cyclic left_children right_children Z.ltb Z.compare
       Z.to_nat nth_error].
  destruct (js_lt _ _); exact IH.
Qed.

Import GitCommitCollector CollectorSpec.

(** git-commit-collector.spec: "should fetch and parse commit data
    correctly" (first record), "should filter out non-source files",
    "should handle multiple commits for same file" and "should return empty
    array if no source files found". *)
Example collector_tests :
  (exists r1 r2,
      fetchCommitData "repo" true (fun _ => true) 0 Samples.testLogTwoFiles
      = Ok [r1; r2]
      /\ r1 = {| module := "src/parser.ts";
                 filename := "src/parser.ts";
                 repo_name := "repo";
                 cd_commits := 1;
                 cd_authors := 1;
                 author_names := ["user@example.com"];
                 cd_lines_added := 10;
                 cd_lines_deleted := 5;
                 churn := 15;
                 cd_bug_commits := 1;
                 cd_refactor_commits := 0;
                 cd_feature_commits := 0;
                 lines_per_author := ratio 10 1;
                 churn_per_commit := ratio 15 1;
                 bug_ratio := ratio 1 1;
                 days_active := Some 1;
                 commits_per_day := Some (ratio 1 1);
                 created_at := Some 1234567890000;
                 last_modified := Some 1234567890000 |})
  /\ (exists out,
         fetchCommitData "repo" true (fun _ => true) 0 Samples.testLogReadme
         = Ok out
         /\ map module out = ["src/index.ts"])
  /\ (exists out,
         fetchCommitData "repo" true (fun _ => true) 0 Samples.testLogSameFile
         = Ok out
         /\ map summary out = [("src/parser.ts", 3, 30, 18)]
         /\ map cd_authors out = [2]
         /\ map cd_bug_commits out = [2]
         /\ map churn out = [48])
  /\ fetchCommitData "repo" true (fun _ => true) 0 Samples.testLogDocsOnly
     = Ok [].
Proof.
  split; [ | split; [ | split ] ].
  - do 2 eexists. split; vm_compute; reflexivity.
  - eexists. split; vm_compute; reflexivity.
  - eexists. repeat split; vm_compute; reflexivity.
  - vm_compute. reflexivity.
Qed.

(** git-commit-collector.spec: the two lists of the isSourceFile tests. *)
Example isSourceFile_tests :
  forallb isSourceFile
    [ "file.py"; "file.js"; "file.ts"; "file.java"; "file.cpp"; "file.c";
      "file.h"; "file.hpp"; "file.cs"; "file.rb"; "file.go"; "file.rs";
      "file.php"; "file.swift"; "file.kt"; "file.scala"; "file.r"; "file.m";
      "file.jsx"; "file.tsx"; "file.vue"; "file.sol" ] = true
  /\ existsb isSourceFile
       [ "README.md"; "package.json"; "image.png"; "style.css"; "data.xml";
         "document.pdf" ] = false.
Proof. split; vm_compute; reflexivity. Qed.

(** A source file touched only by a binary change does not appear. *)
Example binary_only_file_absent :
  fetchCommitData "repo" false (fun _ => true) 0 Samples.binaryLog
  = fetchCommitData "repo" false (fun _ => true) 0 Samples.binaryLogWithout
  /\ (exists out,
         fetchCommitData "repo" false (fun _ => true) 0 Samples.binaryLog
         = Ok out
         /\ map module out = ["src/app.ts"]).
Proof.
  split; [ vm_compute; reflexivity | ].
  eexists. split; vm_compute; reflexivity.
Qed.

End RepositoryTests.

(* ================================================================== *)
(** * Further properties of the feature engineer *)
(* ================================================================== *)

Section TransformTwice.
Context {num : Type} {N : JsNumber num}.

Import FeatureEngineer.

Lemma derive1_again (a : option num) (g : num -> num) (old : option num) :
  derive1 a g (derive1 a g old) = derive1 a g old.
Proof. now destruct a. Qed.

Lemma derive2_again (a b : option num) (g : num -> num -> num)
  (old : option num) :
  derive2 a b g (derive2 a b g old) = derive2 a b g old.
Proof. now destruct a, b. Qed.

Lemma transformRecord_again (r : CommitData num) :
  transformRecord (transformRecord r) = transformRecord r.
Proof.
  unfold transformRecord at 1. cbn [module filename repo_name commits authors
    lines_added lines_deleted churn bug_commits refactor_commits
    feature_commits lines_per_author churn_per_commit bug_ratio days_active
    commits_per_day degradation_days net_lines code_stability
    is_high_churn_commit bug_commit_rate commits_squared author_concentration
    lines_per_commit churn_rate modification_ratio churn_per_author
    deletion_rate commit_density transformRecord].
  now rewrite !derive1_again, !derive2_again.
Qed.

(** X1: the derived features are computed from the base counters alone, so
    transforming a batch that has already been transformed changes nothing,
    whatever the numbers are (including undefined and NaN ones). *)
Theorem transform_idempotent (data : list (CommitData num)) :
  transform (transform data) = transform data.
Proof.
  unfold transform. rewrite map_map. apply map_ext. intros r.
  apply transformRecord_again.
Qed.

End TransformTwice.

Section VectorNumbers.
Context {num : Type} {N : JsNumber num}.

Import FeatureEngineer FeatureSpec.

Hypothesis truthy_not_NaN : forall x : num, truthy x = true -> isNaN x = false.
Hypothesis zero_not_NaN : isNaN (lit 0 0 : num) = false.

Lemma orZero_definedNumber (v : option num) : definedNumber (orZero v).
Proof.
  unfold orZero, definedNumber. destruct v as [x | ].
  - destruct (truthy x) eqn:T; eexists; split; eauto.
  - eexists; split; eauto.
Qed.

Lemma derived_entries_defined (r : CommitData num) :
  List.length (extractFeatureVector r) = 26%nat
  /\ firstn 13 (extractFeatureVector r) = baseFields r
  /\ Forall definedNumber (skipn 13 (extractFeatureVector r)).
Proof.
  split; [ reflexivity | split; [ reflexivity | ] ].
  cbn [extractFeatureVector skipn].
  repeat (apply Forall_cons; [ apply orZero_definedNumber | ]).
  apply Forall_nil.
Qed.

End VectorNumbers.

(** X3: the vector handed to the model always has 26 entries, as many as
    there are feature names.  Its last thirteen entries (the derived
    features) are always defined and never NaN: an undefined, NaN or zero
    derived field is replaced by 0.  Its first thirteen entries are the base
    fields as they are, so an undefined base field stays undefined.  On
    binary64 and on the exact reals. *)
Theorem extractFeatureVector_derived_defined :
  (forall r : FeatureEngineer.CommitData float,
      List.length (FeatureEngineer.extractFeatureVector r)
      = List.length FeatureEngineer.getFeatureNames
      /\ Forall FeatureSpec.definedNumber
           (skipn 13 (FeatureEngineer.extractFeatureVector r))
      /\ firstn 13 (FeatureEngineer.extractFeatureVector r)
         = FeatureSpec.baseFields r)
  /\ (forall r : FeatureEngineer.CommitData xreal,
         List.length (FeatureEngineer.extractFeatureVector r)
         = List.length FeatureEngineer.getFeatureNames
         /\ Forall FeatureSpec.definedNumber
              (skipn 13 (FeatureEngineer.extractFeatureVector r))
         /\ firstn 13 (FeatureEngineer.extractFeatureVector r)
            = FeatureSpec.baseFields r).
Proof.
  split; intros r.
  - split; [ reflexivity | split; [ | reflexivity ] ].
    apply derived_entries_defined; [ | reflexivity ].
    intros x. cbn. destruct (PrimFloat.is_nan x); [ discriminate | reflexivity ].
  - split; [ reflexivity | split; [ | reflexivity ] ].
    apply derived_entries_defined; [ | reflexivity ].
    intros [ | x]; [ discriminate | reflexivity ].
Qed.

(* ================================================================== *)
(** * Further properties of the scorer: the result of predict *)
(* ================================================================== *)

Lemma mapM_length {A B : Type} (f : A -> result B) (xs : list A) :
  forall ys, mapM f xs = Ok ys -> List.length ys = List.length xs.
Proof.
  induction xs as [ | x xs IH]; intros ys; cbn.
  - now intros [= <-].
  - destruct (f x) as [y | e | ]; cbn; try discriminate.
    destruct (mapM f xs) as [ys' | e | ]; cbn; try discriminate.
    intros [= <-]. cbn. f_equal. now apply IH.
Qed.

Lemma mapM_ok {A B : Type} (f : A -> result B) (xs : list A) :
  (forall x, exists y, f x = Ok y) -> exists ys, mapM f xs = Ok ys.
Proof.
  intros Hf. induction xs as [ | x xs [ys IH]]; cbn.
  - now eexists.
  - destruct (Hf x) as [y ->]. rewrite IH. cbn. now eexists.
Qed.

Lemma nth_seq_all {A : Type} (d : A) (c : list A) :
  map (fun k => nth k c d) (seq 0 (List.length c)) = c.
Proof.
  induction c as [ | a c IH]; [ reflexivity | ].
  cbn [List.length seq map nth]. rewrite <- seq_shift, map_map. cbn [nth].
  now rewrite IH.
Qed.

Section PredictShape.
Context {num : Type} {N : JsNumber num} {M : JsMath num}.

Import FeatureEngineer XGBoostPredictor.

Lemma calibratePredictions_length (ps : list num) :
  List.length (calibratePredictions ps) = List.length ps.
Proof.
  unfold calibratePredictions. destruct (gtb _ _); apply length_map.
Qed.

Lemma makePredictions_feature (fs : list (CommitData num)) (c r : list num) :
  forall i, map (@feature num) (makePredictions fs c r i) = fs.
Proof.
  induction fs as [ | f fs IH]; intros i; cbn; [ reflexivity | ].
  now rewrite IH.
Qed.

Lemma makePredictions_scores (fs : list (CommitData num)) (c r : list num) :
  forall i,
    map (@degradation_score num) (makePredictions fs c r i)
    = map (fun k => nth k c NaN) (seq i (List.length fs))
    /\ map (@raw_prediction num) (makePredictions fs c r i)
       = map (fun k => nth k r NaN) (seq i (List.length fs)).
Proof.
  induction fs as [ | f fs IH]; intros i; cbn; [ now split | ].
  destruct (IH (S i)) as [-> ->]. now split.
Qed.

Lemma makePredictions_category (fs : list (CommitData num)) (c r : list num) :
  forall i,
    Forall (fun p => risk_category p = getRiskCategory (degradation_score p))
           (makePredictions fs c r i).
Proof.
  induction fs as [ | f fs IH]; intros i; cbn; constructor;
    [ reflexivity | apply IH ].
Qed.

(** X4: what predict returns.  The predictions are in the order of the
    input, one per input record; each carries the transformed record, its raw
    score (the result of predictSingle on the vector of the transformed
    record), its calibrated score (the calibration of the whole list of raw
    scores, at the same position) and the category of the calibrated
    score. *)
Theorem predict_result (fuel : nat) (this : XGBoostPredictor num)
  (commitData : list (CommitData num)) (predictions : list (RiskPrediction num)) :
  predict fuel this commitData = Ok predictions ->
  List.length predictions = List.length commitData
  /\ map (@feature num) predictions = transform commitData
  /\ mapM (fun f => predictSingle fuel this (extractFeatureVector f))
          (transform commitData)
     = Ok (map (@raw_prediction num) predictions)
  /\ map (@degradation_score num) predictions
     = calibratePredictions (map (@raw_prediction num) predictions)
  /\ Forall (fun p => risk_category p = getRiskCategory (degradation_score p))
            predictions.
Proof.
  unfold predict. destruct (model this) as [m | ]; [ | discriminate ].
  destruct (mapM _ (transform commitData)) as [raw | e | ] eqn:Eraw;
    cbn; try discriminate.
  intros [= <-].
  pose proof (mapM_length _ _ _ Eraw) as Hlen.
  destruct (makePredictions_scores (transform commitData)
              (calibratePredictions raw) raw 0) as [Hs Hr].
  rewrite <- Hlen in Hr. rewrite nth_seq_all in Hr.
  rewrite <- Hlen, <- (calibratePredictions_length raw), nth_seq_all in Hs.
  rewrite Hr, Hs. repeat split.
  - rewrite <- (length_map (@feature num)), makePredictions_feature.
    unfold transform. apply length_map.
  - apply makePredictions_feature.
  - apply makePredictions_category.
Qed.

End PredictShape.

(** The batch of one record under the model with no tree, in exact
    arithmetic. *)
Lemma predict_result_witness :
  exists predictions : list (XGBoostPredictor.RiskPrediction xreal),
    List.length predictions = 1%nat
    /\ map (@XGBoostPredictor.degradation_score xreal) predictions
       = XGBoostPredictor.calibratePredictions
           (map (@XGBoostPredictor.raw_prediction xreal) predictions).
Proof.
  eexists.
  refine ((fun H => conj (proj1 H) (proj1 (proj2 (proj2 (proj2 H)))))
            (predict_result 0
               {| XGBoostPredictor.model := Some (Samples.noTrees None) |}
               [Samples.oneTo26] _ _)).
  reflexivity.
Defined.

Section PredictReturns.
Context {num : Type} {N : JsNumber num} {M : JsMath num}.

Import FeatureEngineer XGBoostPredictor TreeSpec ScorerSpec.

Lemma addTrees_returns (fuel : nat) (ts : list (XGBoostTree num))
  (features : list (option num)) :
  Forall (fun t => wellFormedb t = true
                   /\ (List.length (left_children t) <= fuel)%nat) ts ->
  forall score, exists score', addTrees fuel ts features score = Ok score'.
Proof.
  induction 1 as [ | t ts [Hwf Hlen] _ IH]; intros score; cbn.
  - now eexists.
  - assert (Hn : (0 < List.length (left_children t))%nat).
    { unfold wellFormedb in Hwf. apply andb_true_iff in Hwf as [H _].
      now apply Nat.ltb_lt in H. }
    destruct (forward_wellFormedFrom t features Hwf fuel 0
                ltac:(lia) ltac:(lia)) as [_ [w Hw]].
    unfold predictTree. rewrite Hw. cbn. apply IH.
Qed.

(** X5: predictSingle returns a score on every feature vector when the
    trees of the loaded model pass the check of well-formedness (every node
    is a leaf with a weight or a split whose children come later in the
    arrays): the loop of the tree walk, which has no exit of its own, then
    ends within as many turns as the largest tree has nodes.  Hence the raw
    predictions that predict computes first, one call of predictSingle per
    record of the batch, are all obtained, one per record. *)
Theorem predictSingle_returns (fuel : nat) (m : XGBoostModel num) :
  Forall (fun t => wellFormedb t = true
                   /\ (List.length (left_children t) <= fuel)%nat)
         (treesOf m) ->
  (forall features : list (option num),
      exists y, predictSingle fuel {| model := Some m |} features = Ok y)
  /\ (forall commitData : list (CommitData num),
         exists rawPredictions,
           mapM (fun feature =>
                   predictSingle fuel {| model := Some m |}
                                 (extractFeatureVector feature))
                (transform commitData)
           = Ok rawPredictions
           /\ List.length rawPredictions = List.length commitData).
Proof.
  intros Hts.
  assert (Hone : forall features : list (option num),
             exists y, predictSingle fuel {| model := Some m |} features
                       = Ok y).
  { intros features. unfold predictSingle. cbn [model].
    fold (treesOf m). destruct (List.length (treesOf m) =? 0)%nat.
    - now eexists.
    - destruct (addTrees_returns fuel (treesOf m) features Hts (baseScore m))
        as [s ->].
      cbn. now eexists. }
  split; [ exact Hone | ].
  intros commitData.
  destruct (mapM_ok _ (transform commitData)
              (fun f => Hone (extractFeatureVector f))) as [raw Hraw].
  exists raw. split; [ exact Hraw | ].
  rewrite (mapM_length _ _ _ Hraw). unfold transform. apply length_map.
Qed.

End PredictReturns.

(** The model of one stump, in exact arithmetic, with three turns. *)
Lemma predictSingle_returns_witness :
  exists y : xreal,
    XGBoostPredictor.predictSingle 3
      {| XGBoostPredictor.model := Some Samples.stumpModel |}
      (FeatureEngineer.extractFeatureVector Samples.oneTo26)
    = Ok y.
Proof.
  refine (proj1 (predictSingle_returns 3 Samples.stumpModel _)
                (FeatureEngineer.extractFeatureVector Samples.oneTo26)).
  repeat constructor.
Defined.

(* ================================================================== *)
(** * Further properties of the scorer: the loaded model *)
(* ================================================================== *)

Section LoadedModel.
Context {num : Type} {N : JsNumber num} {M : JsMath num}.

Import FeatureEngineer XGBoostPredictor.

Lemma predictSingle_model (fuel : nat) (m m' : XGBoostModel num)
  (features : list (option num)) :
  base_score m' = base_score m -> trees m' = trees m ->
  predictSingle fuel {| model := Some m' |} features
  = predictSingle fuel {| model := Some m |} features.
Proof.
  intros Eb Et. unfold predictSingle, baseScore. cbn [model].
  now rewrite Eb, Et.
Qed.

Lemma mapM_ext {A B : Type} (f g : A -> result B) (xs : list A) :
  (forall x, f x = g x) -> mapM f xs = mapM g xs.
Proof.
  intros H. induction xs as [ | x xs IH]; cbn; [ reflexivity | ].
  now rewrite H, IH.
Qed.

(** X7: loadModel stores the bundled model whatever the predictor held
    before; the list of feature names of the stored model is the top-level
    one when there is one and the learner's otherwise; and the scores do not
    depend on that list: predict after loadModel is predict on the bundled
    model as it is. *)
Theorem loadModel_scores (XGBOOST_MODEL : XGBoostModel num) (fuel : nat)
  (this : XGBoostPredictor num) (commitData : list (CommitData num)) :
  (exists m,
      loadModel XGBOOST_MODEL this = {| model := Some m |}
      /\ feature_names m
         = match feature_names XGBOOST_MODEL with
           | Some names => Some names
           | None => learner_feature_names XGBOOST_MODEL
           end
      /\ base_score m = base_score XGBOOST_MODEL
      /\ trees m = trees XGBOOST_MODEL)
  /\ predict fuel (loadModel XGBOOST_MODEL this) commitData
     = predict fuel {| model := Some XGBOOST_MODEL |} commitData.
Proof.
  split.
  - unfold loadModel. eexists. split; [ reflexivity | ].
    destruct (feature_names XGBOOST_MODEL) as [names | ] eqn:En;
      [ now rewrite En | ].
    destruct (learner_feature_names XGBOOST_MODEL) as [names | ] eqn:El;
      cbn; now rewrite ?En.
  - unfold predict, loadModel. cbn [model].
    erewrite mapM_ext; [ reflexivity | ].
    intros f. apply predictSingle_model.
    + now destruct (feature_names XGBOOST_MODEL),
        (learner_feature_names XGBOOST_MODEL).
    + now destruct (feature_names XGBOOST_MODEL),
        (learner_feature_names XGBOOST_MODEL).
Qed.

End LoadedModel.

(* ================================================================== *)
(** * Further properties of the scorer: missing feature values *)
(* ================================================================== *)

Section MissingFeature.
Context {num : Type} {N : JsNumber num}.

Import XGBoostPredictor TreeSpec ScorerSpec.

Hypothesis NaN_isNaN : isNaN (NaN : num) = true.
Hypothesis ltb_NaN_l : forall x c : num, isNaN x = true -> ltb x c = false.

Lemma step_missing (tree : XGBoostTree num) (features : list (option num))
  (n i : Z) :
  arrayGet (left_children tree) (Some n) <> Some (-1) ->
  arrayGet (split_indices tree) (Some n) = Some i ->
  missing (featureAt features i) = true ->
  predictTree_step tree features (Some n)
  = Goto (arrayGet (right_children tree) (Some n)).
Proof.
  intros Hl Ei Hm. unfold predictTree_step. rewrite Ei.
  change (match arrayGet features (Some i) with
          | Some v => v
          | None => None
          end) with (featureAt features i).
  assert (Hlt : js_lt (featureAt features i)
                      (arrayGet (split_conditions tree) (Some n)) = false).
  { unfold js_lt. apply ltb_NaN_l.
    destruct (featureAt features i) as [x | ]; [ exact Hm | exact NaN_isNaN ]. }
  rewrite Hlt.
  destruct (arrayGet (left_children tree) (Some n)) as [[ | p | p] | ];
    try reflexivity.
  destruct p; try reflexivity. congruence.
Qed.

End MissingFeature.

Lemma float_ltb_nan_l (x c : float) :
  PrimFloat.is_nan x = true -> PrimFloat.ltb x c = false.
Proof.
  intros Hx. destruct (PrimFloat.ltb x c) eqn:E; [ | reflexivity ].
  apply float_ltb_iff in E as (H & _). rewrite is_nan_spec in Hx. congruence.
Qed.

(** X8: at a split node, a feature value that is missing (the split index
    is past the end of the vector, or the entry is undefined or NaN) is never
    below the threshold, so the walk moves to the right child; on binary64
    and on the exact reals. *)
Theorem missing_feature_goes_right :
  (forall (tree : XGBoostPredictor.XGBoostTree float)
          (features : list (option float)) (n i : Z),
      arrayGet (XGBoostPredictor.left_children tree) (Some n) <> Some (-1) ->
      arrayGet (XGBoostPredictor.split_indices tree) (Some n) = Some i ->
      ScorerSpec.missing (TreeSpec.featureAt features i) = true ->
      XGBoostPredictor.predictTree_step tree features (Some n)
      = XGBoostPredictor.Goto
          (arrayGet (XGBoostPredictor.right_children tree) (Some n)))
  /\ (forall (tree : XGBoostPredictor.XGBoostTree xreal)
             (features : list (option xreal)) (n i : Z),
         arrayGet (XGBoostPredictor.left_children tree) (Some n) <> Some (-1) ->
         arrayGet (XGBoostPredictor.split_indices tree) (Some n) = Some i ->
         ScorerSpec.missing (TreeSpec.featureAt features i) = true ->
         XGBoostPredictor.predictTree_step tree features (Some n)
         = XGBoostPredictor.Goto
             (arrayGet (XGBoostPredictor.right_children tree) (Some n))).
Proof.
  split; intros tree features n i; apply step_missing.
  - reflexivity.
  - exact float_ltb_nan_l.
  - reflexivity.
  - intros [ | x] c; [ reflexivity | discriminate ].
Qed.

(* ================================================================== *)
(** * Further properties of the scorer: the order of the categories *)
(* ================================================================== *)

Section CategoryOrder.
Context {num : Type} {N : JsNumber num}.
Variable L : JsNumberLaws num N.

Import XGBoostPredictor ScorerSpec.

Hypothesis zero_below_tenth : ltb (lit 0 0) (lit 1 (-1)) = true.
Hypothesis tenth_below_fifth : ltb (lit 1 (-1)) (lit 2 (-1)) = true.
Hypothesis leb_defined : forall x y : num,
    leb x y = true -> isNaN x = false /\ isNaN y = false.
Hypothesis leb_ltb_trans : forall x y z : num,
    leb x y = true -> ltb y z = true -> ltb x z = true.
Hypothesis ltb_leb_trans : forall x y z : num,
    ltb x y = true -> leb y z = true -> ltb x z = true.

Lemma getRiskCategory_monotone (s1 s2 : num) :
  leb s1 s2 = true ->
  (rank (getRiskCategory s1) <= rank (getRiskCategory s2))%nat.
Proof.
  intros Hle. destruct (leb_defined _ _ Hle) as [N1 N2].
  destruct (getRiskCategory_ranges L zero_below_tenth tenth_below_fifth s1 N1)
    as (_ & A2 & A3 & A4).
  destruct (getRiskCategory_ranges L zero_below_tenth tenth_below_fifth s2 N2)
    as (B1 & B2 & B3 & _).
  pose proof (ltb_irrefl num N L) as Hirr.
  pose proof (ltb_trans num N L) as Htr.
  destruct (getRiskCategory s1) eqn:C1, (getRiskCategory s2) eqn:C2;
    cbn [rank]; try lia; exfalso.
  - (* stable, then improved *)
    destruct (proj1 A2 eq_refl) as [H0 _]. pose proof (proj1 B1 eq_refl) as H.
    pose proof (leb_ltb_trans _ _ _ H0 (leb_ltb_trans _ _ _ Hle H)) as K.
    now rewrite Hirr in K.
  - (* degraded, then improved *)
    destruct (proj1 A3 eq_refl) as [H1 _]. pose proof (proj1 B1 eq_refl) as H.
    pose proof (Htr _ _ _ (Htr _ _ _ H1 (leb_ltb_trans _ _ _ Hle H))
                  zero_below_tenth) as K.
    now rewrite Hirr in K.
  - (* degraded, then stable *)
    destruct (proj1 A3 eq_refl) as [H1 _]. destruct (proj1 B2 eq_refl) as [_ H].
    pose proof (ltb_leb_trans _ _ _ (ltb_leb_trans _ _ _ H1 Hle) H) as K.
    now rewrite Hirr in K.
  - (* severely degraded, then improved *)
    pose proof (proj1 A4 eq_refl) as H2. pose proof (proj1 B1 eq_refl) as H.
    pose proof (Htr _ _ _ (Htr _ _ _ (Htr _ _ _ H2 (leb_ltb_trans _ _ _ Hle H))
                             zero_below_tenth) tenth_below_fifth) as K.
    now rewrite Hirr in K.
  - (* severely degraded, then stable *)
    pose proof (proj1 A4 eq_refl) as H2. destruct (proj1 B2 eq_refl) as [_ H].
    pose proof (Htr _ _ _ (ltb_leb_trans _ _ _ (ltb_leb_trans _ _ _ H2 Hle) H)
                  tenth_below_fifth) as K.
    now rewrite Hirr in K.
  - (* severely degraded, then degraded *)
    pose proof (proj1 A4 eq_refl) as H2. destruct (proj1 B3 eq_refl) as [_ H].
    pose proof (ltb_leb_trans _ _ _ (ltb_leb_trans _ _ _ H2 Hle) H) as K.
    now rewrite Hirr in K.
Qed.

End CategoryOrder.

Section FloatMixedOrder.

Import SpecFloat FloatOrder.

Lemma float_leb_true (x y : float) :
  PrimFloat.leb x y = true ->
  isNan (Prim2SF x) = false /\ isNan (Prim2SF y) = false
  /\ ~ lexlt (key (Prim2SF y)) (key (Prim2SF x)).
Proof.
  intros H.
  destruct (isNan (Prim2SF x)) eqn:Ex.
  { rewrite leb_spec in H. unfold SFleb in H.
    rewrite SFcompare_nan in H by now left. discriminate H. }
  destruct (isNan (Prim2SF y)) eqn:Ey.
  { rewrite leb_spec in H. unfold SFleb in H.
    rewrite SFcompare_nan in H by now right. discriminate H. }
  repeat split. now apply (float_leb_iff x y Ex Ey).
Qed.

Lemma float_leb_ltb_trans (x y z : float) :
  PrimFloat.leb x y = true -> PrimFloat.ltb y z = true ->
  PrimFloat.ltb x z = true.
Proof.
  intros H1 H2. apply float_leb_true in H1 as (Hx & Hy & H1).
  apply float_ltb_iff in H2 as (_ & Hz & H2).
  apply float_ltb_iff. repeat split; try assumption.
  destruct (key (Prim2SF x)) as [[a1 a2] a3],
           (key (Prim2SF y)) as [[b1 b2] b3],
           (key (Prim2SF z)) as [[c1 c2] c3].
  cbn in *. lia.
Qed.

Lemma float_ltb_leb_trans (x y z : float) :
  PrimFloat.ltb x y = true -> PrimFloat.leb y z = true ->
  PrimFloat.ltb x z = true.
Proof.
  intros H1 H2. apply float_leb_true in H2 as (Hy & Hz & H2).
  apply float_ltb_iff in H1 as (Hx & _ & H1).
  apply float_ltb_iff. repeat split; try assumption.
  destruct (key (Prim2SF x)) as [[a1 a2] a3],
           (key (Prim2SF y)) as [[b1 b2] b3],
           (key (Prim2SF z)) as [[c1 c2] c3].
  cbn in *. lia.
Qed.

End FloatMixedOrder.

(** X9: the category never gets milder as the score grows: for two scores
    with the first at most the second, the label of the first comes no later
    than the label of the second in the order improved, stable, degraded,
    severely_degraded; on the exact reals and on binary64. *)
Theorem getRiskCategory_order :
  (forall r1 r2 : R,
      (r1 <= r2)%R ->
      (ScorerSpec.rank (XGBoostPredictor.getRiskCategory (XR r1))
       <= ScorerSpec.rank (XGBoostPredictor.getRiskCategory (XR r2)))%nat)
  /\ (forall s1 s2 : float,
         PrimFloat.leb s1 s2 = true ->
         (ScorerSpec.rank (XGBoostPredictor.getRiskCategory s1)
          <= ScorerSpec.rank (XGBoostPredictor.getRiskCategory s2))%nat).
Proof.
  split.
  - intros r1 r2 Hr.
    assert (E0 : (lit 0 0 : xreal) = XR 0) by apply exact_lit0.
    assert (E1 : (lit 1 (-1) : xreal) = XR (1 / 10)) by reflexivity.
    assert (E2 : (lit 2 (-1) : xreal) = XR (2 / 10)) by reflexivity.
    apply (getRiskCategory_monotone exact_laws).
    + rewrite E0, E1. apply exact_ltb_iff. lra.
    + rewrite E1, E2. apply exact_ltb_iff. lra.
    + intros [ | x] [ | y]; cbn; try discriminate. now split.
    + intros [ | x] [ | y] [ | z]; cbn; try discriminate.
      destruct (Rle_dec x y), (Rlt_dec y z), (Rlt_dec x z);
        intros; try reflexivity; try discriminate; lra.
    + intros [ | x] [ | y] [ | z]; cbn; try discriminate.
      destruct (Rlt_dec x y), (Rle_dec y z), (Rlt_dec x z);
        intros; try reflexivity; try discriminate; lra.
    + now apply exact_leb_iff.
  - intros s1 s2 Hs.
    apply (getRiskCategory_monotone float_laws); try reflexivity;
      try exact Hs.
    + intros x y H. apply float_leb_true in H as (Hx & Hy & _).
      cbn. now rewrite !is_nan_spec.
    + exact float_leb_ltb_trans.
    + exact float_ltb_leb_trans.
Qed.

Lemma float_leb_nan_l (x c : float) :
  PrimFloat.is_nan x = true -> PrimFloat.leb x c = false.
Proof.
  intros Hx. destruct (PrimFloat.leb x c) eqn:E; [ | reflexivity ].
  apply float_leb_true in E as (H & _). rewrite is_nan_spec in Hx. congruence.
Qed.

(** X10: a score that is NaN fails every comparison of getRiskCategory and
    is labelled severely_degraded; on binary64 and on the exact reals. *)
Theorem getRiskCategory_NaN :
  (forall s : float,
      PrimFloat.is_nan s = true ->
      XGBoostPredictor.getRiskCategory s = XGBoostPredictor.SEVERELY_DEGRADED)
  /\ XGBoostPredictor.getRiskCategory XNaN = XGBoostPredictor.SEVERELY_DEGRADED.
Proof.
  split; [ | reflexivity ].
  intros s Hs. unfold XGBoostPredictor.getRiskCategory. cbn [ltb leb IEEE.number].
  now rewrite (float_ltb_nan_l s _ Hs), !(float_leb_nan_l s _ Hs).
Qed.

(* ================================================================== *)
(** * Further properties of the scorer: the range of calibrated scores *)
(* ================================================================== *)

Section CalibrationRange.

Import XGBoostPredictor ScorerSpec SpecFloat FloatOrder.

Lemma exact_train_constants :
  (TRAIN_MEAN : xreal) = XR (-11 / 1000)
  /\ (TRAIN_STD : xreal) = XR (82 / 1000)
  /\ sub TRAIN_MIN (lit 1 (-1)) = XR (-631 / 1000)
  /\ add TRAIN_MAX (lit 1 (-1)) = XR (666 / 1000).
Proof.
  repeat split; cbn; f_equal; lra.
Qed.

Lemma float_ltb_leb (x y : float) :
  PrimFloat.ltb x y = true -> PrimFloat.leb x y = true.
Proof.
  intros H. apply float_ltb_iff in H as (Hx & Hy & H).
  apply (float_leb_iff x y Hx Hy).
  destruct (key (Prim2SF x)) as [[a1 a2] a3],
           (key (Prim2SF y)) as [[b1 b2] b3].
  cbn in *. lia.
Qed.

(** The two bounds of the clipping, on binary64. *)
Lemma float_clip_bounds :
  (clipLow : float) = (-0.63100000000000001)%float
  /\ (clipHigh : float) = 0.66599999999999993%float.
Proof. split; vm_compute; reflexivity. Qed.

Lemma float_clip_range (scaled : float) :
  inClipRange (Math_max clipLow (Math_min clipHigh scaled)).
Proof.
  destruct float_clip_bounds as [Elo Ehi]. rewrite Elo, Ehi.
  unfold inClipRange. rewrite Elo, Ehi.
  cbn [Math_max Math_min isNaN leb IEEE.number].
  unfold IEEE.min, IEEE.anyNaN.
  change (PrimFloat.is_nan 0.66599999999999993%float) with false.
  change (PrimFloat.is_zero 0.66599999999999993%float) with false.
  cbn [orb].
  destruct (PrimFloat.is_nan scaled) eqn:En; [ now left | ].
  destruct (PrimFloat.ltb 0.66599999999999993%float scaled) eqn:E1;
    [ right; split; vm_compute; reflexivity | ].
  destruct (PrimFloat.ltb scaled 0.66599999999999993%float) eqn:E2;
    [ | right; split; vm_compute; reflexivity ].
  unfold IEEE.max, IEEE.anyNaN. rewrite En.
  change (PrimFloat.is_nan (-0.63100000000000001)%float) with false.
  change (PrimFloat.is_zero (-0.63100000000000001)%float) with false.
  cbn [orb]. right.
  destruct (PrimFloat.ltb (-0.63100000000000001)%float scaled) eqn:E3.
  { split; now apply float_ltb_leb. }
  destruct (PrimFloat.ltb scaled (-0.63100000000000001)%float) eqn:E4;
    split; vm_compute; reflexivity.
Qed.

Lemma exact_clip_range (scaled : xreal) :
  inClipRange (Math_max clipLow (Math_min clipHigh scaled)).
Proof.
  unfold inClipRange, clipLow, clipHigh.
  destruct exact_train_constants as (_ & _ & -> & ->).
  destruct scaled as [ | x]; [ now left | right ].
  cbn [Math_max Math_min leb Exact.number Exact.lift2 Exact.leb].
  split.
  - destruct (Rle_dec _ _) as [ _ | H]; [ reflexivity | ].
    exfalso. apply H. apply Rmax_l.
  - destruct (Rle_dec _ _) as [ _ | H]; [ reflexivity | ].
    exfalso. apply H. apply Rmax_lub; [ lra | apply Rmin_l ].
Qed.

Lemma calibrate_range_gen {num : Type} {N : JsNumber num} (ps : list num) :
  (forall scaled : num,
      inClipRange (Math_max clipLow (Math_min clipHigh scaled))) ->
  inClipRange (TRAIN_MEAN : num) ->
  Forall inClipRange (calibratePredictions ps).
Proof.
  intros Hclip Hmean. unfold calibratePredictions.
  destruct (gtb _ _); apply Forall_forall; intros y Hy;
    apply in_map_iff in Hy as (p & <- & _); [ apply Hclip | exact Hmean ].
Qed.

(** X11: every calibrated score of a batch is NaN or lies between the two
    bounds of the clipping, the range of the training data widened by 0.1 on
    each side, whatever the raw scores are (NaN and the infinities
    included), whatever the size of the batch and whether or not the raw
    scores differ; and there is one calibrated score per raw score.  On
    binary64 the bounds are the doubles -0.63100000000000001 and
    0.66599999999999993; on the exact reals they are -0.631 and 0.666. *)
Theorem calibratePredictions_range :
  (forall ps : list float,
      Forall inClipRange (calibratePredictions ps)
      /\ List.length (calibratePredictions ps) = List.length ps)
  /\ (forall ps : list xreal,
         Forall inClipRange (calibratePredictions ps)
         /\ List.length (calibratePredictions ps) = List.length ps)
  /\ (clipLow : float) = (-0.63100000000000001)%float
  /\ (clipHigh : float) = 0.66599999999999993%float
  /\ (clipLow : xreal) = XR (-631 / 1000)
  /\ (clipHigh : xreal) = XR (666 / 1000).
Proof.
  split; [ | split; [ | split; [ | split; [ | split ] ] ] ].
  - intros ps. split; [ | apply calibratePredictions_length ].
    apply calibrate_range_gen; [ exact float_clip_range | ].
    right. split; vm_compute; reflexivity.
  - intros ps. split; [ | apply calibratePredictions_length ].
    apply calibrate_range_gen; [ exact exact_clip_range | ].
    right. unfold clipLow, clipHigh.
    destruct exact_train_constants as (-> & _ & -> & ->).
    cbn [leb Exact.number Exact.leb].
    split; (destruct (Rle_dec _ _) as [ _ | H]; [ reflexivity | lra ]).
  - apply float_clip_bounds.
  - apply float_clip_bounds.
  - apply exact_train_constants.
  - apply exact_train_constants.
Qed.

End CalibrationRange.

(* ================================================================== *)
(** * Further properties of the scorer: a batch with a NaN raw score *)
(* ================================================================== *)

Section NaNBatch.
Context {num : Type} {N : JsNumber num}.

Import XGBoostPredictor.

Hypothesis add_NaN_l : forall x y : num, isNaN x = true -> isNaN (add x y) = true.
Hypothesis add_NaN_r : forall x y : num, isNaN y = true -> isNaN (add x y) = true.
Hypothesis sub_NaN_r : forall x y : num, isNaN y = true -> isNaN (sub x y) = true.
Hypothesis mul_NaN_l : forall x y : num, isNaN x = true -> isNaN (mul x y) = true.
Hypothesis div_NaN_l : forall x y : num, isNaN x = true -> isNaN (div x y) = true.
Hypothesis sqrt_NaN : forall x : num, isNaN x = true -> isNaN (Math_sqrt x) = true.
Hypothesis ltb_NaN_r : forall x y : num, isNaN y = true -> ltb x y = false.

Lemma fold_add_NaN_acc (f : num -> num) (ps : list num) :
  forall a, isNaN a = true ->
            isNaN (fold_left (fun s p => add s (f p)) ps a) = true.
Proof.
  induction ps as [ | p ps IH]; intros a Ha; cbn; [ exact Ha | ].
  apply IH. now apply add_NaN_l.
Qed.

Lemma fold_add_NaN_term (f : num -> num) (ps : list num) :
  existsb (fun p => isNaN (f p)) ps = true ->
  forall a, isNaN (fold_left (fun s p => add s (f p)) ps a) = true.
Proof.
  induction ps as [ | p ps IH]; intros H a; cbn in *; [ discriminate | ].
  apply orb_true_iff in H as [H | H].
  - apply fold_add_NaN_acc. now apply add_NaN_r.
  - now apply IH.
Qed.

Lemma calibrate_NaN_batch (ps : list num) :
  existsb isNaN ps = true ->
  calibratePredictions ps = map (fun _ => TRAIN_MEAN) ps.
Proof.
  intros H. unfold calibratePredictions.
  set (rawMean := div (sum ps) (lengthNum ps)).
  assert (Hmean : isNaN rawMean = true).
  { apply div_NaN_l. unfold sum.
    change (fold_left add ps (lit 0 0))
      with (fold_left (fun s p => add s ((fun q => q) p)) ps (lit 0 0)).
    now apply fold_add_NaN_term. }
  assert (Hstd : gtb (Math_sqrt
                        (div (fold_left
                                (fun acc pred =>
                                   add acc (Math_pow2 (sub pred rawMean)))
                                ps (lit 0 0))
                             (lengthNum ps)))
                     (lit 0 0) = false).
  { unfold gtb. apply ltb_NaN_r, sqrt_NaN, div_NaN_l.
    apply (fold_add_NaN_term (fun pred => Math_pow2 (sub pred rawMean))).
    destruct ps as [ | p ps]; [ discriminate | ].
    cbn [existsb]. unfold Math_pow2.
    now rewrite mul_NaN_l by now apply sub_NaN_r. }
  now rewrite Hstd.
Qed.

End NaNBatch.

Section FloatNaN.

Import SpecFloat FloatOrder.

Lemma float_is_nan_iff (x : float) :
  PrimFloat.is_nan x = true <-> Prim2SF x = S754_nan.
Proof.
  rewrite is_nan_spec. destruct (Prim2SF x); cbn; split; congruence.
Qed.

Lemma float_add_nan_l (x y : float) :
  PrimFloat.is_nan x = true -> PrimFloat.is_nan (x + y) = true.
Proof.
  rewrite !float_is_nan_iff, add_spec. intros ->. reflexivity.
Qed.

Lemma float_add_nan_r (x y : float) :
  PrimFloat.is_nan y = true -> PrimFloat.is_nan (x + y) = true.
Proof.
  rewrite !float_is_nan_iff, add_spec. intros ->. now destruct (Prim2SF x).
Qed.

Lemma float_sub_nan_r (x y : float) :
  PrimFloat.is_nan y = true -> PrimFloat.is_nan (x - y) = true.
Proof.
  rewrite !float_is_nan_iff, sub_spec. intros ->. now destruct (Prim2SF x).
Qed.

Lemma float_mul_nan_l (x y : float) :
  PrimFloat.is_nan x = true -> PrimFloat.is_nan (x * y) = true.
Proof.
  rewrite !float_is_nan_iff, mul_spec. intros ->. reflexivity.
Qed.

Lemma float_div_nan_l (x y : float) :
  PrimFloat.is_nan x = true -> PrimFloat.is_nan (x / y) = true.
Proof.
  rewrite !float_is_nan_iff, div_spec. intros ->. reflexivity.
Qed.

Lemma float_sqrt_nan (x : float) :
  PrimFloat.is_nan x = true -> PrimFloat.is_nan (PrimFloat.sqrt x) = true.
Proof.
  rewrite !float_is_nan_iff, sqrt_spec. intros ->. reflexivity.
Qed.

Lemma float_ltb_nan_r (x y : float) :
  PrimFloat.is_nan y = true -> PrimFloat.ltb x y = false.
Proof.
  intros Hy. destruct (PrimFloat.ltb x y) eqn:E; [ | reflexivity ].
  apply float_ltb_iff in E as (_ & H & _). rewrite is_nan_spec in Hy.
  congruence.
Qed.

End FloatNaN.

(** X14: one NaN among the raw scores of a batch makes the standard
    deviation of the batch NaN, the test [rawStd > 0] fail, and every file of
    the batch, whatever its own raw score, get the reference mean -0.011 as
    its calibrated score and hence the label improved; on binary64 and on the
    exact reals. *)
Theorem calibratePredictions_NaN_batch :
  (forall ps : list float,
      existsb PrimFloat.is_nan ps = true ->
      XGBoostPredictor.calibratePredictions ps
      = map (fun _ => XGBoostPredictor.TRAIN_MEAN) ps)
  /\ (forall ps : list xreal,
         In XNaN ps ->
         XGBoostPredictor.calibratePredictions ps
         = map (fun _ => XGBoostPredictor.TRAIN_MEAN) ps)
  /\ XGBoostPredictor.getRiskCategory
       (XGBoostPredictor.TRAIN_MEAN : float) = XGBoostPredictor.IMPROVED
  /\ XGBoostPredictor.getRiskCategory
       (XGBoostPredictor.TRAIN_MEAN : xreal) = XGBoostPredictor.IMPROVED.
Proof.
  split; [ | split; [ | split ] ].
  - intros ps H. apply calibrate_NaN_batch; try exact H.
    + exact float_add_nan_l.
    + exact float_add_nan_r.
    + exact float_sub_nan_r.
    + exact float_mul_nan_l.
    + exact float_div_nan_l.
    + exact float_sqrt_nan.
    + exact float_ltb_nan_r.
  - intros ps H. apply calibrate_NaN_batch.
    + intros [ | x] y; [ reflexivity | discriminate ].
    + intros [ | x] [ | y]; try reflexivity; discriminate.
    + intros [ | x] [ | y]; try reflexivity; discriminate.
    + intros [ | x] y; [ reflexivity | discriminate ].
    + intros [ | x] y; [ reflexivity | discriminate ].
    + intros [ | x]; [ reflexivity | discriminate ].
    + intros [ | x] [ | y]; try reflexivity; discriminate.
    + apply existsb_exists. exists XNaN. now split.
  - vm_compute. reflexivity.
  - unfold XGBoostPredictor.getRiskCategory.
    destruct exact_train_constants as (-> & _). rewrite exact_lit0.
    cbn. destruct (Rlt_dec (-11 / 1000) 0) as [ _ | H]; [ reflexivity | lra ].
Qed.

(* ================================================================== *)
(** * Further properties of the collector: the records it emits *)
(* ================================================================== *)

Section CollectorInvariants.

Import GitCommitCollector OutputSpec.

Variable onlyExistingFiles : bool.
Variable existsSync : string -> bool.

(** The map of FileStats changes only by [updateOrCreateFileStats], called
    on a path that is a source file and, when only existing files are kept,
    exists. *)
Lemma processFileStat_fileStats (P : list (string * FileStats) -> Prop) :
  (forall fs path added removed author d b f r,
      P fs -> isSourceFile path = true ->
      (onlyExistingFiles = true -> existsSync path = true) ->
      P (updateOrCreateFileStats path fs added removed author d b f r)) ->
  forall st line,
    P (fileStats st) ->
    P (fileStats (processFileStat onlyExistingFiles existsSync st line)).
Proof.
  intros Hstep st line Hst. unfold processFileStat.
  destruct (Js.split line _) as [ | p0 [ | p1 [ | raw rest']]]; try assumption.
  destruct (parseRenameInfo raw) as [info | ]; [ | assumption ].
  cbv zeta.
  destruct (isSourceFile _) eqn:Esrc; cbn [negb]; [ | assumption ].
  destruct onlyExistingFiles eqn:Eonly; cbn [andb].
  - destruct (existsSync _) eqn:Eex; cbn [negb]; [ | assumption ].
    cbn [fileStats withMaps]. apply Hstep; auto.
  - cbn [fileStats withMaps]. apply Hstep; auto. discriminate.
Qed.

Lemma processLines_fileStats (P : list (string * FileStats) -> Prop) :
  (forall fs path added removed author d b f r,
      P fs -> isSourceFile path = true ->
      (onlyExistingFiles = true -> existsSync path = true) ->
      P (updateOrCreateFileStats path fs added removed author d b f r)) ->
  forall lines st st',
    P (fileStats st) ->
    processLines onlyExistingFiles existsSync st lines = Ok st' ->
    P (fileStats st').
Proof.
  intros Hstep. induction lines as [ | line lines IH]; intros st st' Hst; cbn.
  - now intros [= <-].
  - destruct (processLine onlyExistingFiles existsSync st line)
      as [st1 | e | ] eqn:E; cbn; try discriminate.
    apply IH. unfold processLine in E.
    destruct (Js.includes line "|").
    + unfold processHeader in E.
      destruct (Js.split line "|") as [ | h [ | a [ | ts [ | msg rest']]]];
        try discriminate.
      injection E as <-. exact Hst.
    + destruct (Js.test numstatPattern line); injection E as <-;
        [ now apply processFileStat_fileStats | exact Hst ].
Qed.

Lemma setAdd_NoDup (x : string) (s : list string) :
  NoDup s -> NoDup (setAdd x s).
Proof.
  intros H. unfold setAdd. destruct (existsb (String.eqb x) s) eqn:E;
    [ exact H | ].
  apply NoDup_app; [ exact H | repeat constructor; intros [] | ].
  intros y Hy [Exy | []]. subst y.
  assert (K : existsb (String.eqb x) s = true).
  { apply existsb_exists. exists x. split; [ exact Hy | apply String.eqb_refl ]. }
  congruence.
Qed.

Lemma setAdd_length (x : string) (s : list string) :
  (List.length (setAdd x s) <= S (List.length s))%nat.
Proof.
  unfold setAdd. destruct (existsb _ s); [ lia | ].
  rewrite length_app. cbn. lia.
Qed.

Lemma setAdd_nonempty (x : string) (s : list string) : setAdd x s <> [].
Proof.
  unfold setAdd. destruct s as [ | y s]; [ discriminate | ].
  destruct (existsb _ _); discriminate.
Qed.

Lemma updateOrCreateFileStats_statsOk fs path added removed author d b f r :
  Forall (fun e => statsOk (snd e)) fs ->
  Forall (fun e => statsOk (snd e))
         (updateOrCreateFileStats path fs added removed author d b f r).
Proof.
  intros Hall. unfold updateOrCreateFileStats.
  destruct (mapGet path fs) as [s | ] eqn:E.
  - apply mapSet_Forall; [ exact Hall | intros k'; cbn [snd] ].
    destruct (mapGet_In _ _ _ E) as [k Hin].
    rewrite Forall_forall in Hall. specialize (Hall _ Hin). cbn [snd] in Hall.
    destruct Hall as (H1 & H2 & H3 & H4 & H5 & H6 & H7).
    unfold statsOk; cbn.
    pose proof (setAdd_length author (authors s)).
    repeat split; try lia.
    + apply setAdd_nonempty.
    + now apply setAdd_NoDup.
    + destruct b; cbn; lia.
    + destruct b; cbn; lia.
    + destruct f; cbn; lia.
    + destruct f; cbn; lia.
    + destruct r; cbn; lia.
    + destruct r; cbn; lia.
  - apply mapSet_Forall; [ exact Hall | intros k'; cbn [snd] ].
    unfold statsOk; cbn.
    split; [ lia | ]. split; [ discriminate | ].
    split; [ constructor; [ intros [] | constructor ] | ].
    split; [ lia | ].
    destruct b, f, r; lia.
Qed.

Lemma ratio_unit_interval (a b : Z) :
  0 <= a <= b -> 1 <= b -> (0 <= ratio a b <= 1)%Q.
Proof.
  intros Ha Hb. unfold ratio. destruct b as [ | p | p]; try lia.
  unfold Qle, Qdiv, Qmult, Qinv, inject_Z; cbn. split; nia.
Qed.

Lemma toCommitData_recordOk repoName path (s : FileStats) :
  statsOk s -> recordOk (toCommitData repoName path s).
Proof.
  intros (H1 & H2 & H3 & H4 & H5 & H6 & H7).
  assert (Hn : 1 <= Z.of_nat (List.length (authors s))).
  { destruct (authors s); [ congruence | cbn; lia ]. }
  unfold recordOk, toCommitData; cbn.
  assert (E1 : (0 <? Z.of_nat (List.length (authors s))) = true)
    by (apply Z.ltb_lt; lia).
  assert (E2 : (0 <? commits s) = true) by (apply Z.ltb_lt; lia).
  rewrite E1, E2.
  repeat split; try lia; try assumption; try reflexivity;
    apply ratio_unit_interval; lia.
Qed.

Lemma processLines_statsOk now (lines : list string) (st : LoopState) :
  processLines onlyExistingFiles existsSync (initialState now) lines = Ok st ->
  Forall (fun e => statsOk (snd e)) (fileStats st).
Proof.
  intros E.
  apply (processLines_fileStats (Forall (fun e => statsOk (snd e))))
    with (lines := lines) (st := initialState now).
  - intros fs path added removed author d b f r Hfs _ _.
    now apply updateOrCreateFileStats_statsOk.
  - constructor.
  - exact E.
Qed.

(** X15: the counters of every record the collector emits are consistent:
    at least one commit; at least one author and no more authors than
    commits, each named once; bug, feature and refactor commits between 0 and
    the number of commits; churn the sum of the added and deleted lines.  So
    the three ratios are true quotients (the value 0 the source keeps for a
    zero denominator is never used) and bug_ratio lies between 0 and 1. *)
Theorem fetchCommitData_counters repoName now (logOutput : string)
  (out : list CommitData) :
  fetchCommitData repoName onlyExistingFiles existsSync now logOutput = Ok out ->
  Forall recordOk out.
Proof.
  unfold fetchCommitData. intros Hrun.
  destruct (processLines _ _ _ _) as [st | e | ] eqn:E; cbn in Hrun;
    try discriminate.
  injection Hrun as <-.
  apply Forall_map.
  eapply Forall_impl; [ | exact (processLines_statsOk now _ st E) ].
  intros [path s] Hs. now apply toCommitData_recordOk.
Qed.

Lemma mapSet_keys {V : Type} (k : string) (v : V) (m : list (string * V)) :
  map fst (mapSet k v m)
  = match mapGet k m with
    | Some _ => map fst m
    | None => (map fst m ++ [k])%list
    end.
Proof.
  induction m as [ | [k' v'] m IH]; cbn; [ reflexivity | ].
  destruct (String.eqb k k') eqn:E; cbn; [ reflexivity | ].
  rewrite IH. now destruct (mapGet k m).
Qed.

Lemma mapGet_None_keys {V : Type} (k : string) (m : list (string * V)) :
  mapGet k m = None -> ~ In k (map fst m).
Proof.
  induction m as [ | [k' v'] m IH]; cbn; [ tauto | ].
  destruct (String.eqb k k') eqn:E; [ discriminate | ].
  intros H [K | K].
  - subst k'. now rewrite String.eqb_refl in E.
  - now apply IH.
Qed.

Lemma updateOrCreateFileStats_keys fs path added removed author d b f r :
  map fst (updateOrCreateFileStats path fs added removed author d b f r)
  = match mapGet path fs with
    | Some _ => map fst fs
    | None => (map fst fs ++ [path])%list
    end.
Proof.
  unfold updateOrCreateFileStats.
  destruct (mapGet path fs) eqn:E; rewrite mapSet_keys, E; reflexivity.
Qed.

(** X16: the records the collector emits are one per file: their modules
    are pairwise different, the extension of each is one of the source
    extensions and, when only existing files are kept, each exists in the
    working tree; filename repeats the module and repo_name is the name of
    the repository. *)
Theorem fetchCommitData_modules repoName now (logOutput : string)
  (out : list CommitData) :
  fetchCommitData repoName onlyExistingFiles existsSync now logOutput = Ok out ->
  NoDup (map module out)
  /\ Forall (fun r => filename r = module r
                      /\ repo_name r = repoName
                      /\ isSourceFile (module r) = true
                      /\ (onlyExistingFiles = true
                          -> existsSync (module r) = true)) out.
Proof.
  unfold fetchCommitData. intros Hrun.
  destruct (processLines _ _ _ _) as [st | e | ] eqn:E; cbn in Hrun;
    try discriminate.
  injection Hrun as <-.
  set (P := fun fs : list (string * FileStats) =>
              NoDup (map fst fs)
              /\ Forall (fun k => isSourceFile k = true
                                  /\ (onlyExistingFiles = true
                                      -> existsSync k = true)) (map fst fs)).
  assert (HP : P (fileStats st)).
  { apply (processLines_fileStats P)
      with (lines := logLines logOutput) (st := initialState now).
    - intros fs path added removed author d b f r [Hnd Hall] Hsrc Hex.
      unfold P. rewrite updateOrCreateFileStats_keys.
      destruct (mapGet path fs) eqn:Eg; [ now split | ].
      split.
      + apply NoDup_app; [ exact Hnd | repeat constructor; intros [] | ].
        intros y Hy [Exy | []]. subst y.
        now apply (mapGet_None_keys _ _ Eg).
      + apply Forall_app. split; [ exact Hall | now repeat constructor ].
    - split; constructor.
    - exact E. }
  destruct HP as [Hnd Hall]. split.
  - rewrite map_map.
    replace (map (fun x => module (let '(filepath, stats) := x in
                                    toCommitData repoName filepath stats))
                 (fileStats st))
      with (map fst (fileStats st)); [ exact Hnd | ].
    apply map_ext. now intros [path s].
  - apply Forall_map. rewrite Forall_map in Hall.
    eapply Forall_impl; [ | exact Hall ].
    intros [path s] [H1 H2]. cbn in *. now repeat split.
Qed.

End CollectorInvariants.

Lemma fetchCommitData_counters_witness :
  exists out,
    GitCommitCollector.fetchCommitData "repo" false (fun _ => true) 0
      Samples.testLogSameFile = Ok out
    /\ Forall OutputSpec.recordOk out.
Proof.
  eexists. split; [ vm_compute; reflexivity | ].
  apply (fetchCommitData_counters false (fun _ => true) "repo" 0
           Samples.testLogSameFile).
  vm_compute. reflexivity.
Defined.

Lemma fetchCommitData_modules_witness :
  exists out,
    GitCommitCollector.fetchCommitData "repo" true (fun _ => true) 0
      Samples.testLogTwoFiles = Ok out
    /\ NoDup (map GitCommitCollector.module out).
Proof.
  eexists. split; [ vm_compute; reflexivity | ].
  apply (fetchCommitData_modules true (fun _ => true) "repo" 0
           Samples.testLogTwoFiles).
  vm_compute. reflexivity.
Defined.

(* ================================================================== *)
(** * Further properties of the collector: when it fails *)
(* ================================================================== *)

Section CollectorFailure.

Import GitCommitCollector OutputSpec.

Variable onlyExistingFiles : bool.
Variable existsSync : string -> bool.

Lemma processLine_headerOk (st : LoopState) (line : string) :
  if headerOk line
  then exists st', processLine onlyExistingFiles existsSync st line = Ok st'
  else processLine onlyExistingFiles existsSync st line = Throw headerError.
Proof.
  unfold headerOk, processLine, processHeader.
  destruct (Js.includes line "|"); cbn [negb orb].
  - destruct (Js.split line "|") as [ | h [ | a [ | ts [ | msg rest']]]];
      cbn; try reflexivity.
    now eexists.
  - destruct (Js.test numstatPattern line); now eexists.
Qed.

Lemma processLines_headerOk (lines : list string) :
  forall st,
    if forallb headerOk lines
    then exists st', processLines onlyExistingFiles existsSync st lines = Ok st'
    else processLines onlyExistingFiles existsSync st lines = Throw headerError.
Proof.
  induction lines as [ | line lines IH]; intros st; cbn [forallb processLines].
  - now eexists.
  - pose proof (processLine_headerOk st line) as H.
    destruct (headerOk line); cbn [andb].
    + destruct H as [st1 ->]. cbn [bind]. apply IH.
    + now rewrite H.
Qed.

(** X17: the only way fetchCommitData fails on the output of the log
    command is the TypeError of a header with fewer than four fields: it
    returns a list of records when every line that contains a vertical bar
    splits at the bars into at least four pieces, and it throws that
    TypeError otherwise, for instance on the stat line of a file whose name
    contains a vertical bar. *)
Theorem fetchCommitData_failure repoName now (logOutput : string) :
  (forallb headerOk (logLines logOutput) = true ->
   exists out,
     fetchCommitData repoName onlyExistingFiles existsSync now logOutput
     = Ok out)
  /\ (forallb headerOk (logLines logOutput) = false ->
      fetchCommitData repoName onlyExistingFiles existsSync now logOutput
      = Throw headerError)
  /\ headerOk (Samples.numstat "10" "5" "src/a|b.ts") = false.
Proof.
  pose proof (processLines_headerOk (logLines logOutput) (initialState now)) as H.
  unfold fetchCommitData. split; [ | split ].
  - intros E. rewrite E in H. destruct H as [st ->]. cbn. now eexists.
  - intros E. rewrite E in H. now rewrite H.
  - vm_compute. reflexivity.
Qed.

End CollectorFailure.

(* ================================================================== *)
(** * Further properties of the collector: paths and renames *)
(* ================================================================== *)

Section RenameInfo.

Import GitCommitCollector OutputSpec.

Lemma finishRename_Some (p : string) (o : option string) (info : RenameInfo) :
  finishRename p o = Some info ->
  info = {| currentPath := p; oldPath := o |} /\ noRenameMark p = true.
Proof.
  unfold finishRename, noRenameMark.
  destruct (Js.includes p "=>"), (Js.includes p "{"), (Js.includes p "}");
    cbn; try discriminate.
  intros [= <-]. now split.
Qed.

(** X18: parseRenameInfo never returns a current path with a mark of a
    rename left in it: whenever it returns a path, that path contains
    neither "=>" nor a brace; and it returns nothing for the empty path, for
    /dev/null and for a path that contains a NUL character. *)
Theorem parseRenameInfo_current_path (filepath : string) :
  (forall info,
      parseRenameInfo filepath = Some info ->
      noRenameMark (currentPath info) = true
      /\ filepath <> EmptyString /\ filepath <> "/dev/null"
      /\ Js.includes filepath NUL = false)
  /\ (filepath = EmptyString \/ filepath = "/dev/null"
      \/ Js.includes filepath NUL = true ->
      parseRenameInfo filepath = None).
Proof.
  split.
  - intros info. unfold parseRenameInfo.
    destruct (String.length filepath =? 0)%nat eqn:E0; [ discriminate | ].
    destruct (String.eqb filepath "/dev/null") eqn:E1; [ discriminate | ].
    destruct (Js.includes filepath NUL) eqn:E2; [ discriminate | ].
    cbn [orb]. intros H.
    assert (Hmark : noRenameMark (currentPath info) = true).
    { repeat match type of H with
             | (if ?c then _ else _) = _ => destruct c
             | match ?c with _ => _ end = _ => destruct c
             | None = Some _ => discriminate H
             end;
        apply finishRename_Some in H as [-> Hm]; exact Hm. }
    repeat split; try assumption.
    + intros ->. discriminate E0.
    + intros ->. discriminate E1.
  - intros [-> | [-> | H]]; try reflexivity.
    unfold parseRenameInfo. rewrite H. now rewrite !orb_true_r.
Qed.

Lemma prefix_tail (c : ascii) (t s : string) :
  String.prefix (String c t) s = true ->
  exists s', s = String c s' /\ String.prefix t s' = true.
Proof.
  destruct s as [ | d s']; cbn; [ discriminate | ].
  destruct (ascii_dec c d) as [-> | ]; [ | discriminate ].
  intros H. now exists s'.
Qed.

Lemma includes_prefix (s t : string) :
  String.prefix t s = true -> Js.includes s t = true.
Proof. intros H. destruct s; cbn in *; now rewrite H. Qed.

Lemma includes_cons (d : ascii) (s t : string) :
  Js.includes s t = true -> Js.includes (String d s) t = true.
Proof.
  intros H. cbn [Js.includes].
  destruct (String.prefix t (String d s)); [ reflexivity | exact H ].
Qed.

(** A text that contains [String c t] contains [t]. *)
Lemma includes_tail (c : ascii) (t : string) (s : string) :
  Js.includes s (String c t) = true -> Js.includes s t = true.
Proof.
  induction s as [ | d s IH].
  - cbn. discriminate.
  - intros H. cbn [Js.includes] in H.
    destruct (String.prefix (String c t) (String d s)) eqn:E.
    + apply prefix_tail in E as (s' & Es & Hp). injection Es as _ <-.
      apply includes_cons. now apply includes_prefix.
    + apply includes_cons. now apply IH.
Qed.

(** X19: a path with no mark of a rename is returned as it is, trimmed,
    with no old path: for every path that is not empty, is not /dev/null,
    holds no NUL character and, once trimmed, contains neither "=>" nor a
    brace, parseRenameInfo returns the trimmed path and a null oldPath. *)
Theorem parseRenameInfo_plain_path (filepath : string) :
  filepath <> EmptyString -> filepath <> "/dev/null" ->
  Js.includes filepath NUL = false ->
  noRenameMark (Js.trim filepath) = true ->
  parseRenameInfo filepath
  = Some {| currentPath := Js.trim filepath; oldPath := None |}.
Proof.
  intros H0 H1 H2 Hm. unfold parseRenameInfo.
  assert (E0 : (String.length filepath =? 0)%nat = false)
    by (destruct filepath; [ congruence | reflexivity ]).
  assert (E1 : String.eqb filepath "/dev/null" = false)
    by now apply String.eqb_neq.
  rewrite E0, E1, H2. cbn [orb].
  unfold noRenameMark in Hm.
  apply andb_true_iff in Hm as [Hm Hc]. apply andb_true_iff in Hm as [Ha Hb].
  apply negb_true_iff in Ha, Hb, Hc.
  assert (Hs : Js.includes (Js.trim filepath) " => " = false).
  { destruct (Js.includes (Js.trim filepath) " => ") eqn:E; [ | reflexivity ].
    apply includes_tail in E. change (Js.includes (Js.trim filepath) "=> " = true) in E.
    assert (K : Js.includes (Js.trim filepath) "=>" = true); [ | congruence ].
    clear - E. induction (Js.trim filepath) as [ | d s IH].
    - cbn in E. discriminate.
    - cbn [Js.includes] in E.
      destruct (String.prefix "=> " (String d s)) eqn:P.
      + apply includes_prefix. cbn [String.prefix] in P |- *.
        destruct (ascii_dec "=" d); [ | discriminate P ].
        destruct s as [ | d' s]; [ discriminate P | ].
        cbn [String.prefix] in P |- *.
        destruct (ascii_dec ">" d'); [ now destruct s | discriminate P ].
      + apply includes_cons. now apply IH. }
  rewrite Hb, Hs. cbn [andb]. rewrite !andb_false_r.
  unfold finishRename. now rewrite Ha, Hb, Hc.
Qed.

Lemma parseRenameInfo_plain_path_witness :
  parseRenameInfo " src/app.ts "
  = Some {| currentPath := "src/app.ts"; oldPath := None |}.
Proof.
  apply (parseRenameInfo_plain_path " src/app.ts ");
    [ discriminate | discriminate | reflexivity | reflexivity ].
Defined.

End RenameInfo.

Section PlainPaths.

Import GitCommitCollector OutputSpec RenameSpec.

Lemma append_nil_r (s : string) : (s ++ EmptyString)%string = s.
Proof. induction s as [ | c s IH]; cbn; [ reflexivity | now rewrite IH ]. Qed.

Lemma append_assoc (s t u : string) :
  ((s ++ t) ++ u)%string = (s ++ t ++ u)%string.
Proof. induction s as [ | c s IH]; cbn; [ reflexivity | now rewrite IH ]. Qed.

Lemma hasChar_app (c : ascii) (s t : string) :
  hasChar c (s ++ t) = hasChar c s || hasChar c t.
Proof.
  induction s as [ | d s IH]; cbn; [ reflexivity | ].
  now rewrite IH, orb_assoc.
Qed.

Lemma prefix_hasChar (c : ascii) (t s : string) :
  String.prefix (String c t) s = true -> hasChar c s = true.
Proof.
  intros H. apply prefix_tail in H as (s' & -> & _). cbn.
  now rewrite Ascii.eqb_refl.
Qed.

(** A text that contains [String c t] contains the character [c]. *)
Lemma includes_hasChar (c : ascii) (t s : string) :
  Js.includes s (String c t) = true -> hasChar c s = true.
Proof.
  induction s as [ | d s IH]; cbn [Js.includes].
  - cbn. discriminate.
  - destruct (String.prefix (String c t) (String d s)) eqn:E.
    + intros _. now apply prefix_hasChar in E.
    + intros H. cbn. rewrite (IH H). apply orb_true_r.
Qed.

Lemma no_hasChar_includes (c : ascii) (t s : string) :
  hasChar c s = false -> Js.includes s (String c t) = false.
Proof.
  intros H. destruct (Js.includes s (String c t)) eqn:E; [ | reflexivity ].
  apply includes_hasChar in E. congruence.
Qed.

Lemma plainChar_spec (c : ascii) :
  plainChar c = true ->
  Js.isSpace c = false /\ c <> "{"%char /\ c <> "}"%char /\ c <> "="%char
  /\ c <> ">"%char /\ c <> Js.chr 0.
Proof.
  unfold plainChar. intros H.
  repeat (apply andb_true_iff in H as [H ?]).
  repeat match goal with
         | K : negb _ = true |- _ => apply negb_true_iff in K
         end.
  repeat split; try assumption; intros ->;
    match goal with K : Ascii.eqb _ _ = false |- _ =>
      try (rewrite Ascii.eqb_refl in K; discriminate K) end.
  all: try discriminate.
  all: repeat match goal with
         | K : Ascii.eqb ?a ?a = false |- _ =>
             rewrite Ascii.eqb_refl in K; discriminate K
         end.
Qed.

Lemma plain_hasChar (c : ascii) (s : string) :
  plainChar c = false -> plain s = true -> hasChar c s = false.
Proof.
  unfold plain. intros Hc. induction s as [ | d s IH]; cbn; [ reflexivity | ].
  intros H. apply andb_true_iff in H as [Hd Hs]. rewrite (IH Hs).
  destruct (Ascii.eqb_spec c d) as [-> | _]; [ congruence | reflexivity ].
Qed.

Lemma plain_app (s t : string) : plain (s ++ t) = plain s && plain t.
Proof.
  unfold plain. induction s as [ | c s IH]; cbn; [ reflexivity | ].
  now rewrite IH, andb_assoc.
Qed.

Lemma plain_trimStart (s t : string) :
  plain s = true -> s <> EmptyString -> Js.trimStart (s ++ t) = (s ++ t)%string.
Proof.
  unfold plain. destruct s as [ | c s]; [ congruence | ]. cbn. intros H _.
  apply andb_true_iff in H as [Hc _].
  apply plainChar_spec in Hc as (-> & _). reflexivity.
Qed.

Lemma plain_trimEnd_gen (s : string) :
  allChars (fun c => negb (Js.isSpace c)) s = true -> s <> EmptyString ->
  forall t, Js.trimEnd (t ++ s) = (t ++ s)%string.
Proof.
  intros Hs Hne.
  assert (Hbase : Js.trimEnd s = s).
  { clear Hne. induction s as [ | c s IH]; [ reflexivity | ].
    cbn in Hs. apply andb_true_iff in Hs as [Hc Hs]. cbn [Js.trimEnd].
    rewrite (IH Hs). apply negb_true_iff in Hc. rewrite Hc.
    now destruct s. }
  induction t as [ | c t IH]; [ exact Hbase | ].
  cbn [append Js.trimEnd]. rewrite IH.
  destruct (t ++ s)%string eqn:E; [ | reflexivity ].
  destruct t; cbn in E; [ congruence | discriminate ].
Qed.

Lemma plain_trimEnd (s : string) :
  plain s = true -> s <> EmptyString ->
  forall t, Js.trimEnd (t ++ s) = (t ++ s)%string.
Proof.
  intros Hs Hne. apply plain_trimEnd_gen; [ | exact Hne ].
  clear Hne. unfold plain in Hs. induction s as [ | c s IH]; [ reflexivity | ].
  cbn in Hs |- *. apply andb_true_iff in Hs as [Hc Hs]. rewrite (IH Hs).
  apply plainChar_spec in Hc as (-> & _). reflexivity.
Qed.

Lemma plain_trim (s : string) :
  plain s = true -> Js.trim s = s.
Proof.
  intros H. destruct (string_dec s EmptyString) as [-> | Hne];
    [ reflexivity | ].
  unfold Js.trim.
  pose proof (plain_trimStart s EmptyString H Hne) as H1.
  rewrite append_nil_r in H1.
  rewrite H1. exact (plain_trimEnd s H Hne EmptyString).
Qed.

Lemma plain_noRenameMark (s : string) :
  plain s = true -> noRenameMark s = true.
Proof.
  intros H. unfold noRenameMark.
  rewrite (no_hasChar_includes "=" ">" s),
    (no_hasChar_includes "{" EmptyString s),
    (no_hasChar_includes "}" EmptyString s); try reflexivity;
    now apply plain_hasChar.
Qed.

Lemma prefix_append (t b : string) : String.prefix t (t ++ b) = true.
Proof.
  induction t as [ | c t IH]; cbn; [ now destruct b | ].
  destruct (ascii_dec c c); [ exact IH | congruence ].
Qed.

Lemma includes_app (a t b : string) :
  Js.includes (a ++ t ++ b) t = true.
Proof.
  induction a as [ | c a IH].
  - cbn [append]. apply includes_prefix, prefix_append.
  - cbn [append]. now apply includes_cons.
Qed.

Lemma split_go_no_sep (sep : string) (s : string) :
  Js.includes s sep = false ->
  forall cur, Js.split_go sep s 0 cur = [(cur ++ s)%string].
Proof.
  induction s as [ | c s IH]; intros H cur; cbn [Js.split_go].
  - now rewrite append_nil_r.
  - cbn [Js.includes] in H.
    destruct (String.prefix sep (String c s)); [ discriminate | ].
    rewrite (IH H). now rewrite append_assoc.
Qed.

Lemma split_rename (a b : string) :
  plain a = true -> plain b = true ->
  forall cur,
    Js.split_go " => " (a ++ " => " ++ b) 0 cur = [(cur ++ a)%string; b].
Proof.
  intros Ha Hb. unfold plain in Ha. induction a as [ | c a IH]; intros cur.
  - pose proof (prefix_append " => " b) as P.
    cbn [append] in P |- *. cbn [Js.split_go]. rewrite P.
    cbn [String.length Nat.sub Js.split_go].
    rewrite append_nil_r, split_go_no_sep; [ reflexivity | ].
    apply no_hasChar_includes. now apply plain_hasChar.
  - cbn in Ha. apply andb_true_iff in Ha as [Hc Ha].
    cbn [append Js.split_go String.prefix].
    destruct (ascii_dec " " c) as [<- | _]; [ discriminate Hc | ].
    rewrite (IH Ha). now rewrite append_assoc.
Qed.

(** X20: the plain notation of a rename is read in full: for two path
    names [a] and [b] that are not empty and hold no white space, brace,
    equals sign, angle bracket or NUL, parseRenameInfo on [a => b] returns
    the current path [b] with the old path [a]; unless [b] is /dev/null,
    the mark of a deletion, for which it returns nothing. *)
Theorem parseRenameInfo_simple_rename (a b : string) :
  plain a = true -> plain b = true ->
  a <> EmptyString -> b <> EmptyString ->
  parseRenameInfo (a ++ " => " ++ b)
  = if String.eqb b "/dev/null" then None
    else Some {| currentPath := b; oldPath := Some a |}.
Proof.
  intros Ha Hb Hane Hbne. unfold parseRenameInfo.
  set (p := (a ++ " => " ++ b)%string).
  assert (Hsep : Js.includes p " => " = true) by apply includes_app.
  assert (E0 : (String.length p =? 0)%nat = false).
  { destruct a; [ congruence | reflexivity ]. }
  assert (E1 : String.eqb p "/dev/null" = false).
  { apply String.eqb_neq. intros E. rewrite E in Hsep. discriminate Hsep. }
  assert (Hchar : forall c, plainChar c = false -> hasChar c " => " = false ->
                            hasChar c p = false).
  { intros c Hc Hs. unfold p. rewrite !hasChar_app, Hs.
    now rewrite !(plain_hasChar c) by assumption. }
  assert (E2 : Js.includes p NUL = false).
  { apply no_hasChar_includes. now apply Hchar. }
  rewrite E0, E1, E2. cbn [orb].
  assert (Etrim : Js.trim p = p).
  { unfold Js.trim, p. rewrite (plain_trimStart a _ Ha Hane).
    rewrite <- append_assoc. apply (plain_trimEnd b Hb Hbne). }
  rewrite Etrim.
  assert (E3 : Js.includes p "{" = false).
  { apply no_hasChar_includes. now apply Hchar. }
  assert (E4 : Js.startsWith p "{" = false).
  { unfold Js.startsWith, p. destruct a as [ | c a]; [ congruence | ].
    unfold plain in Ha. cbn [allChars append String.prefix] in Ha |- *.
    apply andb_true_iff in Ha as [Hc _].
    apply plainChar_spec in Hc as (_ & Hc & _).
    destruct (ascii_dec "{" c) as [<- | _]; [ congruence | reflexivity ]. }
  rewrite E3, E4, Hsep. cbn [andb].
  unfold Js.split, p. rewrite (split_rename a b Ha Hb). cbn [append].
  rewrite (plain_trim a Ha), (plain_trim b Hb).
  destruct (String.eqb b "/dev/null"); [ reflexivity | ].
  unfold finishRename.
  pose proof (plain_noRenameMark b Hb) as Hm. unfold noRenameMark in Hm.
  apply andb_true_iff in Hm as [Hm H3]. apply andb_true_iff in Hm as [H1 H2].
  apply negb_true_iff in H1, H2, H3. now rewrite H1, H2, H3.
Qed.

Lemma parseRenameInfo_simple_rename_witness :
  parseRenameInfo "src/old.ts => src/new.ts"
  = Some {| currentPath := "src/new.ts"; oldPath := Some "src/old.ts" |}.
Proof.
  apply (parseRenameInfo_simple_rename "src/old.ts" "src/new.ts");
    [ reflexivity | reflexivity | discriminate | discriminate ].
Defined.

End PlainPaths.

(* ================================================================== *)
(** * Further properties of the collector: the directory rename *)
(* ================================================================== *)

Section DirectoryRename.

Import Js GitCommitCollector RegexSpec RenameSpec OutputSpec.

Lemma allChars_impl (p q : ascii -> bool) (s : string) :
  (forall c, p c = true -> q c = true) ->
  allChars p s = true -> allChars q s = true.
Proof.
  intros H. induction s as [ | c s IH]; cbn; [ reflexivity | ].
  intros K. apply andb_true_iff in K as [Hc Hs].
  now rewrite (H c Hc), (IH Hs).
Qed.

Lemma allChars_app (p : ascii -> bool) (s t : string) :
  allChars p (s ++ t) = allChars p s && allChars p t.
Proof.
  induction s as [ | c s IH]; cbn; [ reflexivity | ].
  now rewrite IH, andb_assoc.
Qed.

Lemma plainChar_notBrace (c : ascii) : plainChar c = true -> notBrace c = true.
Proof.
  intros H. apply plainChar_spec in H as (_ & _ & H & _).
  unfold notBrace. apply negb_true_iff. now apply Ascii.eqb_neq.
Qed.

Lemma plainChar_anyChar (c : ascii) : plainChar c = true -> anyChar c = true.
Proof.
  intros H. apply plainChar_spec in H as (H & _).
  unfold anyChar, isLineTerminator. unfold isSpace in H.
  apply orb_false_iff in H as [H _]. apply negb_true_iff.
  apply andb_false_iff in H as [H | H].
  - apply Nat.leb_gt in H. apply orb_false_iff; split; apply Nat.eqb_neq; lia.
  - apply Nat.leb_gt in H. apply orb_false_iff; split; apply Nat.eqb_neq; lia.
Qed.

Lemma span_all (p : ascii -> bool) (s : string) :
  allChars p s = true -> span p s = (s, EmptyString).
Proof.
  induction s as [ | c s IH]; cbn; [ reflexivity | ].
  intros H. apply andb_true_iff in H as [-> Hs]. now rewrite (IH Hs).
Qed.

Lemma span_stop (p : ascii -> bool) (a : string) (c : ascii) (b : string) :
  allChars p a = true -> p c = false ->
  span p (a ++ String c b) = (a, String c b).
Proof.
  intros Ha Hc. induction a as [ | d a IH]; cbn.
  - now rewrite Hc.
  - cbn in Ha. apply andb_true_iff in Ha as [-> Ha]. now rewrite (IH Ha).
Qed.

Lemma substring_prefix (a b : string) :
  String.substring 0 (String.length a) (a ++ b) = a.
Proof.
  induction a as [ | c a IH]; cbn; [ now destruct b | now rewrite IH ].
Qed.

Lemma lit_char (d : ascii) (R : regex) (st : mstate)
  (k : mstate -> option mstate) :
  rmatch (RSeq (RLit (String d EmptyString)) R) st k
  = match rest st with
    | String c s => if Ascii.eqb d c then rmatch R (advance st c s) k else None
    | EmptyString => None
    end.
Proof. reflexivity. Qed.

Lemma group_then (n : nat) (r : regex) (st : mstate)
  (k : mstate -> option mstate) :
  rmatch (RGroup n r) st k = rmatch r st (fun st' => k (capture n st st')).
Proof. reflexivity. Qed.

Lemma plus_then (p : ascii -> bool) (st : mstate)
  (k : mstate -> option mstate) :
  rmatch (RPlus (RChar p)) st k
  = match rest st with
    | String c s =>
        if p c then rmatch (RStar (RChar p)) (advance st c s) k else None
    | EmptyString => None
    end.
Proof. reflexivity. Qed.

(** A greedy run that stops at the place where the continuation accepts:
    the characters of [a] are taken when the run started after them
    succeeds. *)
Lemma star_take (p : ascii -> bool) (k : mstate -> option mstate)
  (a b : string) (r : mstate) :
  allChars p a = true ->
  forall n cs,
    rmatch (RStar (RChar p))
           {| consumed := n + String.length a; rest := b; caps := cs |} k
    = Some r ->
    rmatch (RStar (RChar p))
           {| consumed := n; rest := a ++ b; caps := cs |} k
    = Some r.
Proof.
  intros Ha. induction a as [ | c a IH]; intros n cs H.
  - cbn [append String.length] in *. now rewrite Nat.add_0_r in H.
  - cbn in Ha. apply andb_true_iff in Ha as [Hc Ha].
    rewrite rmatch_star_char. cbn [rest append]. rewrite Hc.
    unfold advance; cbn [consumed caps].
    rewrite (IH Ha (S n) cs); [ reflexivity | ].
    cbn [String.length] in H. now rewrite Nat.add_succ_r in H.
Qed.

(** A greedy run none of whose stopping places is accepted. *)
Lemma star_reject (p : ascii -> bool) (k : mstate -> option mstate)
  (a b : string) :
  RegexSpec.startsWithClass p b = false ->
  forall n cs,
    (forall a1 a2, a = (a1 ++ a2)%string ->
                   k {| consumed := n + String.length a1;
                        rest := (a2 ++ b)%string; caps := cs |} = None) ->
    rmatch (RStar (RChar p))
           {| consumed := n; rest := (a ++ b)%string; caps := cs |} k
    = None.
Proof.
  intros Hb. induction a as [ | c a IH]; intros n cs Hk.
  - pose proof (Hk EmptyString EmptyString eq_refl) as H0.
    cbn [append String.length] in *. rewrite Nat.add_0_r in H0.
    rewrite rmatch_star_char. cbn [rest].
    destruct b as [ | c b]; [ exact H0 | ].
    cbn in Hb. rewrite Hb. exact H0.
  - pose proof (Hk EmptyString (String c a) eq_refl) as H0.
    cbn [append String.length] in H0. rewrite Nat.add_0_r in H0.
    rewrite rmatch_star_char. cbn [rest append].
    destruct (p c); [ | exact H0 ].
    unfold advance; cbn [consumed caps].
    rewrite IH; [ exact H0 | ].
    intros a1 a2 E. specialize (Hk (String c a1) a2).
    cbn [append String.length] in Hk. rewrite Nat.add_succ_r in Hk.
    apply Hk. now rewrite E.
Qed.

Lemma space_not_equals (c : ascii) : isSpace c = true -> Ascii.eqb "=" c = false.
Proof.
  intros H. destruct (Ascii.eqb_spec "="%char c) as [<- | _];
    [ discriminate H | reflexivity ].
Qed.

(** The rest of the pattern fails where no arrow follows. *)
Lemma afterGroup1_fail (st : mstate) (k : mstate -> option mstate) :
  noArrow (rest st) = true -> rmatch afterGroup1 st k = None.
Proof.
  intros H. unfold afterGroup1. cbn [RCat]. rewrite seq_then.
  destruct st as [n s cs]. cbn [rest] in H.
  rewrite star_span.
  - unfold skip; cbn [rest consumed caps].
    unfold noArrow in H. apply negb_true_iff in H.
    destruct (snd (span isSpace s)) as [ | c s']; [ reflexivity | ].
    cbn [startsWithClass] in H.
    change (RLit "=>") with (RSeq (RChar (Ascii.eqb "=")) (RLit ">")).
    cbn [rmatch rest]. now rewrite H.
  - intros st' Hs. destruct st' as [n' [ | c s'] cs']; [ discriminate Hs | ].
    cbn [rest startsWithClass] in Hs.
    change (RLit "=>") with (RSeq (RChar (Ascii.eqb "=")) (RLit ">")).
    cbn [rmatch rest]. now rewrite (space_not_equals c Hs).
Qed.

(** Group 2, the closing brace and group 3, on [n}post]. *)
Lemma group2_match (n post : string) (m : nat) (cs : list (nat * string)) :
  plain n = true -> n <> EmptyString -> plain post = true ->
  exists final,
    rmatch (RSeq (RGroup 2 (RPlus (RChar notBrace)))
                 (RSeq (RLit "}")
                       (RSeq (RGroup 3 (RStar (RChar anyChar)))
                             (RSeq REol REmpty))))
      {| consumed := m; rest := (n ++ "}" ++ post)%string; caps := cs |} Some
    = Some final
    /\ caps final = setCap 3 post (setCap 2 n cs).
Proof.
  intros Hn Hne Hpost. rewrite seq_then, group_then.
  set (st2 := {| consumed := m; rest := (n ++ "}" ++ post)%string;
                 caps := cs |}).
  set (K3 := fun st' : mstate =>
               rmatch (RSeq (RLit "}")
                            (RSeq (RGroup 3 (RStar (RChar anyChar)))
                                  (RSeq REol REmpty)))
                      (capture 2 st2 st') Some).
  rewrite (plus_span notBrace K3).
  2:{ intros st' Hs. unfold K3. rewrite lit_char. unfold capture; cbn [rest].
      destruct (rest st') as [ | d s']; [ reflexivity | ].
      cbn in Hs. unfold notBrace in Hs. apply negb_true_iff in Hs.
      rewrite Ascii.eqb_sym. now rewrite Hs. }
  assert (HnB : allChars notBrace n = true).
  { apply (allChars_impl plainChar); [ exact plainChar_notBrace | exact Hn ]. }
  assert (Hspan : span notBrace (rest st2) = (n, ("}" ++ post)%string)).
  { unfold st2; cbn [rest]. now apply span_stop. }
  assert (Hstart : startsWithClass notBrace (rest st2) = true).
  { unfold st2; cbn [rest]. destruct n as [ | c n']; [ congruence | ].
    cbn in HnB |- *. now apply andb_true_iff in HnB as [-> _]. }
  rewrite Hstart. unfold skip. rewrite Hspan. cbn [fst snd].
  unfold K3. rewrite lit_char.
  unfold capture, advance, st2; cbn [rest consumed caps append].
  rewrite Ascii.eqb_refl.
  replace (m + String.length n - m)%nat with (String.length n) by lia.
  rewrite substring_prefix.
  rewrite seq_then, group_then.
  set (st3 := {| consumed := S (m + String.length n);
                 rest := post; caps := setCap 2 n cs |}).
  set (K4 := fun st' : mstate =>
               rmatch (RSeq REol REmpty) (capture 3 st3 st') Some).
  unfold st3 at 1. rewrite (star_span anyChar K4).
  2:{ intros st' Hs. unfold K4, capture. cbn [rmatch rest].
      destruct (rest st') as [ | d s']; [ discriminate Hs | reflexivity ]. }
  unfold skip; cbn [rest consumed caps].
  assert (Hall : allChars anyChar post = true)
    by (apply (allChars_impl plainChar); [ exact plainChar_anyChar | exact Hpost ]).
  rewrite (span_all anyChar post Hall). cbn [fst snd].
  unfold K4, capture, st3; cbn [rmatch rest consumed caps].
  eexists. split; [ reflexivity | ]. cbn [caps].
  replace (S (m + String.length n) + String.length post
           - S (m + String.length n))%nat
    with (String.length post) by lia.
  pose proof (substring_prefix post EmptyString) as Hsub.
  rewrite append_nil_r in Hsub. rewrite Hsub. reflexivity.
Qed.

(** The rest of the pattern on [=> n}post]. *)
Lemma afterGroup1_match (n post : string) (m : nat) (cs : list (nat * string)) :
  plain n = true -> n <> EmptyString -> plain post = true ->
  exists final,
    rmatch afterGroup1
      {| consumed := m; rest := ("=> " ++ n ++ "}" ++ post)%string; caps := cs |}
      Some
    = Some final
    /\ caps final = setCap 3 post (setCap 2 n cs).
Proof.
  intros Hn Hne Hpost. unfold afterGroup1. cbn [RCat]. rewrite seq_then.
  rewrite star_span.
  2:{ intros st' Hs. destruct st' as [n' [ | c s'] cs']; [ discriminate Hs | ].
      cbn [rest startsWithClass] in Hs.
      change (RLit "=>") with (RSeq (RChar (Ascii.eqb "=")) (RLit ">")).
      cbn [rmatch rest]. now rewrite (space_not_equals c Hs). }
  set (K2 := fun st' : mstate =>
               rmatch (RSeq (RGroup 2 (RPlus (RChar notBrace)))
                            (RSeq (RLit "}")
                                  (RSeq (RGroup 3 (RStar (RChar anyChar)))
                                        (RSeq REol REmpty)))) st' Some).
  change (exists final,
             rmatch (RStar (RChar isSpace))
               {| consumed := S (S (m + 0));
                  rest := String " " (n ++ "}" ++ post); caps := cs |} K2
             = Some final
             /\ caps final = setCap 3 post (setCap 2 n cs)).
  destruct (group2_match n post (S (S (S (m + 0)))) cs Hn Hne Hpost)
    as (final & Hf & Hcaps).
  exists final. split; [ | exact Hcaps ].
  rewrite rmatch_star_char. cbn [rest].
  change (isSpace " ") with true. cbv iota.
  unfold advance; cbn [consumed caps].
  rewrite rmatch_star_char. cbn [rest].
  destruct n as [ | c n']; [ congruence | ]. cbn [append].
  unfold plain in Hn. cbn [allChars] in Hn.
  apply andb_true_iff in Hn as [Hc _].
  pose proof (plainChar_spec c Hc) as (Hsp & _). rewrite Hsp.
  unfold K2. cbn [append] in Hf. now rewrite Hf.
Qed.

Lemma noArrow_space (s : string) : noArrow (String " " s) = noArrow s.
Proof.
  unfold noArrow. cbn [span]. change (isSpace " ") with true. cbv iota.
  now destruct (span isSpace s).
Qed.

Lemma noArrow_plain (a b : string) :
  plain a = true -> noArrow (a ++ "}" ++ b) = true.
Proof.
  unfold plain. destruct a as [ | c a]; [ reflexivity | ].
  cbn [allChars append]. intros H. apply andb_true_iff in H as [Hc _].
  apply plainChar_spec in Hc as (Hsp & _ & _ & Heq & _).
  unfold noArrow. cbn [span]. rewrite Hsp. cbn [snd startsWithClass].
  apply negb_true_iff. apply Ascii.eqb_neq. congruence.
Qed.

(** No place inside [> n] is followed by an arrow. *)
Lemma noArrow_suffix (n post a1 a2 : string) :
  plain n = true ->
  ("> " ++ n)%string = (a1 ++ a2)%string ->
  noArrow (a2 ++ "}" ++ post) = true.
Proof.
  intros Hn E. destruct a1 as [ | c1 a1].
  - cbn [append] in E. subst a2. reflexivity.
  - cbn [append] in E. injection E as _ E. destruct a1 as [ | c2 a1].
    + cbn [append] in E. subst a2. cbn [append].
      rewrite noArrow_space. now apply noArrow_plain.
    + cbn [append] in E. injection E as _ E. apply noArrow_plain.
      rewrite E, plain_app in Hn. now apply andb_true_iff in Hn as [_ Hn].
Qed.

(** The pattern of the directory rename, run at the opening brace. *)
Lemma dirRename_match (o n post : string) (m : nat) :
  plain o = true -> o <> EmptyString ->
  plain n = true -> n <> EmptyString -> plain post = true ->
  exists final,
    rmatch dirRenamePattern
      {| consumed := m;
         rest := ("{" ++ o ++ " => " ++ n ++ "}" ++ post)%string;
         caps := [] |} Some
    = Some final
    /\ caps final = [(3%nat, post); (2%nat, n); (1%nat, (o ++ " ")%string)].
Proof.
  intros Ho Hone Hn Hnne Hpost.
  change dirRenamePattern
    with (RSeq (RLit "{") (RSeq (RGroup 1 (RPlus (RChar notBrace))) afterGroup1)).
  remember ("=> " ++ n ++ "}" ++ post)%string as T eqn:ET.
  change ("{" ++ o ++ " => " ++ n ++ "}" ++ post)%string
    with (String "{" (o ++ String " " ("=> " ++ n ++ "}" ++ post))).
  rewrite <- ET.
  rewrite lit_char. cbn [rest]. rewrite Ascii.eqb_refl.
  unfold advance; cbn [consumed caps].
  rewrite seq_then, group_then.
  set (st1 := {| consumed := S m; rest := (o ++ String " " T)%string;
                 caps := [] |}).
  set (K1 := fun st' : mstate => rmatch afterGroup1 (capture 1 st1 st') Some).
  rewrite plus_then. unfold st1 at 1. cbn [rest].
  destruct o as [ | c o']; [ congruence | ].
  change (String c o' ++ String " " T)%string
    with (String c (o' ++ String " " T)).
  assert (HoB : allChars notBrace (String c o') = true).
  { apply (allChars_impl plainChar); [ exact plainChar_notBrace | exact Ho ]. }
  cbn [allChars] in HoB. apply andb_true_iff in HoB as [Hc Ho'].
  rewrite Hc. unfold advance; cbn [consumed caps].
  replace (o' ++ String " " T)%string with ((o' ++ " ") ++ T)%string
    by (now rewrite append_assoc).
  destruct (afterGroup1_match n post (S (S m) + String.length (o' ++ " "))
              (setCap 1 (String c o' ++ " ") []) Hn Hnne Hpost)
    as (final & Hf & Hcaps).
  rewrite <- ET in Hf.
  exists final. split; [ | rewrite Hcaps; reflexivity ].
  unfold st1 at 1; cbn [consumed caps].
  apply star_take.
  { rewrite allChars_app, Ho'. reflexivity. }
  rewrite rmatch_star_char. cbn [rest]. rewrite ET at 1.
  change ("=> " ++ n ++ "}" ++ post)%string
    with (String "=" (("> " ++ n) ++ "}" ++ post)).
  change (notBrace "=") with true. cbv iota.
  unfold advance; cbn [consumed caps].
  rewrite star_reject.
  - unfold K1, capture, st1; cbn [consumed rest caps].
    replace (S (S m) + String.length (o' ++ " ") - S m)%nat
      with (String.length (String c o' ++ " "))
      by (cbn [append String.length]; lia).
    replace (String c o' ++ String " " T)%string
      with ((String c o' ++ " ") ++ T)%string
      by (now rewrite append_assoc).
    rewrite substring_prefix. exact Hf.
  - reflexivity.
  - intros a1 a2 E. unfold K1. apply afterGroup1_fail.
    unfold capture; cbn [rest]. now apply (noArrow_suffix n post a1 a2).
Qed.

Lemma dirRename_search (pre t : string) :
  plain pre = true ->
  forall pos,
    search dirRenamePattern pos (pre ++ t)
    = search dirRenamePattern (pos + String.length pre) t.
Proof.
  unfold plain. induction pre as [ | c pre IH]; intros H pos.
  - cbn [append String.length]. now rewrite Nat.add_0_r.
  - cbn [allChars] in H. apply andb_true_iff in H as [Hc H].
    cbn [append search String.length].
    change dirRenamePattern
      with (RSeq (RLit "{") (RSeq (RGroup 1 (RPlus (RChar notBrace))) afterGroup1)).
    rewrite lit_char. cbn [rest].
    apply plainChar_spec in Hc as (_ & Hc & _).
    replace (Ascii.eqb "{" c) with false
      by (symmetry; apply Ascii.eqb_neq; congruence).
    rewrite (IH H). f_equal. lia.
Qed.

Lemma plain_trimEnd_space (o : string) :
  plain o = true -> Js.trimEnd (o ++ " ") = o.
Proof.
  unfold plain. induction o as [ | c o IH]; [ reflexivity | ].
  cbn [allChars append Js.trimEnd]. intros H.
  apply andb_true_iff in H as [Hc Ho]. rewrite (IH Ho).
  apply plainChar_spec in Hc as (-> & _). now destruct o.
Qed.

(** X21: the notation of a rename inside a directory is read without the
    text in front of the opening brace: for plain, non-empty names [pre],
    [o] and [n] and a plain name [post], parseRenameInfo on
    [pre{o => n}post] returns the current path [n post] and the old path
    [o post], in which the leading [pre] is left out.  For
    src/{old => new}/file.ts the current path is new/file.ts. *)
Theorem parseRenameInfo_directory_rename (pre o n post : string) :
  plain pre = true -> plain o = true -> plain n = true -> plain post = true ->
  pre <> EmptyString -> o <> EmptyString -> n <> EmptyString ->
  parseRenameInfo (pre ++ "{" ++ o ++ " => " ++ n ++ "}" ++ post)
  = Some {| currentPath := (n ++ post)%string;
            oldPath := Some (o ++ post)%string |}.
Proof.
  intros Hpre Ho Hn Hpost Hprene Hone Hnne. unfold parseRenameInfo.
  set (p := (pre ++ "{" ++ o ++ " => " ++ n ++ "}" ++ post)%string).
  assert (Hopen : Js.includes p "{" = true) by apply includes_app.
  assert (Hclose : Js.includes p "}" = true).
  { unfold p.
    replace (pre ++ "{" ++ o ++ " => " ++ n ++ "}" ++ post)%string
      with ((pre ++ "{" ++ o ++ " => " ++ n) ++ "}" ++ post)%string
      by (now rewrite !append_assoc).
    apply includes_app. }
  assert (Hsep : Js.includes p " => " = true).
  { unfold p.
    replace (pre ++ "{" ++ o ++ " => " ++ n ++ "}" ++ post)%string
      with ((pre ++ "{" ++ o) ++ " => " ++ n ++ "}" ++ post)%string
      by (now rewrite !append_assoc).
    apply includes_app. }
  assert (E0 : (String.length p =? 0)%nat = false).
  { unfold p. destruct pre; [ congruence | reflexivity ]. }
  assert (E1 : String.eqb p "/dev/null" = false).
  { apply String.eqb_neq. intros E. rewrite E in Hsep. discriminate Hsep. }
  assert (E2 : Js.includes p NUL = false).
  { apply no_hasChar_includes. unfold p. rewrite !hasChar_app.
    rewrite (plain_hasChar (Js.chr 0) pre), (plain_hasChar (Js.chr 0) o),
      (plain_hasChar (Js.chr 0) n), (plain_hasChar (Js.chr 0) post)
      by (assumption || reflexivity).
    reflexivity. }
  rewrite E0, E1, E2. cbn [orb].
  assert (Etrim : Js.trim p = p).
  { unfold Js.trim, p. rewrite (plain_trimStart pre _ Hpre Hprene).
    replace (pre ++ "{" ++ o ++ " => " ++ n ++ "}" ++ post)%string
      with ((pre ++ "{" ++ o ++ " => " ++ n) ++ "}" ++ post)%string
      by (now rewrite !append_assoc).
    apply plain_trimEnd_gen; [ | discriminate ].
    cbn. unfold plain in Hpost.
    apply (allChars_impl plainChar); [ | exact Hpost ].
    intros c Hc. apply plainChar_spec in Hc as (-> & _). reflexivity. }
  rewrite Etrim.
  assert (E4 : Js.startsWith p "{" = false).
  { unfold Js.startsWith, p. destruct pre as [ | c pre']; [ congruence | ].
    unfold plain in Hpre. cbn [allChars append String.prefix] in Hpre |- *.
    apply andb_true_iff in Hpre as [Hc _].
    apply plainChar_spec in Hc as (_ & Hc & _).
    destruct (ascii_dec "{" c) as [<- | _]; [ congruence | reflexivity ]. }
  rewrite Hopen, Hclose, Hsep, E4. cbn [andb negb].
  destruct (dirRename_match o n post (0 + String.length pre)
              Ho Hone Hn Hnne Hpost) as (final & Hf & Hcaps).
  unfold Js.exec, p. rewrite (dirRename_search pre _ Hpre 0).
  cbn [append] in Hf |- *. cbn [search]. rewrite Hf. cbn [option_map].
  rewrite Hcaps. unfold group; cbn [getCap Nat.eqb].
  assert (Eo : Js.trim (o ++ " ") = o).
  { unfold Js.trim. rewrite (plain_trimStart o " " Ho Hone).
    now apply plain_trimEnd_space. }
  rewrite (plain_trim n Hn), Eo.
  unfold finishRename.
  assert (Hm : noRenameMark (n ++ post) = true).
  { apply plain_noRenameMark. now rewrite plain_app, Hn, Hpost. }
  unfold noRenameMark in Hm.
  apply andb_true_iff in Hm as [Hm H3]. apply andb_true_iff in Hm as [H1 H2].
  apply negb_true_iff in H1, H2, H3. now rewrite H1, H2, H3.
Qed.

Lemma parseRenameInfo_directory_rename_witness :
  parseRenameInfo "src/{old => new}/file.ts"
  = Some {| currentPath := "new/file.ts"; oldPath := Some "old/file.ts" |}.
Proof.
  apply (parseRenameInfo_directory_rename "src/" "old" "new" "/file.ts");
    try reflexivity; discriminate.
Defined.

End DirectoryRename.

(* ================================================================== *)
(** * Properties of the constructor of the collector *)
(* ================================================================== *)

Section IncludesOrder.

Lemma prefix_split (t s : string) :
  String.prefix t s = true -> exists b, s = (t ++ b)%string.
Proof.
  revert s. induction t as [ | c t IH]; intros s H.
  - now exists s.
  - apply prefix_tail in H as (s' & -> & H).
    destruct (IH s' H) as [b ->]. now exists b.
Qed.

Lemma includes_split (s t : string) :
  Js.includes s t = true -> exists a b, s = (a ++ t ++ b)%string.
Proof.
  induction s as [ | c s IH]; cbn [Js.includes].
  - destruct (String.prefix t EmptyString) eqn:E; [ | discriminate ].
    intros _. destruct (prefix_split _ _ E) as [b Hb].
    now exists EmptyString, b.
  - destruct (String.prefix t (String c s)) eqn:E.
    + intros _. destruct (prefix_split _ _ E) as [b Hb].
      now exists EmptyString, b.
    + intros H. destruct (IH H) as (a & b & ->).
      now exists (String c a), b.
Qed.

(** A text that occurs in a text that occurs in [s] occurs in [s]. *)
Lemma includes_trans (s t u : string) :
  Js.includes s t = true -> Js.includes t u = true -> Js.includes s u = true.
Proof.
  intros H1 H2.
  destruct (includes_split _ _ H1) as (a & b & ->).
  destruct (includes_split _ _ H2) as (a' & b' & ->).
  replace (a ++ (a' ++ u ++ b') ++ b)%string
    with ((a ++ a') ++ u ++ (b' ++ b))%string
    by (now rewrite !append_assoc).
  apply includes_app.
Qed.

Lemma includes_empty (s : string) : Js.includes s EmptyString = true.
Proof. destruct s; reflexivity. Qed.

End IncludesOrder.

Section Constructor.

Import CollectorSetup.

Variable existsSync : string -> bool.
Variable execSync : string -> string -> string + error.

(** X22: the constructor of the collector succeeds exactly when the path
    exists, git rev-parse succeeds there, git branch -a succeeds and its
    output contains the branch name as a piece of text.  So the check of the
    branch accepts every piece of the name of a listed branch, the empty name
    included; and the failures are reported in this order: a missing path, a
    directory that is not a repository, a branch listing that fails or does
    not contain the name (the message of the latter is wrapped once more:
    Failed to verify branch: Error: Branch ... not found). *)
Theorem new_collector (repoPath branch : string) (windowSizeDays : Z)
  (onlyExistingFiles : bool) :
  ((exists c, new existsSync execSync repoPath branch windowSizeDays
                  onlyExistingFiles = Ok c)
   <-> existsSync repoPath = true
       /\ (exists out, execSync "git rev-parse --git-dir" repoPath = inl out)
       /\ (exists branches,
              execSync "git branch -a" repoPath = inl branches
              /\ Js.includes branches branch = true))
  /\ (forall c piece,
         new existsSync execSync repoPath branch windowSizeDays
             onlyExistingFiles = Ok c ->
         Js.includes branch piece = true ->
         exists c',
           new existsSync execSync repoPath piece windowSizeDays
               onlyExistingFiles = Ok c')
  /\ (existsSync repoPath = false ->
      new existsSync execSync repoPath branch windowSizeDays onlyExistingFiles
      = Throw (Error ("Repository path does not exist: " ++ repoPath)))
  /\ (forall e,
         existsSync repoPath = true ->
         execSync "git rev-parse --git-dir" repoPath = inr e ->
         new existsSync execSync repoPath branch windowSizeDays onlyExistingFiles
         = Throw (Error ("Invalid git repository: " ++ repoPath)))
  /\ (forall out branches,
         existsSync repoPath = true ->
         execSync "git rev-parse --git-dir" repoPath = inl out ->
         execSync "git branch -a" repoPath = inl branches ->
         Js.includes branches branch = false ->
         new existsSync execSync repoPath branch windowSizeDays onlyExistingFiles
         = Throw (Error ("Failed to verify branch: Error: Branch '"
                         ++ branch ++ "' not found"))).
Proof.
  assert (Hiff : forall b,
             (exists c, new existsSync execSync repoPath b windowSizeDays
                            onlyExistingFiles = Ok c)
             <-> existsSync repoPath = true
                 /\ (exists out,
                        execSync "git rev-parse --git-dir" repoPath = inl out)
                 /\ (exists branches,
                        execSync "git branch -a" repoPath = inl branches
                        /\ Js.includes branches b = true)).
  { intros b. unfold new, verifyBranch.
    destruct (existsSync repoPath); cbn [negb].
    - destruct (execSync "git rev-parse --git-dir" repoPath) as [out | e].
      + destruct (execSync "git branch -a" repoPath) as [branches | e].
        * destruct (Js.includes branches b) eqn:Ei; cbn [negb].
          -- split; [ intros _ | intros _; now eexists ].
             split; [ reflexivity | ].
             split; [ now exists out | now exists branches ].
          -- split; [ intros [c H]; discriminate H | ].
             intros (_ & _ & br & [= <-] & H). congruence.
        * split; [ intros [c H]; discriminate H | ].
          intros (_ & _ & br & H & _). discriminate H.
      + split; [ intros [c H]; discriminate H | ].
        intros (_ & [out H] & _). discriminate H.
    - split; [ intros [c H]; discriminate H | ].
      intros (H & _). discriminate H. }
  split; [ apply Hiff | ]. split; [ | split; [ | split ] ].
  - intros c piece Hc Hp. apply Hiff.
    destruct (proj1 (Hiff branch) (ex_intro _ c Hc))
      as (H1 & H2 & branches & H3 & H4).
    split; [ exact H1 | ]. split; [ exact H2 | ].
    exists branches. split; [ exact H3 | ].
    exact (includes_trans _ _ _ H4 Hp).
  - intros H. unfold new. now rewrite H.
  - intros e H1 H2. unfold new. now rewrite H1, H2.
  - intros out branches H1 H2 H3 H4. unfold new, verifyBranch.
    rewrite H1, H2, H3, H4. reflexivity.
Qed.

End Constructor.

(* ================================================================== *)
(** * Properties of the predict command *)
(* ================================================================== *)

Section RiskDistribution.
Context {num : Type}.

Import XGBoostPredictor PredictCommand ReportSpec ScorerSpec.

Lemma label_injective (a b : RiskCategory) :
  RiskCategory_label a = RiskCategory_label b -> a = b.
Proof. destruct a, b; cbn; intros H; try reflexivity; discriminate H. Qed.

Lemma countOr0_mapSet (k q : string) (n : Z) (acc : list (string * Z)) :
  countOr0 (GitCommitCollector.mapSet k n acc) q
  = if String.eqb q k then n else countOr0 acc q.
Proof.
  unfold countOr0. destruct (String.eqb_spec q k) as [-> | Hne].
  - now rewrite mapGet_mapSet_same.
  - now rewrite mapGet_mapSet_other.
Qed.

Lemma riskDist_fold (c : RiskCategory) (predictions : list (RiskPrediction num)) :
  forall acc,
    countOr0
      (fold_left
         (fun acc p =>
            let k := RiskCategory_label (risk_category p) in
            GitCommitCollector.mapSet k (countOr0 acc k + 1) acc)
         predictions acc)
      (RiskCategory_label c)
    = countOr0 acc (RiskCategory_label c) + countCategory c predictions.
Proof.
  unfold countCategory.
  induction predictions as [ | p ps IH]; intros acc; cbn [fold_left filter].
  - cbn. lia.
  - rewrite IH. cbv zeta. rewrite countOr0_mapSet.
    destruct (String.eqb_spec (RiskCategory_label c)
                              (RiskCategory_label (risk_category p))) as [E | E].
    + apply label_injective in E. rewrite <- E, Nat.eqb_refl.
      cbn [List.length]. lia.
    + assert (Hr : Nat.eqb (rank (risk_category p)) (rank c) = false).
      { apply Nat.eqb_neq. intros K. apply E.
        destruct c, (risk_category p); cbn in K; try reflexivity; discriminate K. }
      rewrite Hr. lia.
Qed.

Lemma countCategory_total (predictions : list (RiskPrediction num)) :
  countCategory SEVERELY_DEGRADED predictions
  + countCategory DEGRADED predictions
  + countCategory STABLE predictions
  + countCategory IMPROVED predictions
  = Z.of_nat (List.length predictions).
Proof.
  unfold countCategory.
  induction predictions as [ | p ps IH]; [ reflexivity | ].
  cbn [filter List.length].
  cbn [rank] in IH.
  destruct (risk_category p); cbn [rank Nat.eqb List.length]; lia.
Qed.

(** X23: the four counts of the summary are the numbers of predictions
    of each category, and they add up to the number of files: no prediction
    is counted twice or left out, whatever the order of the batch. *)
Theorem showSummary_counts (predictions : list (RiskPrediction num)) :
  severelyDegraded (showSummary predictions)
  = countCategory SEVERELY_DEGRADED predictions
  /\ degraded (showSummary predictions) = countCategory DEGRADED predictions
  /\ stable (showSummary predictions) = countCategory STABLE predictions
  /\ improved (showSummary predictions) = countCategory IMPROVED predictions
  /\ severelyDegraded (showSummary predictions)
     + degraded (showSummary predictions)
     + stable (showSummary predictions)
     + improved (showSummary predictions)
     = totalFiles (showSummary predictions)
  /\ totalFiles (showSummary predictions)
     = Z.of_nat (List.length predictions).
Proof.
  pose proof (riskDist_fold SEVERELY_DEGRADED predictions []) as H1.
  pose proof (riskDist_fold DEGRADED predictions []) as H2.
  pose proof (riskDist_fold STABLE predictions []) as H3.
  pose proof (riskDist_fold IMPROVED predictions []) as H4.
  pose proof (countCategory_total predictions) as Ht.
  unfold showSummary; cbn [severelyDegraded degraded stable improved totalFiles].
  unfold riskDist. cbn [RiskCategory_label] in H1, H2, H3, H4.
  rewrite H1, H2, H3, H4. cbn [countOr0 GitCommitCollector.mapGet].
  repeat split; lia.
Qed.

End RiskDistribution.

Section Gitignore.

Import PredictCommand.

(** X24: addToGitignore writes at most once: it writes nothing when the
    content of .gitignore mentions .maintsight anywhere; otherwise the
    content it writes keeps the old content, trailing white space removed,
    as its beginning, ends with the entry .maintsight/ on a line of its own,
    and run again on that content it writes nothing. *)
Theorem addToGitignore_once (readFile : option string) :
  let content := match readFile with Some c => c | None => EmptyString end in
  match addToGitignore readFile with
  | None => Js.includes content ".maintsight" = true
  | Some written =>
      Js.includes content ".maintsight" = false
      /\ String.prefix (Js.trimEnd content) written = true
      /\ Js.endsWith written (Samples.LF ++ ".maintsight/" ++ Samples.LF) = true
      /\ addToGitignore (Some written) = None
  end.
Proof.
  cbv zeta. unfold addToGitignore.
  set (content := match readFile with Some c => c | None => EmptyString end).
  destruct (Js.includes content ".maintsight") eqn:E; cbn [negb];
    [ reflexivity | ].
  split; [ reflexivity | ].
  set (tail := ("# MaintSight reports" ++ Samples.LF ++ maintSightEntry
                ++ Samples.LF)%string).
  assert (Hin : forall a, Js.includes (a ++ tail) ".maintsight" = true).
  { intros a. unfold tail, maintSightEntry.
    replace (a ++ "# MaintSight reports" ++ Samples.LF ++ ".maintsight/"
               ++ Samples.LF)%string
      with ((a ++ "# MaintSight reports" ++ Samples.LF) ++ ".maintsight"
              ++ ("/" ++ Samples.LF))%string
      by (now rewrite !append_assoc).
    apply includes_app. }
  assert (Hend : forall a,
             Js.endsWith (a ++ tail) (Samples.LF ++ ".maintsight/" ++ Samples.LF)
             = true).
  { intros a. induction a as [ | c a IH]; [ reflexivity | ].
    change (String c a ++ tail)%string with (String c (a ++ tail)).
    remember (Samples.LF ++ ".maintsight/" ++ Samples.LF)%string as sfx.
    cbn [Js.endsWith]. rewrite IH.
    now destruct (String.eqb _ _). }
  destruct (String.length content =? 0)%nat eqn:E0; cbn [negb].
  - destruct content; [ | discriminate E0 ].
    split; [ reflexivity | ]. split; [ reflexivity | ]. reflexivity.
  - split; [ apply prefix_append | ].
    split.
    + replace (Js.trimEnd content ++ Samples.LF ++ Samples.LF ++ tail)%string
        with ((Js.trimEnd content ++ Samples.LF ++ Samples.LF) ++ tail)%string
        by (now rewrite !append_assoc).
      apply Hend.
    + replace (Js.trimEnd content ++ Samples.LF ++ Samples.LF ++ tail)%string
        with ((Js.trimEnd content ++ Samples.LF ++ Samples.LF) ++ tail)%string
        by (now rewrite !append_assoc).
      now rewrite Hin.
Qed.

End Gitignore.

(* ================================================================== *)
(** * Properties of the report generator *)
(* ================================================================== *)

Section CommitStatistics.

Import GitCommitCollector OutputSpec HtmlGenerator.

Lemma setAdd_In (x a : string) (s : list string) :
  In x (setAdd a s) <-> a = x \/ In x s.
Proof.
  unfold setAdd. destruct (existsb (String.eqb a) s) eqn:E.
  - split; [ now right | intros [<- | H]; [ | exact H ] ].
    apply existsb_exists in E as (y & Hy & Ey).
    apply String.eqb_eq in Ey. now subst y.
  - rewrite in_app_iff. cbn. tauto.
Qed.

Lemma addAll_spec (names set : list string) :
  NoDup set ->
  NoDup (fold_left (fun s author => setAdd author s) names set)
  /\ forall x,
       In x (fold_left (fun s author => setAdd author s) names set)
       <-> In x set \/ In x names.
Proof.
  revert set. induction names as [ | a names IH]; intros set Hnd; cbn.
  - split; [ exact Hnd | intros x; tauto ].
  - destruct (IH (setAdd a set) (setAdd_NoDup a set Hnd)) as [H1 H2].
    split; [ exact H1 | ]. intros x. rewrite H2, setAdd_In. cbn [In]. tauto.
Qed.

Lemma uniqueAuthors_spec (commitData : list CommitData) (set : list string) :
  NoDup set ->
  NoDup (fold_left
           (fun set d =>
              fold_left (fun s author => setAdd author s) (author_names d) set)
           commitData set)
  /\ forall x,
       In x (fold_left
               (fun set d =>
                  fold_left (fun s author => setAdd author s)
                            (author_names d) set)
               commitData set)
       <-> In x set \/ exists d, In d commitData /\ In x (author_names d).
Proof.
  revert set. induction commitData as [ | d ds IH]; intros set Hnd; cbn.
  - split; [ exact Hnd | ]. intros x. split; [ now left | ].
    intros [H | (d & [] & _)]. exact H.
  - destruct (addAll_spec (author_names d) set Hnd) as [H1 H2].
    destruct (IH _ H1) as [H3 H4]. split; [ exact H3 | ].
    intros x. rewrite H4, H2. split.
    + intros [[H | H] | (d' & Hd' & Hx)].
      * now left.
      * right. exists d. split; [ now left | exact H ].
      * right. exists d'. split; [ now right | exact Hx ].
    + intros [H | (d' & [<- | Hd'] & Hx)].
      * left; now left.
      * left; now right.
      * right. now exists d'.
Qed.

(** X25: the list of author names of the report names every author of
    every record once: it has no repetition, and a name is in it exactly
    when it is among the author_names of some record. *)
Theorem calculateCommitStats_authors (commitData : list CommitData) :
  NoDup (authorNames (calculateCommitStats commitData))
  /\ forall x,
       In x (authorNames (calculateCommitStats commitData))
       <-> exists d, In d commitData /\ In x (author_names d).
Proof.
  unfold calculateCommitStats.
  destruct commitData as [ | d ds] eqn:E.
  - cbn. split; [ constructor | ]. intros x. split; [ intros [] | ].
    intros (d & [] & _).
  - rewrite <- E. replace (List.length commitData =? 0)%nat with false
      by (rewrite E; reflexivity).
    cbn [authorNames].
    destruct (uniqueAuthors_spec commitData [] (NoDup_nil _)) as [H1 H2].
    split; [ exact H1 | ]. intros x. rewrite H2. cbn. tauto.
Qed.

Lemma fold_sum_bounds (f g : CommitData -> Z) (ds : list CommitData) :
  Forall (fun d => f d <= g d) ds ->
  forall a b, a <= b ->
    fold_left (fun sum d => sum + f d) ds a
    <= fold_left (fun sum d => sum + g d) ds b.
Proof.
  induction 1 as [ | d ds Hd _ IH]; intros a b Hab; cbn; [ exact Hab | ].
  apply IH. lia.
Qed.

Lemma fold_sum_const (c : Z) (ds : list CommitData) :
  forall a, fold_left (fun sum _ => sum + c) ds a
            = a + c * Z.of_nat (List.length ds).
Proof.
  induction ds as [ | d ds IH]; intros a; cbn [fold_left List.length].
  - lia.
  - rewrite IH. lia.
Qed.

Lemma ratio_ge_one (a b : Z) : 1 <= b <= a -> (1 <= ratio a b)%Q.
Proof.
  intros H. unfold ratio. destruct b as [ | p | p]; try lia.
  unfold Qle, Qdiv, Qmult, Qinv, inject_Z; cbn. nia.
Qed.

Lemma ratio_monotone (a b c : Z) : 1 <= c -> a <= b -> (ratio a c <= ratio b c)%Q.
Proof.
  intros Hc H. unfold ratio. destruct c as [ | p | p]; try lia.
  unfold Qle, Qdiv, Qmult, Qinv, inject_Z; cbn. nia.
Qed.

Variable onlyExistingFiles : bool.
Variable existsSync : string -> bool.

(** X26: the totals of the report on the output of the collector.  For a
    run of the collector that emits at least one record, the report counts at
    least one commit per file, no more bug fixes than commits and no more
    authors per file than commits per file; its average number of commits per
    file is the quotient of the total by the number of files, its average
    number of authors per file is at least 1 and at most the average number
    of commits per file.  On an empty list every number of the report is
    0. *)
Theorem calculateCommitStats_totals repoName now (logOutput : string)
  (out : list CommitData) :
  fetchCommitData repoName onlyExistingFiles existsSync now logOutput = Ok out ->
  out <> [] ->
  Z.of_nat (List.length out) <= totalCommits (calculateCommitStats out)
  /\ 0 <= totalBugFixes (calculateCommitStats out)
       <= totalCommits (calculateCommitStats out)
  /\ avgCommitsPerFile (calculateCommitStats out)
     = ratio (totalCommits (calculateCommitStats out))
             (Z.of_nat (List.length out))
  /\ (1 <= avgAuthorsPerFile (calculateCommitStats out))%Q
  /\ (avgAuthorsPerFile (calculateCommitStats out)
      <= avgCommitsPerFile (calculateCommitStats out))%Q
  /\ calculateCommitStats []
     = {| totalCommits := 0; totalBugFixes := 0; avgCommitsPerFile := 0;
          avgAuthorsPerFile := 0; authorNames := [] |}.
Proof.
  intros Hrun Hne.
  assert (Hok : Forall recordOk out).
  { unfold fetchCommitData in Hrun.
    destruct (processLines _ _ _ _) as [st | e | ] eqn:E; cbn in Hrun;
      try discriminate.
    injection Hrun as <-. apply Forall_map.
    eapply Forall_impl;
      [ | exact (processLines_statsOk onlyExistingFiles existsSync now _ st E) ].
    intros [path s] Hs. now apply toCommitData_recordOk. }
  assert (Hlen : 1 <= Z.of_nat (List.length out)).
  { destruct out; [ congruence | cbn [List.length]; lia ]. }
  unfold calculateCommitStats.
  replace (List.length out =? 0)%nat with false
    by (destruct out; [ congruence | reflexivity ]).
  cbn [totalCommits totalBugFixes avgCommitsPerFile avgAuthorsPerFile].
  set (tc := fold_left (fun sum d => sum + cd_commits d) out 0).
  set (tb := fold_left (fun sum d => sum + cd_bug_commits d) out 0).
  set (ta := fold_left (fun sum d => sum + cd_authors d) out 0).
  assert (H1 : Z.of_nat (List.length out) <= ta).
  { pose proof (fold_sum_bounds (fun _ => 1) cd_authors out) as H.
    specialize (H (Forall_impl _ (fun d Hd => proj1 (proj1 (proj2 Hd))) Hok)
                  0 0 ltac:(lia)).
    cbv beta in H. rewrite fold_sum_const in H. unfold ta. lia. }
  assert (H2 : ta <= tc).
  { apply fold_sum_bounds; [ | lia ].
    eapply Forall_impl; [ | exact Hok ]. intros d Hd.
    exact (proj2 (proj1 (proj2 Hd))). }
  assert (H3 : 0 <= tb).
  { pose proof (fold_sum_bounds (fun _ => 0) cd_bug_commits out) as H.
    specialize (H (Forall_impl _
                     (fun d Hd => proj1 (proj1 (proj2 (proj2 (proj2 (proj2 Hd))))))
                     Hok) 0 0 ltac:(lia)).
    cbv beta in H. rewrite fold_sum_const in H. unfold tb. lia. }
  assert (H4 : tb <= tc).
  { apply fold_sum_bounds; [ | lia ].
    eapply Forall_impl; [ | exact Hok ]. intros d Hd.
    exact (proj2 (proj1 (proj2 (proj2 (proj2 (proj2 Hd)))))). }
  repeat split; try lia.
  - apply ratio_ge_one. lia.
  - apply ratio_monotone; assumption.
Qed.

End CommitStatistics.

Lemma calculateCommitStats_totals_witness :
  exists out,
    GitCommitCollector.fetchCommitData "repo" false (fun _ => true) 0
      Samples.testLogTwoFiles = Ok out
    /\ Z.of_nat (List.length out)
       <= HtmlGenerator.totalCommits (HtmlGenerator.calculateCommitStats out).
Proof.
  eexists. split; [ vm_compute; reflexivity | ].
  refine (proj1 (calculateCommitStats_totals false (fun _ => true) "repo" 0
                   Samples.testLogTwoFiles _ _ _)).
  - vm_compute. reflexivity.
  - discriminate.
Defined.

Section FolderCategory.
Context {num : Type} {N : JsNumber num}.
Variable L : JsNumberLaws num N.

Import XGBoostPredictor HtmlGenerator.

Hypothesis zero_below_tenth : ltb (lit 0 0) (lit 1 (-1)) = true.
Hypothesis tenth_below_fifth : ltb (lit 1 (-1)) (lit 2 (-1)) = true.

(** The class of a folder whose average is [s], beside the class of a file
    whose score is [s]. *)
Lemma folderCategory_categoryClass (s : num) :
  isNaN s = false ->
  folderCategory s
  = match getRiskCategory s with
    | STABLE => if ltb (lit 0 0) s then "stable" else "improved"
    | c => categoryClass c
    end.
Proof.
  intros Hs.
  destruct (thresholds_not_NaN L zero_below_tenth tenth_below_fifth)
    as (N0 & N1 & N2).
  pose proof (ltb_trans num N L) as Htr.
  unfold folderCategory, getRiskCategory, gtb.
  rewrite (leb_ltb num N L s (lit 1 (-1)) Hs N1).
  rewrite (leb_ltb num N L s (lit 2 (-1)) Hs N2).
  destruct (ltb s (lit 0 0)) eqn:E0.
  - (* s < 0 *)
    pose proof (ltb_asym L _ _ E0) as A0.
    pose proof (ltb_asym L _ _ (Htr _ _ _ E0 zero_below_tenth)) as A1.
    pose proof (ltb_asym L _ _
                  (Htr _ _ _ (Htr _ _ _ E0 zero_below_tenth) tenth_below_fifth))
      as A2.
    now rewrite A0, A1, A2.
  - destruct (ltb (lit 2 (-1)) s) eqn:E2; cbn [negb].
    + rewrite (Htr _ _ _ tenth_below_fifth E2). reflexivity.
    + destruct (ltb (lit 1 (-1)) s) eqn:E1; cbn [negb]; reflexivity.
Qed.

End FolderCategory.

(** X27: the badge of a folder and the badge of a file do not follow the
    same thresholds at zero and at NaN.  For every score that is a number
    other than zero, a folder whose average is that score gets the class a
    file with that score gets; at exactly 0 the folder is improved where the
    file is stable; for NaN the folder is improved where the file is
    severely-degraded; and a folder that holds one file has the score of the
    file as its average (in exact arithmetic) and counts one file. *)
Theorem folder_badge_and_file_badge :
  (forall r : R,
      r <> 0%R ->
      HtmlGenerator.folderCategory (XR r)
      = HtmlGenerator.categoryClass (XGBoostPredictor.getRiskCategory (XR r)))
  /\ (forall s : float,
         PrimFloat.is_nan s = false ->
         PrimFloat.ltb 0 s = true \/ PrimFloat.ltb s 0 = true ->
         HtmlGenerator.folderCategory s
         = HtmlGenerator.categoryClass (XGBoostPredictor.getRiskCategory s))
  /\ (HtmlGenerator.folderCategory (XR 0) = "improved"
      /\ HtmlGenerator.categoryClass (XGBoostPredictor.getRiskCategory (XR 0))
         = "stable")
  /\ (HtmlGenerator.folderCategory XNaN = "improved"
      /\ HtmlGenerator.categoryClass (XGBoostPredictor.getRiskCategory XNaN)
         = "severely-degraded")
  /\ (forall (folder file : string) (p : XGBoostPredictor.RiskPrediction xreal)
             (r : R),
         XGBoostPredictor.degradation_score p = XR r ->
         HtmlGenerator.calculateFolderStats (ReportSpec.folderOfOne folder file p)
         = {| HtmlGenerator.avgScore := XR r;
              HtmlGenerator.fileCount := 1;
              HtmlGenerator.category := HtmlGenerator.folderCategory (XR r) |}).
Proof.
  assert (E0 : (lit 0 0 : xreal) = XR 0) by apply exact_lit0.
  assert (E1 : (lit 1 (-1) : xreal) = XR (1 / 10)) by reflexivity.
  assert (E2 : (lit 2 (-1) : xreal) = XR (2 / 10)) by reflexivity.
  assert (H01 : ltb (lit 0 0) (lit 1 (-1) : xreal) = true).
  { rewrite E0, E1. apply exact_ltb_iff. lra. }
  assert (H12 : ltb (lit 1 (-1)) (lit 2 (-1) : xreal) = true).
  { rewrite E1, E2. apply exact_ltb_iff. lra. }
  split; [ | split; [ | split; [ | split; [ | ] ] ] ].
  - intros r Hr.
    rewrite (folderCategory_categoryClass exact_laws H01 H12 (XR r) eq_refl).
    destruct (XGBoostPredictor.getRiskCategory (XR r)) eqn:C; try reflexivity.
    rewrite E0.
    destruct (ltb (XR 0) (XR r)) eqn:Ep; [ reflexivity | exfalso ].
    unfold XGBoostPredictor.getRiskCategory in C. rewrite E0 in C.
    cbn in C, Ep.
    destruct (Rlt_dec r 0); [ discriminate C | ].
    destruct (Rlt_dec 0 r); [ discriminate Ep | ]. lra.
  - intros s Hs Hz.
    rewrite (folderCategory_categoryClass float_laws eq_refl eq_refl s Hs).
    destruct (XGBoostPredictor.getRiskCategory s) eqn:C; try reflexivity.
    destruct Hz as [Hz | Hz].
    + change (ltb (lit 0 0) s) with (PrimFloat.ltb 0 s). now rewrite Hz.
    + unfold XGBoostPredictor.getRiskCategory in C.
      change (ltb s (lit 0 0)) with (PrimFloat.ltb s 0) in C.
      rewrite Hz in C. discriminate C.
  - split.
    + unfold HtmlGenerator.folderCategory, gtb. rewrite E0, E1, E2. cbn.
      destruct (Rlt_dec (2 / 10) 0); [ lra | ].
      destruct (Rlt_dec (1 / 10) 0); [ lra | ].
      destruct (Rlt_dec 0 0); [ lra | reflexivity ].
    + unfold XGBoostPredictor.getRiskCategory. rewrite E0, E1. cbn.
      destruct (Rlt_dec 0 0); [ lra | ].
      destruct (Rle_dec 0 (1 / 10)); [ reflexivity | lra ].
  - split; reflexivity.
  - intros folder file p r Hp.
    unfold HtmlGenerator.calculateFolderStats, ReportSpec.folderOfOne.
    cbn [HtmlGenerator.traverse fold_left fst snd]. rewrite Hp, E0.
    cbn [add Exact.number Exact.lift2 Z.add Z.ltb Z.compare].
    assert (Ed : div (XR (0 + r)) (lit 1 0) = XR r).
    { rewrite exact_lit0. cbn.
      destruct (Req_dec_T 1 0) as [E | _]; [ lra | ]. f_equal. field. }
    cbn [Z.add Pos.add] in *. rewrite Ed. reflexivity.
Qed.

(* ================================================================== *)
(** * Further properties of the scorer: the base score *)
(* ================================================================== *)

Section BaseScore.
Context {num : Type} {N : JsNumber num}.

Import Js XGBoostPredictor RenameSpec.

Lemma baseScore_search (s : string) :
  hasChar "[" s = false ->
  forall pos, search baseScorePattern pos s = None.
Proof.
  change baseScorePattern
    with (RSeq (RLit "[")
               (RSeq (RGroup 1 (RPlus (RChar baseScoreChar)))
                     (RSeq (RLit "]") REmpty))).
  induction s as [ | c s IH]; intros H pos.
  - reflexivity.
  - cbn [hasChar] in H. apply orb_false_iff in H as [Hc Hs].
    cbn [search]. rewrite lit_char. cbn [rest]. rewrite Hc. now apply IH.
Qed.

(** X28: a base score is read only from between square brackets: when the
    model has no base score, or an empty one, or one with no opening bracket
    in it (such as 0.3 written plainly), the base score used is the default
    0.5. *)
Theorem baseScore_default (m : XGBoostModel num) :
  match base_score m with
  | Some baseScoreStr => hasChar "[" baseScoreStr = false
  | None => True
  end ->
  baseScore m = lit 5 (-1).
Proof.
  unfold baseScore. destruct (base_score m) as [str | ]; [ | reflexivity ].
  intros H. destruct (String.length str =? 0)%nat; [ reflexivity | ].
  unfold exec. now rewrite (baseScore_search str H 0).
Qed.

End BaseScore.

Lemma baseScore_default_witness :
  XGBoostPredictor.baseScore (Samples.noTrees (num := float) (Some "0.3"))
  = lit 5 (-1).
Proof.
  apply (baseScore_default (Samples.noTrees (Some "0.3"))).
  reflexivity.
Defined.
